(** * SimplyTransport: the GTFS import commands of [cli.py]

  A shallow embedding of [gtfs_directory_validator], [importgtfs] and
  [importrealtime] from [src/SimplyTransport/cli.py].

  The commands are sequential Python with calls into collaborators
  (the filesystem, the console, the importer library, the event
  repository, the clock).  A command is embedded as a computation in a
  small monad that
    - records every call to a collaborator in a trace, in program order,
    - stops at the first Python exception that nobody catches,
    - counts the readings of [time.perf_counter].
  What a collaborator answers is read from a [World] record of oracles,
  so every theorem below holds for every behaviour of the collaborators.
  An oracle gives the same answer to the same question throughout a run:
  the commands do not write to the directory they read, and each importer
  object is used for one file only.  The interactive shell (option
  parsing, the texts printed, the progress spinner) is kept only as far
  as the order of its calls. *)

From Stdlib Require Import String Ascii List ZArith Bool Arith Lia.
Import ListNotations.
Local Open Scope string_scope.
Local Open Scope list_scope.

(** ** Python strings *)

Module PyStr.

(** [s.split(sep)] for a separator of one character. *)
Fixpoint split (sep : ascii) (s : string) : list string :=
  match s with
  | EmptyString => [EmptyString]
  | String c r =>
      if Ascii.eqb c sep then EmptyString :: split sep r
      else match split sep r with
           | seg :: segs => String c seg :: segs
           | [] => [String c EmptyString]
           end
  end.

(** [s.replace(old, new)] for a non-empty [old]: the occurrences of [old]
    are replaced from left to right, without overlap.  [skip] counts the
    characters of an occurrence that are still to be dropped. *)
Fixpoint replace_from (old new : string) (skip : nat) (s : string) : string :=
  match s with
  | EmptyString => EmptyString
  | String c r =>
      match skip with
      | S k => replace_from old new k r
      | O =>
          if String.prefix old s
          then new ++ replace_from old new (String.length old - 1) r
          else String c (replace_from old new 0 r)
      end
  end.

Definition replace (old new s : string) : string := replace_from old new 0 s.

(** Does the character [c] occur in [s]? *)
Fixpoint mem (c : ascii) (s : string) : bool :=
  match s with
  | EmptyString => false
  | String d r => Ascii.eqb d c || mem c r
  end.

End PyStr.

(** [l[-k]] for [k >= 1]; [None] stands for Python's [IndexError]. *)
Definition index_from_end {A : Type} (l : list A) (k : nat) : option A :=
  if Nat.ltb (length l) k then None else nth_error l (length l - k).

(** ** Exceptions and results *)

(** The exceptions that matter to the commands.  [ValueError] is what the
  [except] clause of [importgtfs] catches; [LibError] is any other
  exception class raised by a collaborator (HeaderMismatch,
  RowConversionError, a database error, ...). *)
Inductive exn : Type :=
| AttributeError
| IndexError
| KeyError
| TypeError
| UnboundLocalError
| ValueError
| LibError (cls : string).

Definition is_ValueError (e : exn) : bool :=
  match e with ValueError => true | _ => false end.

Inductive result (A : Type) : Type :=
| Ok (a : A)
| Raise (e : exn).
Arguments Ok {A} a.
Arguments Raise {A} e.

Definition is_ok {A : Type} (r : result A) : bool :=
  match r with Ok _ => true | Raise _ => false end.

(** ** Floating point numbers

  The commands read the clock and subtract, add and round the readings.
  Nothing below depends on what these operations compute, so they are
  an interface. *)
Class FloatArith : Type := {
  float : Type;
  fzero : float;                      (* 0.0 *)
  fadd : float -> float -> float;     (* x + y *)
  fsub : float -> float -> float;     (* x - y *)
  fround2 : float -> float            (* round(x, 2) *)
}.

Inductive EventType : Type :=
| GTFS_DATABASE_UPDATED
| REALTIME_DATABASE_UPDATED.

Section Commands.

Context `{FA : FloatArith}.

(** ** Python values that end up in reports and feeds *)

#[warnings="-register-all"]
Inductive pyval : Type :=
| VInt (z : Z)
| VFloat (x : float)
| VStr (s : string)
| VList (xs : list pyval)
| VDict (items : list (string * pyval)).

(** A [dict] with string keys keeps its keys in insertion order. *)
Definition dict : Type := list (string * pyval).

(** [d[k] = v]: overwrite in place, or append a new key. *)
Fixpoint dict_set (d : dict) (k : string) (v : pyval) : dict :=
  match d with
  | [] => [(k, v)]
  | (k', v') :: r =>
      if String.eqb k' k then (k', v) :: r else (k', v') :: dict_set r k v
  end.

Fixpoint dict_get (d : dict) (k : string) : option pyval :=
  match d with
  | [] => None
  | (k', v') :: r => if String.eqb k' k then Some v' else dict_get r k
  end.

Definition dict_keys (d : dict) : list string := map fst d.

(** [v[k]] for a string key. *)
Definition subscript (v : pyval) (k : string) : result pyval :=
  match v with
  | VDict items =>
      match dict_get items k with
      | Some x => Ok x
      | None => Raise KeyError
      end
  | _ => Raise TypeError
  end.

(** [len(v)]. *)
Definition py_len (v : pyval) : result nat :=
  match v with
  | VStr s => Ok (String.length s)
  | VList xs => Ok (length xs)
  | VDict items => Ok (length items)
  | _ => Raise TypeError
  end.

(** ** Collaborators *)

(** What the console is asked to print; the values interpolated into the
    text are the arguments. *)
Inductive message : Type :=
| MsgImportingStatic
| MsgUsingDirectory (dir : string)
| MsgDirectoryDoesNotExist (dir : string)
| MsgNoDirectorySpecified (dir : string)
| MsgAborting
| MsgFileDoesNotExist (file : string)
| MsgNoSupportedImporter (file : string)
| MsgLoaded (importer : string) (row_count : Z)
| MsgFinished (seconds : float)
| MsgImportingRealtime
| MsgOverridingURL (url : string)
| MsgOverridingApiKey (key : string)
| MsgOverridingDataset (dataset : string)
| MsgImportingUsing (dataset url : string)
| MsgNoData
| MsgEntitiesReturned (n : nat)
| MsgImportingStopTimes
| MsgImportingTrips.

(** The handle returned by [GTFSImporter.get_reader]. *)
Definition Reader : Type := string.

(** [imp.GTFSImporter(file, dir)]: an object with two methods. *)
Record GTFSImporter : Type := {
  get_reader : result Reader;
  get_row_count : result Z
}.

(** The object returned by [imp.get_importer_for_file]. *)
Record Importer : Type := {
  importer_repr : string;
  clear_table : result unit;
  import_data : result unit
}.

(** [RealTimeImporter(url, api_key, dataset)]. *)
Record RealTimeImporter : Type := {
  get_data : result (option pyval);
  clear_table_stop_trip : result unit;
  import_stop_times : pyval -> result Z;
  import_trips : pyval -> result Z
}.

Record Settings : Type := {
  GTFS_TFI_REALTIME_URL : string;
  GTFS_TFI_API_KEY_1 : string;
  GTFS_TFI_DATASET : string
}.

Record World : Type := {
  os_path_exists : string -> bool;
  os_path_isdir : string -> bool;
  os_path_isfile : string -> bool;
  click_prompt : string -> string;
  perf_counter_at : nat -> float;
  imp_GTFSImporter : string -> string -> result GTFSImporter;
  imp_get_importer_for_file : string -> Reader -> Z -> string -> result Importer;
  create_event_with_session : EventType -> string -> pyval -> result unit;
  settings_app : Settings;
  new_RealTimeImporter : string -> string -> string -> result RealTimeImporter
}.

(** Every call that leaves the command. *)
Inductive effect : Type :=
| EPrint (m : message)
| EPrompt (dataset : string)
| EExists (path : string)
| EIsDir (path : string)
| EIsFile (path : string)
| ENewGTFSImporter (file dir : string)
| EGetReader (file : string)
| EGetRowCount (file : string)
| EGetImporterForFile (file : string) (row_count : Z) (dataset : string)
| EClearTable (file : string)
| EImportData (file : string)
| ENewRealTimeImporter (url api_key dataset : string)
| EGetData
| EClearTableStopTrip
| EImportStopTimes (data : pyval)
| EImportTrips (data : pyval)
| ECreateEvent (ty : EventType) (msg : string) (attributes : pyval).

(** ** The monad of commands

    A computation starts with the number of clock readings made so far
    and gives its result, the new number of readings and the effects it
    performed, oldest first. *)
Definition M (A : Type) : Type := nat -> result A * nat * list effect.

Definition ret {A : Type} (a : A) : M A := fun n => (Ok a, n, []).

Definition bind {A B : Type} (m : M A) (k : A -> M B) : M B :=
  fun n =>
    match m n with
    | (Ok a, n1, t1) =>
        match k a n1 with
        | (r, n2, t2) => (r, n2, t1 ++ t2)
        end
    | (Raise e, n1, t1) => (Raise e, n1, t1)
    end.

Definition raise {A : Type} (e : exn) : M A := fun n => (Raise e, n, []).

(** A call to a collaborator: recorded, then its answer. *)
Definition call {A : Type} (e : effect) (answer : result A) : M A :=
  fun n => (answer, n, [e]).

Definition emit (e : effect) : M unit := call e (Ok tt).

Definition console_print (m : message) : M unit := emit (EPrint m).

(** [try: m  except ValueError: handler]. *)
Definition try_except_ValueError {A : Type} (m : M A) (handler : M A) : M A :=
  fun n =>
    match m n with
    | (Raise e, n1, t1) =>
        if is_ValueError e
        then match handler n1 with
             | (r, n2, t2) => (r, n2, t1 ++ t2)
             end
        else (Raise e, n1, t1)
    | ok => ok
    end.

(** A pure operation that may raise. *)
Definition lift {A : Type} (r : result A) : M A := fun n => (r, n, []).

Definition outcome {A : Type} (x : result A * nat * list effect) : result A :=
  fst (fst x).
Definition ticks {A : Type} (x : result A * nat * list effect) : nat :=
  snd (fst x).
Definition trace {A : Type} (x : result A * nat * list effect) : list effect :=
  snd x.

(** The run [x], after the effects [t]. *)
Definition after {A : Type} (t : list effect) (x : result A * nat * list effect)
  : result A * nat * list effect :=
  (outcome x, ticks x, t ++ trace x).

End Commands.

Declare Scope cmd_scope.
Delimit Scope cmd_scope with cmd.
Notation "x <- m ;; k" := (bind m (fun x => k))
(at level 100, m at next level, right associativity) : cmd_scope.
Notation "m ;;; k" := (bind m (fun _ => k))
(at level 100, right associativity) : cmd_scope.

Local Open Scope cmd_scope.

Section Cli.

Context `{FA : FloatArith}.
Variable w : World.

(** [time.perf_counter()]: the next reading of the clock. *)
Definition perf_counter : M float :=
  fun n => (Ok (perf_counter_at w n), S n, []).

Definition path_exists (p : string) : M bool :=
  call (EExists p) (Ok (os_path_exists w p)).
Definition path_isdir (p : string) : M bool :=
  call (EIsDir p) (Ok (os_path_isdir w p)).
Definition path_isfile (p : string) : M bool :=
  call (EIsFile p) (Ok (os_path_isfile w p)).

Definition default_directory : string := "./gtfs_data/TFI/".

(** [gtfs_directory_validator(dir, console)]; the result [None] is
    Python's [None], which the bare [return] gives. *)
Definition gtfs_directory_validator (dir : option string) : M (option string) :=
  match dir with
  | Some (String _ _ as d) =>
      e <- path_exists d ;;
      ok <- (if e then path_isdir d else ret false) ;;
      if ok then console_print (MsgUsingDirectory d) ;;; ret (Some d)
      else console_print (MsgDirectoryDoesNotExist d) ;;; ret None
  | _ =>
      console_print (MsgNoDirectorySpecified default_directory) ;;;
      ret (Some default_directory)
  end.

Definition files_to_import : list string :=
  [ "agency.txt"; "calendar.txt"; "calendar_dates.txt"; "routes.txt";
    "stops.txt"; "trips.txt"; "stop_times.txt"; "shapes.txt" ].

(** The local variables of [importgtfs] that the loop assigns.  [finish]
    is unbound until the first file is imported. *)
Record locals : Type := {
  attributes_of_total_rows : dict;
  total_time_taken : float;
  finish : option float
}.

Definition base_name (file : string) : string := PyStr.replace ".txt" "" file.

Definition entry_missing (file : string) : pyval :=
  VDict [ ("time_taken(s)", VInt 0);
          ("row_count", VInt 0);
          ("error", VStr ("File '" ++ file ++ "' does not exist.")) ].

Definition entry_unsupported (file : string) (row_count : Z) : pyval :=
  VDict [ ("time_taken(s)", VInt 0);
          ("row_count", VInt row_count);
          ("error", VStr ("File '" ++ file ++ "' does not have a supported importer.")) ].

Definition entry_imported (time_taken : float) (row_count : Z) : pyval :=
  VDict [ ("time_taken(s)", VFloat time_taken);
          ("row_count", VInt row_count) ].

Definition record_entry (l : locals) (file : string) (entry : pyval) : locals :=
  {| attributes_of_total_rows :=
       dict_set (attributes_of_total_rows l) (base_name file) entry;
     total_time_taken := total_time_taken l;
     finish := finish l |}.

(** One iteration of [for file in files_to_import]; returning early is
    [continue]. *)
Definition process_file (dir dataset : string) (l : locals) (file : string)
  : M locals :=
  file_start <- perf_counter ;;
  e <- path_exists dir ;;
  present <- (if e then path_isfile (dir ++ file) else ret false) ;;
  if negb present then
    console_print (MsgFileDoesNotExist file) ;;;
    ret (record_entry l file (entry_missing file))
  else
    generic_importer <- call (ENewGTFSImporter file dir) (imp_GTFSImporter w file dir) ;;
    reader <- call (EGetReader file) (get_reader generic_importer) ;;
    row_count <- call (EGetRowCount file) (get_row_count generic_importer) ;;
    dispatched <-
      try_except_ValueError
        (importer <- call (EGetImporterForFile file row_count dataset)
                          (imp_get_importer_for_file w file reader row_count dataset) ;;
         ret (inl importer))
        (console_print (MsgNoSupportedImporter file) ;;;
         ret (inr (record_entry l file (entry_unsupported file row_count)))) ;;
    match dispatched with
    | inr skipped => ret skipped
    | inl importer =>
        console_print (MsgLoaded (importer_repr importer) row_count) ;;;
        call (EClearTable file) (clear_table importer) ;;;
        call (EImportData file) (import_data importer) ;;;
        finish' <- perf_counter ;;
        let time_taken := fround2 (fsub finish' file_start) in
        ret {| attributes_of_total_rows :=
                 dict_set (attributes_of_total_rows l) (base_name file)
                          (entry_imported time_taken row_count);
               total_time_taken := fadd (total_time_taken l) time_taken;
               finish := Some finish' |}
    end.

Fixpoint for_each_file (dir dataset : string) (files : list string) (l : locals)
  : M locals :=
  match files with
  | [] => ret l
  | file :: rest =>
      l' <- process_file dir dataset l file ;;
      for_each_file dir dataset rest l'
  end.

Definition static_attributes (dataset : string) (l : locals) : pyval :=
  VDict [ ("dataset", VStr dataset);
          ("totals", VDict (attributes_of_total_rows l));
          ("total_time_taken(s)", VFloat (total_time_taken l)) ].

Definition static_event_message : string :=
  "GTFS static data updated with latest schedules".

(** [dir.split("/")[-2]]. *)
Definition dataset_of (dir : string) : option string :=
  index_from_end (PyStr.split "/" dir) 2.

(** The locals before the loop: [attributes_of_total_rows = {}],
    [total_time_taken = 0.0], and no [finish] yet. *)
Definition initial_locals : locals :=
  {| attributes_of_total_rows := []; total_time_taken := fzero; finish := None |}.

(** The body of [importgtfs] from the second [start = time.perf_counter()]
    on: the loop over the files, the event and the closing line. *)
Definition import_files (dir dataset : string) : M unit :=
  start <- perf_counter ;;
  l <- for_each_file dir dataset files_to_import initial_locals ;;
  call (ECreateEvent GTFS_DATABASE_UPDATED static_event_message
                     (static_attributes dataset l))
       (create_event_with_session w GTFS_DATABASE_UPDATED
          static_event_message (static_attributes dataset l)) ;;;
  match finish l with
  | None => raise UnboundLocalError
  | Some f => console_print (MsgFinished (fround2 (fsub f start)))
  end.

(** The command [importgtfs -dir DIR].  [dir.split] on [None] is an
    [AttributeError], [dir_path[-2]] on a single segment an [IndexError]. *)
Definition importgtfs (dir : option string) : M unit :=
  _start <- perf_counter ;;
  console_print MsgImportingStatic ;;;
  validated <- gtfs_directory_validator dir ;;
  match validated with
  | None => raise AttributeError
  | Some dir =>
      match dataset_of dir with
      | None => raise IndexError
      | Some dataset =>
          response <- call (EPrompt dataset) (Ok (click_prompt w dataset)) ;;
          if negb (String.eqb response "y") then
            console_print MsgAborting ;;; ret tt
          else import_files dir dataset
      end
  end.

(** *** Reading the world

    What the oracles say about a file, seen from one iteration. *)

(** The guard [os.path.exists(dir) and os.path.isfile(dir + file)]. *)
Definition present (dir file : string) : bool :=
  os_path_exists w dir && os_path_isfile w (dir ++ file).

(** The probes that the guard makes; [and] does not evaluate its second
    operand when the first is false. *)
Definition probes (dir file : string) : list effect :=
  EExists dir :: (if os_path_exists w dir then [EIsFile (dir ++ file)] else []).

(** The file is there, its rows can be read and counted, and the
    registry has no importer for it. *)
Definition unsupported (dir dataset file : string) (row_count : Z) : Prop :=
  present dir file = true /\
  exists generic_importer reader,
    imp_GTFSImporter w file dir = Ok generic_importer /\
    get_reader generic_importer = Ok reader /\
    get_row_count generic_importer = Ok row_count /\
    imp_get_importer_for_file w file reader row_count dataset = Raise ValueError.

(** The file is there and the registry returns [importer] for it. *)
Definition dispatched_to (dir dataset file : string) (row_count : Z)
  (importer : Importer) : Prop :=
  present dir file = true /\
  exists generic_importer reader,
    imp_GTFSImporter w file dir = Ok generic_importer /\
    get_reader generic_importer = Ok reader /\
    get_row_count generic_importer = Ok row_count /\
    imp_get_importer_for_file w file reader row_count dataset = Ok importer.

(** [clear_table()] or [import_data()] of the file's importer raises [e]. *)
Definition import_raises (dir dataset file : string) (e : exn) : Prop :=
  exists row_count importer,
    dispatched_to dir dataset file row_count importer /\
    (clear_table importer = Raise e \/
     (clear_table importer = Ok tt /\ import_data importer = Raise e)).

(** The file does not reach the successful-import branch: it is absent
    or unsupported. *)
Definition skipped (dir dataset file : string) : Prop :=
  present dir file = false \/ exists row_count, unsupported dir dataset file row_count.

(** The run passes the directory check with [d], derives [dataset] and is
    confirmed at the prompt. *)
Definition confirmed (dir : option string) (d dataset : string) : Prop :=
  outcome (gtfs_directory_validator dir 0) = Ok (Some d) /\
  dataset_of d = Some dataset /\
  click_prompt w dataset = "y".

(** ** The realtime command *)

Definition realtime_event_message : string :=
  "Realtime database updated with new realtime information".

Definition realtime_attributes (dataset : string) (total_trips total_stop_times : Z)
  (time_taken : float) : pyval :=
  VDict [ ("dataset", VStr dataset);
          ("total_trips", VInt total_trips);
          ("total_stop_times", VInt total_stop_times);
          ("time_taken(s)", VFloat time_taken) ].

(** [if opt: x = opt; print(...) else: x = default]. *)
Definition override (opt : option string) (msg : string -> message)
  (default : string) : M string :=
  match opt with
  | Some (String _ _ as v) => console_print (msg v) ;;; ret v
  | _ => ret default
  end.

(** The command [importrealtime -url URL -apikey KEY -dataset DATASET]. *)
Definition importrealtime (url apikey dataset : option string) : M unit :=
  start <- perf_counter ;;
  console_print MsgImportingRealtime ;;;
  realtime_url <- override url MsgOverridingURL
                    (GTFS_TFI_REALTIME_URL (settings_app w)) ;;
  realtime_apikey <- override apikey MsgOverridingApiKey
                       (GTFS_TFI_API_KEY_1 (settings_app w)) ;;
  realtime_dataset <- override dataset MsgOverridingDataset
                        (GTFS_TFI_DATASET (settings_app w)) ;;
  importer <- call (ENewRealTimeImporter realtime_url realtime_apikey realtime_dataset)
                   (new_RealTimeImporter w realtime_url realtime_apikey realtime_dataset) ;;
  console_print (MsgImportingUsing realtime_dataset realtime_url) ;;;
  data <- call EGetData (get_data importer) ;;
  match data with
  | None => console_print MsgNoData ;;; ret tt
  | Some data =>
      entity <- lift (subscript data "entity") ;;
      n <- lift (py_len entity) ;;
      console_print (MsgEntitiesReturned n) ;;;
      call EClearTableStopTrip (clear_table_stop_trip importer) ;;;
      console_print MsgImportingStopTimes ;;;
      total_stop_times <- call (EImportStopTimes data) (import_stop_times importer data) ;;
      console_print MsgImportingTrips ;;;
      total_trips <- call (EImportTrips data) (import_trips importer data) ;;
      finish <- perf_counter ;;
      let attributes :=
        realtime_attributes realtime_dataset total_trips total_stop_times
                            (fround2 (fsub finish start)) in
      call (ECreateEvent REALTIME_DATABASE_UPDATED realtime_event_message attributes)
           (create_event_with_session w REALTIME_DATABASE_UPDATED
              realtime_event_message attributes) ;;;
      console_print (MsgFinished (fround2 (fsub finish start)))
  end.

End Cli.

(** ** Reading traces *)

Section Traces.

Context `{FA : FloatArith}.

Definition is_event (e : effect) : bool :=
  match e with ECreateEvent _ _ _ => true | _ => false end.

(** The calls that change a table. *)
Definition is_table_mutation (e : effect) : bool :=
  match e with
  | EClearTable _ | EImportData _
  | EClearTableStopTrip | EImportStopTimes _ | EImportTrips _ => true
  | _ => false
  end.

Definition is_insertion (e : effect) : bool :=
  match e with EImportStopTimes _ | EImportTrips _ => true | _ => false end.

Definition is_clear_stop_trip (e : effect) : bool :=
  match e with EClearTableStopTrip => true | _ => false end.

Definition is_prompt (e : effect) : bool :=
  match e with EPrompt _ => true | _ => false end.

(** The file an effect of the static loop is about. *)
Definition file_of (e : effect) : option string :=
  match e with
  | EPrint (MsgFileDoesNotExist f) | EPrint (MsgNoSupportedImporter f)
  | ENewGTFSImporter f _ | EGetReader f | EGetRowCount f
  | EGetImporterForFile f _ _ | EClearTable f | EImportData f => Some f
  | _ => None
  end.

(** An iteration of the static loop shows itself once: it either reports
    the file missing or constructs a [GTFSImporter] for it. *)
Definition visit_of (e : effect) : list string :=
  match e with
  | EPrint (MsgFileDoesNotExist f) | ENewGTFSImporter f _ => [f]
  | _ => []
  end.

Definition visits (t : list effect) : list string := flat_map visit_of t.

(** The files that a run reports as missing. *)
Definition reported_missing (t : list effect) : list string :=
  flat_map (fun e => match e with
                     | EPrint (MsgFileDoesNotExist f) => [f]
                     | _ => []
                     end) t.

(** What an iteration of the static loop does for [file] once it has
    constructed the [GTFSImporter]. *)
Definition is_body_step (file : string) (e : effect) : bool :=
  match e with
  | EGetReader f | EGetRowCount f | EGetImporterForFile f _ _
  | EClearTable f | EImportData f | EPrint (MsgNoSupportedImporter f) =>
      String.eqb f file
  | EPrint (MsgLoaded _ _) => true
  | _ => false
  end.

(** Everything an iteration of the static loop may do for [file] in the
    directory [dir]. *)
Definition is_iteration_step (dir file : string) (e : effect) : bool :=
  match e with
  | EExists d => String.eqb d dir
  | EIsFile p => String.eqb p (dir ++ file)
  | EPrint (MsgFileDoesNotExist f) => String.eqb f file
  | ENewGTFSImporter f d => String.eqb f file && String.eqb d dir
  | _ => is_body_step file e
  end.

(** An effect of the loop over [files]. *)
Definition loop_step (dir : string) (files : list string) (e : effect) : Prop :=
  exists file, In file files /\ is_iteration_step dir file e = true.

(** What [importgtfs] does before it asks for confirmation. *)
Definition is_preamble (e : effect) : bool :=
  match e with
  | EPrint MsgImportingStatic | EPrint (MsgUsingDirectory _)
  | EPrint (MsgDirectoryDoesNotExist _) | EPrint (MsgNoDirectorySpecified _)
  | EExists _ | EIsDir _ => true
  | _ => false
  end.

Definition events (t : list effect) : list effect := filter is_event t.

(** In a realtime trace: the tables are cleared at most once, and nothing
    is inserted before they are cleared.  [cleared] tells whether the
    clearing has happened. *)
Fixpoint cleared_then_inserted (cleared : bool) (t : list effect) : bool :=
  match t with
  | [] => true
  | EClearTableStopTrip :: r => negb cleared && cleared_then_inserted true r
  | EImportStopTimes _ :: r | EImportTrips _ :: r =>
      cleared && cleared_then_inserted cleared r
  | _ :: r => cleared_then_inserted cleared r
  end.

(** The three entries that the loop writes for [file]. *)
Definition is_file_entry (file : string) (v : pyval) : Prop :=
  v = entry_missing file \/
  (exists row_count, v = entry_unsupported file row_count) \/
  (exists time_taken row_count, v = entry_imported time_taken row_count).

(** [attributes_of_total_rows] during the loop: every key is the base
    name of a file of the list and its value an entry for that file. *)
Definition is_totals (d : dict) : Prop :=
  Forall (fun kv => exists file, In file files_to_import /\
                      fst kv = base_name file /\ is_file_entry file (snd kv)) d.

(** The keys of a dict after [d[k] = ...]. *)
Definition add_key (keys : list string) (k : string) : list string :=
  if existsb (fun k' => String.eqb k' k) keys then keys else keys ++ [k].

End Traces.

(** ** The realtime tables

    [SimplyTransport.lib.gtfs_realtime_importers] is not among the
    sources either. *)

Section RealtimeTables.

Context `{FA : FloatArith}.

Record RTTables : Type := {
  rt_trip : list pyval;
  rt_stop_time : list pyval
}.

(** The records that the two conversions derive from a feed. *)
Variable trip_records : pyval -> list pyval.
Variable stop_time_records : pyval -> list pyval.

(** Modelled from the spec: what the calls of the Realtime Importer
    (section 4.5), which is missing from the sources, do to the tables:
    [clear_table_stop_trip] truncates both, [import_stop_times] and
    [import_trips] bulk-insert the records derived from the feed. *)
Definition apply_effect (tables : RTTables) (e : effect) : RTTables :=
  match e with
  | EClearTableStopTrip => {| rt_trip := []; rt_stop_time := [] |}
  | EImportStopTimes data =>
      {| rt_trip := rt_trip tables;
         rt_stop_time := rt_stop_time tables ++ stop_time_records data |}
  | EImportTrips data =>
      {| rt_trip := rt_trip tables ++ trip_records data;
         rt_stop_time := rt_stop_time tables |}
  | _ => tables
  end.

Definition replay (tables : RTTables) (t : list effect) : RTTables :=
  fold_left apply_effect t tables.

End RealtimeTables.

(** The value an option of the realtime command resolves to, and what is
    printed when it overrides the setting. *)
Definition resolve (opt : option string) (default : string) : string :=
  match opt with
  | Some (String _ _ as v) => v
  | _ => default
  end.

Definition override_prints {FA : FloatArith} (opt : option string)
  (msg : string -> message) : list effect :=
  match opt with
  | Some (String _ _ as v) => [EPrint (msg v)]
  | _ => []
  end.

Section RealtimeReading.

Context `{FA : FloatArith}.

(** The importer that [importrealtime] constructs. *)
Definition realtime_importer_of (w : World) (url apikey dataset : option string)
  : result RealTimeImporter :=
  new_RealTimeImporter w
    (resolve url (GTFS_TFI_REALTIME_URL (settings_app w)))
    (resolve apikey (GTFS_TFI_API_KEY_1 (settings_app w)))
    (resolve dataset (GTFS_TFI_DATASET (settings_app w))).

(** How often [clear_table_stop_trip] is called. *)
Definition count_clears (t : list effect) : nat :=
  length (filter is_clear_stop_trip t).

End RealtimeReading.

Section StaticEffects.

Context `{FA : FloatArith}.

(** Every effect of a run of [importgtfs dir]; [d] is the directory the
    run works in. *)
Definition static_effect (dir : option string) (e : effect) : Prop :=
  let d := resolve dir default_directory in
  is_preamble e = true \/
  (exists dataset, e = EPrompt dataset /\ dataset_of d = Some dataset) \/
  e = EPrint MsgAborting \/
  loop_step d files_to_import e \/
  (exists dataset l,
     e = ECreateEvent GTFS_DATABASE_UPDATED static_event_message
           (static_attributes dataset l) /\
     dataset_of d = Some dataset /\
     is_totals (attributes_of_total_rows l)) \/
  (exists seconds, e = EPrint (MsgFinished seconds)).

(** The entries of the files that were not imported. *)
Definition is_skip_entry (file : string) (v : pyval) : Prop :=
  v = entry_missing file \/ exists row_count, v = entry_unsupported file row_count.

(** Totals in which every file was skipped. *)
Definition all_skipped (d : dict) : Prop :=
  Forall (fun kv => exists file, In file files_to_import /\
                      fst kv = base_name file /\ is_skip_entry file (snd kv)) d.

(** The two commands of the import pipeline. *)
Inductive command : Type :=
| ImportGtfs (dir : option string)
| ImportRealtime (url apikey dataset : option string).

Definition run_command (w : World) (c : command) : M unit :=
  match c with
  | ImportGtfs dir => importgtfs w dir
  | ImportRealtime url apikey dataset => importrealtime w url apikey dataset
  end.

(** The entry of one file in a static report. *)
Definition file_report_shape (v : pyval) : Prop :=
  (exists time_taken row_count,
     v = VDict [ ("time_taken(s)", VFloat time_taken);
                 ("row_count", VInt row_count) ]) \/
  (exists row_count error,
     v = VDict [ ("time_taken(s)", VInt 0);
                 ("row_count", VInt row_count);
                 ("error", VStr error) ]).

Definition realtime_report_shape (attributes : pyval) : Prop :=
  exists dataset total_trips total_stop_times time_taken,
    attributes =
      VDict [ ("dataset", VStr dataset);
              ("total_trips", VInt total_trips);
              ("total_stop_times", VInt total_stop_times);
              ("time_taken(s)", VFloat time_taken) ].

(** In a static trace: every [import_data] of a file comes directly after
    the [clear_table] of the same file.  [prev] is the effect before [t]. *)
Fixpoint import_after_clear (prev : option effect) (t : list effect) : bool :=
  match t with
  | [] => true
  | e :: r =>
      match e with
      | EImportData f =>
          match prev with
          | Some (EClearTable g) => String.eqb g f
          | _ => false
          end
      | _ => true
      end && import_after_clear (Some e) r
  end.

(** The time that a report entry gives for its file, if it is a float. *)
Definition time_of_entry (v : pyval) : list float :=
  match v with
  | VDict items =>
      match dict_get items "time_taken(s)" with
      | Some (VFloat t) => [t]
      | _ => []
      end
  | _ => []
  end.

(** The float times of the entries of a report, in the order of its keys. *)
Definition reported_times (totals : dict) : list float :=
  flat_map (fun kv => time_of_entry (snd kv)) totals.

(** Does the trace begin with an [import_data]? *)
Definition starts_with_import (t : list effect) : bool :=
  match t with EImportData _ :: _ => true | _ => false end.

End StaticEffects.

(** ** The commands that print a table

    [settings] and [docs] build a [rich] table and print it; the table
    handed to [console.print] is their whole effect. *)

Module Tables.

(** A table: the columns (header, style) and the rows (cells, style), in
    the order in which they were added. *)
Record Table : Type := {
  columns : list (string * option string);
  rows : list (list string * option string)
}.

Definition new_table : Table := {| columns := []; rows := [] |}.

Definition add_column (t : Table) (header : string) (style : option string) : Table :=
  {| columns := columns t ++ [(header, style)]; rows := rows t |}.

Definition add_row (t : Table) (cells : list string) (style : option string) : Table :=
  {| columns := columns t; rows := rows t ++ [(cells, style)] |}.

(** [str(b)] for a [bool]. *)
Definition str_of_bool (b : bool) : string := if b then "True" else "False".

(** The attributes of [settings.app] that the command reads. *)
Record AppSettings : Type := {
  LITESTAR_APP : string;
  DEBUG : bool;
  ENVIRONMENT : string;
  DB_URL : string;
  DB_URL_SYNC : string;
  DB_ECHO : bool;
  LOG_LEVEL : string
}.

(** The command [settings]: the table it prints. *)
Definition settings (app : AppSettings) : Table :=
  let table := new_table in
  let table := add_column table "Setting" (Some "cyan") in
  let table := add_column table "Value" None in
  let table := add_row table ["LITESTAR_APP"; LITESTAR_APP app] None in
  let debug_style := if DEBUG app then "green" else "red" in
  let table := add_row table ["Debug"; str_of_bool (DEBUG app)] (Some debug_style) in
  let table := add_row table ["Environment"; ENVIRONMENT app] None in
  let table := add_row table ["Database URL"; DB_URL app] None in
  let table := add_row table ["Database SYNC URL"; DB_URL_SYNC app] None in
  let table := add_row table ["Database Echo"; str_of_bool (DB_ECHO app)] None in
  let table := add_row table ["Log Level"; LOG_LEVEL app] None in
  table.

(** What [docs] reads of the controller: its path and, for each
    documentation page, the paths of the page as [list(...)] enumerates
    them. *)
Record OpenAPIController : Type := {
  path : string;
  redoc_paths : list string;
  swagger_ui_paths : list string;
  stoplight_elements_paths : list string;
  rapidoc_paths : list string
}.

(** [app.openapi_config]; its [openapi_controller] may be [None]. *)
Record OpenAPIConfig : Type := {
  openapi_controller : option OpenAPIController
}.

(** The application handed to [docs]; its [openapi_config] may be
    [None]. *)
Record Litestar : Type := {
  openapi_config : option OpenAPIConfig
}.

(** [x.attr] where [x] may be [None]: reading an attribute of [None] is
    an [AttributeError]. *)
Definition attribute_of {A : Type} (x : option A) : result A :=
  match x with
  | Some a => Ok a
  | None => Raise AttributeError
  end.

(** [list(paths)[0]]. *)
Definition first_path (paths : list string) : result string :=
  match paths with
  | p :: _ => Ok p
  | [] => Raise IndexError
  end.

Definition and_then {A B : Type} (r : result A) (k : A -> result B) : result B :=
  match r with
  | Ok a => k a
  | Raise e => Raise e
  end.

Definition base_url : string := "http://localhost:8000".

(** The command [docs]: the table it prints, or the error it raises
    before printing.  Every line from 67 to 71 reads
    [app.openapi_config.openapi_controller] anew, with the same answer;
    the first of them raises when one of the two is [None]. *)
Definition docs (app : Litestar) : result Table :=
  and_then (attribute_of (openapi_config app)) (fun config =>
  and_then (attribute_of (openapi_controller config)) (fun controller =>
  let docs_path := path controller in
  and_then (first_path (redoc_paths controller)) (fun redoc_path =>
  and_then (first_path (swagger_ui_paths controller)) (fun swagger_path =>
  and_then (first_path (stoplight_elements_paths controller)) (fun elements_path =>
  and_then (first_path (rapidoc_paths controller)) (fun rapidoc_path =>
  let table := new_table in
  let table := add_column table "Doc Type" (Some "cyan") in
  let table := add_column table "URL" None in
  let table := add_row table ["Default"; (base_url ++ docs_path)%string] None in
  let table := add_row table ["Redoc"; (base_url ++ docs_path ++ redoc_path)%string] None in
  let table := add_row table ["Swagger"; (base_url ++ docs_path ++ swagger_path)%string] None in
  let table := add_row table ["Elements"; (base_url ++ docs_path ++ elements_path)%string] None in
  let table := add_row table ["Rapidoc"; (base_url ++ docs_path ++ rapidoc_path)%string] None in
  Ok table)))))).

(** Every row has one cell per column. *)
Definition well_formed (t : Table) : Prop :=
  Forall (fun row => length (fst row) = length (columns t)) (rows t).

End Tables.

(** ** Concrete worlds, for running the commands *)

Module Demo.

(** Clock readings in hundredths of a second. *)
#[local] Instance centi : FloatArith :=
  {| float := Z; fzero := 0%Z; fadd := Z.add; fsub := Z.sub; fround2 := fun x => x |}.

Definition ok_importer (file : string) : Importer :=
  {| importer_repr := file; clear_table := Ok tt; import_data := Ok tt |}.

Definition two_rows : GTFSImporter :=
  {| get_reader := Ok "reader"; get_row_count := Ok 2%Z |}.

Definition feed : pyval := VDict [("entity", VList [VInt 1; VInt 2; VInt 3])].

Definition rt_importer (data : result (option pyval)) : RealTimeImporter :=
  {| get_data := data;
     clear_table_stop_trip := Ok tt;
     import_stop_times := fun _ => Ok 7%Z;
     import_trips := fun _ => Ok 3%Z |}.

(** A world given by its filesystem, the reply at the prompt, the
    importers of the registry and the answer of the realtime fetch.
    The registry has an importer exactly for the eight files of the loop
    and raises [ValueError] for any other name; every file has two rows;
    the clock advances five hundredths per reading. *)
Definition world (path_exists is_dir is_file : string -> bool) (reply : string)
  (importer : string -> Importer) (data : result (option pyval)) : World :=
  {| os_path_exists := path_exists;
     os_path_isdir := is_dir;
     os_path_isfile := is_file;
     click_prompt := fun _ => reply;
     perf_counter_at := fun n => (5 * Z.of_nat n)%Z;
     imp_GTFSImporter := fun _ _ => Ok two_rows;
     imp_get_importer_for_file :=
       fun file _ _ _ =>
         if existsb (String.eqb file) files_to_import
         then Ok (importer file)
         else Raise ValueError;
     create_event_with_session := fun _ _ _ => Ok tt;
     settings_app := {| GTFS_TFI_REALTIME_URL := "https://realtime";
                        GTFS_TFI_API_KEY_1 := "key";
                        GTFS_TFI_DATASET := "TFI" |};
     new_RealTimeImporter := fun _ _ _ => Ok (rt_importer data) |}.

Definition always (_ : string) : bool := true.
Definition never (_ : string) : bool := false.

(** Every path exists and every call succeeds. *)
Definition sunny (reply : string) (data : result (option pyval)) : World :=
  world always always always reply ok_importer data.

(** As [sunny "y"], but a row of [stops.txt] does not convert. *)
Definition stops_malformed : World :=
  world always always always "y"
    (fun file =>
       if String.eqb file "stops.txt"
       then {| importer_repr := file; clear_table := Ok tt;
               import_data := Raise (LibError "RowConversionError") |}
       else ok_importer file)
    (Ok None).

(** The default directory holds [agency.txt] and nothing else. *)
Definition only_agency : World :=
  world always always (String.eqb "./gtfs_data/TFI/agency.txt") "y"
    ok_importer (Ok None).

(** The default directory is empty. *)
Definition empty_directory : World :=
  world always always never "y" ok_importer (Ok None).

(** Nothing exists on disk. *)
Definition nothing_on_disk : World :=
  world never never never "y" ok_importer (Ok None).

(** As [sunny "y"], but the header of every file is rejected by
    [get_reader]. *)
Definition unreadable : World :=
  let base := sunny "y" (Ok None) in
  {| os_path_exists := os_path_exists base;
     os_path_isdir := os_path_isdir base;
     os_path_isfile := os_path_isfile base;
     click_prompt := click_prompt base;
     perf_counter_at := perf_counter_at base;
     imp_GTFSImporter :=
       fun _ _ => Ok {| get_reader := Raise (LibError "HeaderMismatch");
                        get_row_count := Ok 2%Z |};
     imp_get_importer_for_file := imp_get_importer_for_file base;
     create_event_with_session := create_event_with_session base;
     settings_app := settings_app base;
     new_RealTimeImporter := new_RealTimeImporter base |}.

(** As [sunny "y"], but events cannot be recorded. *)
Definition event_store_down (data : result (option pyval)) : World :=
  let base := sunny "y" data in
  {| os_path_exists := os_path_exists base;
     os_path_isdir := os_path_isdir base;
     os_path_isfile := os_path_isfile base;
     click_prompt := click_prompt base;
     perf_counter_at := perf_counter_at base;
     imp_GTFSImporter := imp_GTFSImporter base;
     imp_get_importer_for_file := imp_get_importer_for_file base;
     create_event_with_session := fun _ _ _ => Raise (LibError "ConnectionError");
     settings_app := settings_app base;
     new_RealTimeImporter := new_RealTimeImporter base |}.

(** A realtime importer whose import of stop times fails. *)
Definition rt_importer_failing : RealTimeImporter :=
  {| get_data := Ok (Some feed);
     clear_table_stop_trip := Ok tt;
     import_stop_times := fun _ => Raise (LibError "IntegrityError");
     import_trips := fun _ => Ok 3%Z |}.

Definition stop_times_rejected : World :=
  let base := sunny "y" (Ok (Some feed)) in
  {| os_path_exists := os_path_exists base;
     os_path_isdir := os_path_isdir base;
     os_path_isfile := os_path_isfile base;
     click_prompt := click_prompt base;
     perf_counter_at := perf_counter_at base;
     imp_GTFSImporter := imp_GTFSImporter base;
     imp_get_importer_for_file := imp_get_importer_for_file base;
     create_event_with_session := create_event_with_session base;
     settings_app := settings_app base;
     new_RealTimeImporter := fun _ _ _ => Ok rt_importer_failing |}.

(** The event of the run of [importgtfs] in [only_agency]. *)
Definition only_agency_report : pyval :=
  static_attributes "TFI"
    {| attributes_of_total_rows :=
         ("agency", entry_imported 5%Z 2)
         :: map (fun file => (base_name file, entry_missing file))
              (tl files_to_import);
       total_time_taken := 5%Z;
       finish := Some 15%Z |}.

(** A controller with one path per documentation page. *)
Definition controller : Tables.OpenAPIController :=
  {| Tables.path := "/schema";
     Tables.redoc_paths := ["/redoc"];
     Tables.swagger_ui_paths := ["/swagger"];
     Tables.stoplight_elements_paths := ["/elements"];
     Tables.rapidoc_paths := ["/rapidoc"] |}.

(** An application with that controller. *)
Definition app : Tables.Litestar :=
  {| Tables.openapi_config :=
       Some {| Tables.openapi_controller := Some controller |} |}.

(** An application built without the OpenAPI schema. *)
Definition app_without_openapi : Tables.Litestar :=
  {| Tables.openapi_config := None |}.

(** Settings of an application in production. *)
Definition production_settings : Tables.AppSettings :=
  {| Tables.LITESTAR_APP := "SimplyTransport.app:create_app";
     Tables.DEBUG := false;
     Tables.ENVIRONMENT := "prod";
     Tables.DB_URL := "postgresql+asyncpg://db/st";
     Tables.DB_URL_SYNC := "postgresql://db/st";
     Tables.DB_ECHO := false;
     Tables.LOG_LEVEL := "WARNING" |}.


End Demo.

(** * Properties *)

(** ** The monad *)

Section MonadFacts.

Context `{FA : FloatArith}.

Lemma outcome_after {A : Type} t (x : result A * nat * list effect) :
  outcome (after t x) = outcome x.
Proof. reflexivity. Qed.

Lemma trace_after {A : Type} t (x : result A * nat * list effect) :
  trace (after t x) = t ++ trace x.
Proof. reflexivity. Qed.

Lemma after_nil {A : Type} (x : result A * nat * list effect) : after [] x = x.
Proof. destruct x as [[r n] t]. reflexivity. Qed.

Lemma after_after {A : Type} t1 t2 (x : result A * nat * list effect) :
  after t1 (after t2 x) = after (t1 ++ t2) x.
Proof. unfold after. simpl. now rewrite app_assoc. Qed.

Lemma bind_run {A B : Type} (m : M A) (k : A -> M B) n :
  bind m k n =
  match outcome (m n) with
  | Ok a => after (trace (m n)) (k a (ticks (m n)))
  | Raise e => (Raise e, ticks (m n), trace (m n))
  end.
Proof.
  unfold bind, after, outcome, ticks, trace.
  destruct (m n) as [[[a|e] n1] t1]; simpl; [|reflexivity].
  destruct (k a n1) as [[r n2] t2]. reflexivity.
Qed.

Lemma bind_ret {A B : Type} (a : A) (k : A -> M B) n : bind (ret a) k n = k a n.
Proof. rewrite bind_run. simpl. apply after_nil. Qed.

Lemma bind_lift {A B : Type} (r : result A) (k : A -> M B) n :
  bind (lift r) k n =
  match r with Ok a => k a n | Raise e => (Raise e, n, []) end.
Proof. rewrite bind_run. destruct r; simpl; [apply after_nil | reflexivity]. Qed.

Lemma bind_raise {A B : Type} (e : exn) (k : A -> M B) n :
  bind (raise e) k n = (Raise e, n, []).
Proof. reflexivity. Qed.

Lemma bind_call {A B : Type} (e : effect) (r : result A) (k : A -> M B) n :
  bind (call e r) k n =
  match r with Ok a => after [e] (k a n) | Raise x => (Raise x, n, [e]) end.
Proof. rewrite bind_run. destruct r; reflexivity. Qed.

Lemma bind_perf_counter {B : Type} (w : World) (k : float -> M B) n :
  bind (perf_counter w) k n = k (perf_counter_at w n) (S n).
Proof. rewrite bind_run. simpl. apply after_nil. Qed.

Lemma bind_bind {A B C : Type} (m : M A) (k1 : A -> M B) (k2 : B -> M C) n :
  bind (bind m k1) k2 n = bind m (fun a => bind (k1 a) k2) n.
Proof.
  unfold bind. destruct (m n) as [[[a|e] n1] t1]; [|reflexivity].
  destruct (k1 a n1) as [[[b|e] n2] t2]; [|reflexivity].
  destruct (k2 b n2) as [[r n3] t3]. now rewrite app_assoc.
Qed.

Lemma override_run opt msg default n :
  override opt msg default n = (Ok (resolve opt default), n, override_prints opt msg).
Proof. destruct opt as [[|c v]|]; reflexivity. Qed.

Lemma bind_override {B : Type} opt msg default (k : string -> M B) n :
  bind (override opt msg default) k n =
  after (override_prints opt msg) (k (resolve opt default) n).
Proof. rewrite bind_run, override_run. reflexivity. Qed.

Lemma override_prints_quiet (p : effect -> bool) opt msg :
  (forall m, p (EPrint m) = false) -> existsb p (override_prints opt msg) = false.
Proof. intros Hp. destruct opt as [[|c v]|]; simpl; rewrite ?Hp; reflexivity. Qed.

Lemma cleared_then_inserted_override b opt msg t :
  cleared_then_inserted b (override_prints opt msg ++ t) = cleared_then_inserted b t.
Proof. destruct opt as [[|c v]|]; reflexivity. Qed.

Lemma try_dispatch {A B : Type} (e : effect) (r : result A) (f : A -> B)
  (handler : M B) n :
  try_except_ValueError (bind (call e r) (fun x => ret (f x))) handler n =
  match r with
  | Ok a => (Ok (f a), n, [e])
  | Raise x => if is_ValueError x then after [e] (handler n) else (Raise x, n, [e])
  end.
Proof.
  unfold try_except_ValueError. rewrite bind_call.
  destruct r as [a|x]; [reflexivity|].
  destruct (is_ValueError x); [|reflexivity].
  destruct (handler n) as [[r n2] t2]. reflexivity.
Qed.

Lemma bind_try_dispatch {A B C : Type} (e : effect) (r : result A) (f : A -> B)
  (handler : M B) (k : B -> M C) n :
  bind (try_except_ValueError (bind (call e r) (fun x => ret (f x))) handler) k n =
  match r with
  | Ok a => after [e] (k (f a) n)
  | Raise x =>
      if is_ValueError x then after [e] (bind handler k n) else (Raise x, n, [e])
  end.
Proof.
  rewrite bind_run, try_dispatch. destruct r as [a|x]; [reflexivity|].
  destruct (is_ValueError x); [|reflexivity].
  rewrite bind_run. cbn [outcome after fst].
  destruct (outcome (handler n)); [|reflexivity].
  cbn [trace ticks after snd fst]. now rewrite after_after.
Qed.
End MonadFacts.

(** ** One iteration of the static loop *)

Ltac step :=
  first [ rewrite bind_perf_counter | rewrite bind_call | rewrite bind_ret
        | rewrite bind_lift | rewrite bind_override | rewrite bind_raise ];
  cbv beta.

Ltac steps :=
  unfold console_print, emit, path_exists, path_isdir, path_isfile; repeat step.

Ltac finish_run := unfold ret; cbn [after outcome ticks trace fst snd app].

(** Case analysis on every answer of the world that the goal waits for. *)
Ltac world_answers :=
  repeat first
    [ step
    | rewrite bind_try_dispatch
    | rewrite bind_bind
    | match goal with
      | |- context [match ?x with _ => _ end] => destruct x eqn:?
      | |- context [if ?x then _ else _] => destruct x eqn:?
      end; cbn [outcome ticks trace after fst snd negb] ].


Section IterationFacts.

Context `{FA : FloatArith}.
Variable w : World.

Lemma guard_run {B : Type} dir file (k : bool -> M B) n :
  bind (path_exists w dir)
    (fun e => bind (if e then path_isfile w (dir ++ file) else ret false) k) n =
  after (probes w dir file) (k (present w dir file) n).
Proof.
  unfold path_exists, path_isfile, present, probes. rewrite bind_call.
  destruct (os_path_exists w dir); cbv beta iota.
  - rewrite bind_call, after_after. reflexivity.
  - rewrite bind_ret. reflexivity.
Qed.

Lemma process_file_missing dir ds l file n :
  present w dir file = false ->
  process_file w dir ds l file n =
  (Ok (record_entry l file (entry_missing file)), S n,
   probes w dir file ++ [EPrint (MsgFileDoesNotExist file)]).
Proof.
  intros Hp. unfold process_file. rewrite bind_perf_counter, guard_run, Hp.
  cbn [negb]. steps. reflexivity.
Qed.

Lemma process_file_unsupported dir ds l file n rc :
  unsupported w dir ds file rc ->
  process_file w dir ds l file n =
  (Ok (record_entry l file (entry_unsupported file rc)), S n,
   probes w dir file ++
   [ENewGTFSImporter file dir; EGetReader file; EGetRowCount file;
    EGetImporterForFile file rc ds; EPrint (MsgNoSupportedImporter file)]).
Proof.
  intros (Hp & gi & rd & Hgi & Hrd & Hrc & Hreg).
  unfold process_file. rewrite bind_perf_counter, guard_run, Hp.
  cbn [negb]. steps. rewrite Hgi. steps. rewrite Hrd. steps. rewrite Hrc. steps.
  rewrite bind_run, try_dispatch, Hreg. cbn [is_ValueError]. steps.
  finish_run. reflexivity.
Qed.

Lemma process_file_imported dir ds l file n rc imp :
  dispatched_to w dir ds file rc imp ->
  clear_table imp = Ok tt ->
  import_data imp = Ok tt ->
  process_file w dir ds l file n =
  (Ok {| attributes_of_total_rows :=
           dict_set (attributes_of_total_rows l) (base_name file)
             (entry_imported
                (fround2 (fsub (perf_counter_at w (S n)) (perf_counter_at w n))) rc);
         total_time_taken :=
           fadd (total_time_taken l)
             (fround2 (fsub (perf_counter_at w (S n)) (perf_counter_at w n)));
         finish := Some (perf_counter_at w (S n)) |},
   S (S n),
   probes w dir file ++
   [ENewGTFSImporter file dir; EGetReader file; EGetRowCount file;
    EGetImporterForFile file rc ds; EPrint (MsgLoaded (importer_repr imp) rc);
    EClearTable file; EImportData file]).
Proof.
  intros (Hp & gi & rd & Hgi & Hrd & Hrc & Hreg) Hclear Himport.
  unfold process_file. rewrite bind_perf_counter, guard_run, Hp.
  cbn [negb]. steps. rewrite Hgi. steps. rewrite Hrd. steps. rewrite Hrc. steps.
  rewrite bind_run, try_dispatch, Hreg. cbn [outcome fst]. cbv beta iota.
  steps. rewrite Hclear. steps. rewrite Himport. steps.
  finish_run. reflexivity.
Qed.

(** An error of [clear_table] or [import_data] leaves the iteration: the
    only handler of the loop body is around the registry call. *)
Lemma process_file_raises dir ds l file n e :
  import_raises w dir ds file e ->
  outcome (process_file w dir ds l file n) = Raise e.
Proof.
  intros (rc & imp & (Hp & gi & rd & Hgi & Hrd & Hrc & Hreg) & Hraise).
  unfold process_file. rewrite bind_perf_counter, guard_run, Hp.
  cbn [negb]. steps. rewrite Hgi. steps. rewrite Hrd. steps. rewrite Hrc. steps.
  rewrite bind_run, try_dispatch, Hreg. cbn [outcome fst]. cbv beta iota.
  steps. destruct Hraise as [Hclear | [Hclear Himport]]; rewrite Hclear; steps.
  - reflexivity.
  - rewrite Himport. reflexivity.
Qed.

(** Whatever the world answers, the trace of an iteration is the probes
    followed either by the report that the file is missing, or by the
    construction of the [GTFSImporter] and steps about this file. *)
Lemma process_file_trace dir ds l file n :
  trace (process_file w dir ds l file n) =
    probes w dir file ++ [EPrint (MsgFileDoesNotExist file)] \/
  exists t,
    trace (process_file w dir ds l file n) =
      probes w dir file ++ ENewGTFSImporter file dir :: t /\
    forallb (is_body_step file) t = true.
Proof.
  unfold process_file. rewrite bind_perf_counter, guard_run.
  destruct (present w dir file); cbn [negb]; steps.
  - right. world_answers; finish_run;
      (eexists; split; [reflexivity|]); cbn [forallb is_body_step];
      rewrite ?String.eqb_refl; reflexivity.
  - left. finish_run. reflexivity.
Qed.

Lemma body_step_iteration dir file t :
  forallb (is_body_step file) t = true ->
  forallb (is_iteration_step dir file) t = true.
Proof.
  induction t as [|e t IH]; simpl; [reflexivity|].
  intros H. apply andb_true_iff in H as [He Ht]. rewrite (IH Ht), andb_true_r.
  destruct e; try discriminate He; try exact He.
  destruct m; try discriminate He; exact He.
Qed.

Lemma probes_iteration dir file :
  forallb (is_iteration_step dir file) (probes w dir file) = true.
Proof.
  unfold probes. destruct (os_path_exists w dir); simpl;
    rewrite ?String.eqb_refl; reflexivity.
Qed.

Lemma process_file_steps dir ds l file n :
  forallb (is_iteration_step dir file) (trace (process_file w dir ds l file n)) = true.
Proof.
  destruct (process_file_trace dir ds l file n) as [H | (t & H & Ht)]; rewrite H.
  - rewrite forallb_app, probes_iteration. simpl. now rewrite String.eqb_refl.
  - rewrite forallb_app, probes_iteration. simpl.
    rewrite !String.eqb_refl. simpl. now apply body_step_iteration.
Qed.

Lemma visits_app t1 t2 : visits (t1 ++ t2) = visits t1 ++ visits t2.
Proof. apply flat_map_app. Qed.

Lemma events_app t1 t2 : events (t1 ++ t2) = events t1 ++ events t2.
Proof. apply filter_app. Qed.

Lemma visits_probes dir file : visits (probes w dir file) = [].
Proof. unfold probes. destruct (os_path_exists w dir); reflexivity. Qed.

Lemma visits_body file t : forallb (is_body_step file) t = true -> visits t = [].
Proof.
  induction t as [|e t IH]; simpl; [reflexivity|].
  intros H. apply andb_true_iff in H as [He Ht]. rewrite (IH Ht), app_nil_r.
  destruct e; try discriminate He; try reflexivity.
  destruct m; try discriminate He; reflexivity.
Qed.

Lemma process_file_visits dir ds l file n :
  visits (trace (process_file w dir ds l file n)) = [file].
Proof.
  destruct (process_file_trace dir ds l file n) as [H | (t & H & Ht)]; rewrite H;
    rewrite visits_app, visits_probes.
  - reflexivity.
  - simpl. change (flat_map visit_of t) with (visits t). now rewrite (visits_body file).
Qed.

Lemma iteration_step_quiet dir file e :
  is_iteration_step dir file e = true ->
  is_event e = false /\ is_prompt e = false /\
  (file_of e = None \/ file_of e = Some file) /\
  (forall p, e = EIsFile p -> p = (dir ++ file)%string).
Proof.
  intros H. repeat split.
  - destruct e; try discriminate H; reflexivity.
  - destruct e; try discriminate H; reflexivity.
  - destruct e; try destruct m; simpl in *; try discriminate H; auto;
      try (apply andb_true_iff in H as [H _]);
      apply String.eqb_eq in H; subst; auto.
  - intros p ->. simpl in H. now apply String.eqb_eq.
Qed.

Lemma for_each_file_cons dir ds file rest l n :
  for_each_file w dir ds (file :: rest) l n =
  match outcome (process_file w dir ds l file n) with
  | Ok l' =>
      after (trace (process_file w dir ds l file n))
        (for_each_file w dir ds rest l' (ticks (process_file w dir ds l file n)))
  | Raise e =>
      (Raise e, ticks (process_file w dir ds l file n),
       trace (process_file w dir ds l file n))
  end.
Proof. simpl. apply bind_run. Qed.

Lemma loop_step_incl dir files files' e :
  incl files files' -> loop_step dir files e -> loop_step dir files' e.
Proof. intros Hi (f & Hf & He). exists f. auto. Qed.

Lemma for_each_file_steps dir ds files l n :
  Forall (loop_step dir files) (trace (for_each_file w dir ds files l n)).
Proof.
  revert l n. induction files as [|file rest IH]; intros l n.
  - constructor.
  - rewrite for_each_file_cons.
    assert (Hhead : Forall (loop_step dir (file :: rest))
                      (trace (process_file w dir ds l file n))).
    { apply Forall_forall. intros e He. exists file. split; [now left|].
      pose proof (process_file_steps dir ds l file n) as H.
      rewrite forallb_forall in H. auto. }
    destruct (outcome (process_file w dir ds l file n)) as [l'|e]; [|exact Hhead].
    rewrite trace_after. apply Forall_app. split; [exact Hhead|].
    eapply Forall_impl; [|apply IH]. intros e. apply loop_step_incl.
    intros x Hx. now right.
Qed.

Lemma for_each_file_visits dir ds files l n l' :
  outcome (for_each_file w dir ds files l n) = Ok l' ->
  visits (trace (for_each_file w dir ds files l n)) = files.
Proof.
  revert l n. induction files as [|file rest IH]; intros l n.
  - reflexivity.
  - rewrite for_each_file_cons.
    destruct (outcome (process_file w dir ds l file n)) as [l1|e] eqn:Ho;
      [|discriminate].
    rewrite outcome_after, trace_after, visits_app, process_file_visits.
    intros H. simpl. f_equal. now apply IH.
Qed.

End IterationFacts.

(** ** The loop over the files *)

Section LoopFacts.

Context `{FA : FloatArith}.
Variable w : World.

Lemma loop_steps_no_events dir files t :
  Forall (loop_step dir files) t -> events t = [].
Proof.
  induction 1 as [|e t (f & _ & He) _ IH]; [reflexivity|].
  unfold events in *. simpl.
  destruct (iteration_step_quiet dir f e He) as (-> & _). exact IH.
Qed.

Lemma for_each_file_events dir ds files l n :
  events (trace (for_each_file w dir ds files l n)) = [].
Proof. eapply loop_steps_no_events, for_each_file_steps. Qed.

(** The loop stops at the first iteration that raises. *)
Lemma for_each_file_raises dir ds before file after_ l n :
  (forall l' k, is_ok (outcome (process_file w dir ds l' file k)) = false) ->
  is_ok (outcome (for_each_file w dir ds (before ++ file :: after_) l n)) = false /\
  Forall (loop_step dir (before ++ [file]))
    (trace (for_each_file w dir ds (before ++ file :: after_) l n)).
Proof.
  intros Hraise. revert l n. induction before as [|f before IH]; intros l n.
  - cbn [app]. rewrite for_each_file_cons.
    assert (Hhead : Forall (loop_step dir [file])
                      (trace (process_file w dir ds l file n))).
    { apply Forall_forall. intros e He. exists file. split; [now left|].
      pose proof (process_file_steps w dir ds l file n) as H.
      rewrite forallb_forall in H. auto. }
    specialize (Hraise l n).
    destruct (outcome (process_file w dir ds l file n)); [discriminate|].
    split; [reflexivity | exact Hhead].
  - cbn [app]. rewrite for_each_file_cons.
    assert (Hhead : Forall (loop_step dir (f :: before ++ [file]))
                      (trace (process_file w dir ds l f n))).
    { apply Forall_forall. intros e He. exists f. split; [now left|].
      pose proof (process_file_steps w dir ds l f n) as H.
      rewrite forallb_forall in H. auto. }
    destruct (outcome (process_file w dir ds l f n)) as [l1|e].
    + rewrite outcome_after, trace_after.
      destruct (IH l1 (ticks (process_file w dir ds l f n))) as [Ho Ht].
      split; [exact Ho|]. apply Forall_app. split; [exact Hhead|].
      eapply Forall_impl; [|exact Ht]. intros e. apply loop_step_incl.
      intros x Hx. now right.
    + split; [reflexivity | exact Hhead].
Qed.

Lemma Forall_dict_set (P : string * pyval -> Prop) d k v :
  Forall P d -> P (k, v) -> Forall P (dict_set d k v).
Proof.
  intros Hd Hkv. induction Hd as [|[k' v'] d Hk' Hd IH]; simpl.
  - constructor; [exact Hkv | constructor].
  - destruct (String.eqb k' k) eqn:E.
    + apply String.eqb_eq in E. subst. constructor; assumption.
    + constructor; assumption.
Qed.

Lemma process_file_entry dir ds l file n l' :
  outcome (process_file w dir ds l file n) = Ok l' ->
  exists v,
    attributes_of_total_rows l' =
      dict_set (attributes_of_total_rows l) (base_name file) v /\
    is_file_entry file v.
Proof.
  unfold process_file. rewrite bind_perf_counter, guard_run.
  destruct (present w dir file); cbn [negb]; steps.
  - world_answers; finish_run; intros [= <-]; try discriminate.
    + eexists. split; [reflexivity|]. right. right. eauto.
    + eexists. split; [reflexivity|]. right. left. eauto.
  - finish_run. intros [= <-]. eexists. split; [reflexivity|]. now left.
Qed.

Lemma for_each_file_totals dir ds files l n l' :
  incl files files_to_import ->
  is_totals (attributes_of_total_rows l) ->
  outcome (for_each_file w dir ds files l n) = Ok l' ->
  is_totals (attributes_of_total_rows l').
Proof.
  revert l n. induction files as [|file rest IH]; intros l n Hincl Hl.
  - intros [= <-]. exact Hl.
  - rewrite for_each_file_cons.
    destruct (outcome (process_file w dir ds l file n)) as [l1|e] eqn:Ho;
      [|discriminate].
    rewrite outcome_after.
    destruct (process_file_entry _ _ _ _ _ _ Ho) as (v & Hv & Hentry).
    apply IH.
    + intros x Hx. apply Hincl. now right.
    + rewrite Hv. apply Forall_dict_set; [exact Hl|].
      exists file. split; [apply Hincl; now left|]. split; [reflexivity | exact Hentry].
Qed.

End LoopFacts.

(** ** The static command as a whole *)

Section StaticFacts.

Context `{FA : FloatArith}.
Variable w : World.

Lemma validator_run dir n :
  gtfs_directory_validator w dir n =
  (outcome (gtfs_directory_validator w dir 0), n,
   trace (gtfs_directory_validator w dir 0)).
Proof.
  unfold gtfs_directory_validator.
  destruct dir as [[|c d]|]; steps; try reflexivity.
  destruct (os_path_exists w (String c d)); steps;
    [destruct (os_path_isdir w (String c d))|]; steps; reflexivity.
Qed.

Lemma validator_result dir :
  outcome (gtfs_directory_validator w dir 0) = Ok None \/
  outcome (gtfs_directory_validator w dir 0) =
    Ok (Some (resolve dir default_directory)).
Proof.
  unfold gtfs_directory_validator.
  destruct dir as [[|c d]|]; steps; auto.
  destruct (os_path_exists w (String c d)); steps;
    [destruct (os_path_isdir w (String c d))|]; steps; auto.
Qed.

Lemma validator_preamble dir :
  forallb is_preamble (trace (gtfs_directory_validator w dir 0)) = true.
Proof.
  unfold gtfs_directory_validator.
  destruct dir as [[|c d]|]; steps; try reflexivity.
  destruct (os_path_exists w (String c d)); steps;
    [destruct (os_path_isdir w (String c d))|]; steps; reflexivity.
Qed.

Lemma bind_validator {B : Type} dir (k : option string -> M B) n :
  bind (gtfs_directory_validator w dir) k n =
  match outcome (gtfs_directory_validator w dir 0) with
  | Ok v => after (trace (gtfs_directory_validator w dir 0)) (k v n)
  | Raise e => (Raise e, n, trace (gtfs_directory_validator w dir 0))
  end.
Proof. rewrite bind_run, validator_run. reflexivity. Qed.

(** The part of the command after the loop. *)
Lemma import_files_run dir ds n :
  let loop := for_each_file w dir ds files_to_import initial_locals (S n) in
  import_files w dir ds n =
  match outcome loop with
  | Ok l =>
      after (trace loop ++
             [ECreateEvent GTFS_DATABASE_UPDATED static_event_message
                (static_attributes ds l)])
        match create_event_with_session w GTFS_DATABASE_UPDATED
                static_event_message (static_attributes ds l) with
        | Ok _ =>
            match finish l with
            | Some f =>
                (Ok tt, ticks loop,
                 [EPrint (MsgFinished (fround2 (fsub f (perf_counter_at w n))))])
            | None => (Raise UnboundLocalError, ticks loop, [])
            end
        | Raise e => (Raise e, ticks loop, [])
        end
  | Raise e => (Raise e, ticks loop, trace loop)
  end.
Proof.
  intros loop. unfold import_files. rewrite bind_perf_counter, bind_run.
  fold initial_locals. fold loop.
  destruct (outcome loop) as [l|e]; [|reflexivity].
  rewrite bind_call.
  destruct (create_event_with_session w _ _ _) as [u|e].
  - rewrite after_after. destruct (finish l); reflexivity.
  - unfold after. cbn [outcome ticks trace fst snd]. now rewrite app_nil_r.
Qed.

Lemma importgtfs_confirmed dir d ds n :
  confirmed w dir d ds ->
  importgtfs w dir n =
  after (EPrint MsgImportingStatic :: trace (gtfs_directory_validator w dir 0)
         ++ [EPrompt ds])
    (import_files w d ds (S n)).
Proof.
  intros (Hv & Hds & Hy). unfold importgtfs.
  rewrite bind_perf_counter. steps. rewrite bind_validator, Hv, Hds. steps.
  rewrite Hy. cbn [String.eqb Ascii.eqb Bool.eqb negb].
  rewrite !after_after. reflexivity.
Qed.


Lemma preamble_static dir t :
  forallb is_preamble t = true -> Forall (static_effect dir) t.
Proof.
  intros H. apply Forall_forall. intros e He. left.
  rewrite forallb_forall in H. auto.
Qed.

Lemma initial_totals : is_totals (attributes_of_total_rows initial_locals).
Proof. constructor. Qed.

Lemma import_files_effects dir ds n :
  dataset_of (resolve dir default_directory) = Some ds ->
  Forall (static_effect dir)
    (trace (import_files w (resolve dir default_directory) ds n)).
Proof.
  intros Hds. rewrite import_files_run. cbv zeta.
  set (d := resolve dir default_directory) in *.
  set (loop := for_each_file w d ds files_to_import initial_locals (S n)).
  assert (Hloop : Forall (static_effect dir) (trace loop)).
  { eapply Forall_impl; [|apply for_each_file_steps].
    intros e He. right. right. right. left. exact He. }
  destruct (outcome loop) as [l|e] eqn:Ho; [|exact Hloop].
  rewrite trace_after. apply Forall_app. split.
  - apply Forall_app. split; [exact Hloop|]. constructor; [|constructor].
    do 4 right. left. exists ds, l. repeat split; [exact Hds|].
    eapply for_each_file_totals; [apply incl_refl | apply initial_totals | exact Ho].
  - destruct (create_event_with_session w _ _ _); [destruct (finish l)|];
      cbn [trace snd]; try apply Forall_nil.
    apply Forall_cons; [|apply Forall_nil]. do 5 right. eauto.
Qed.

Lemma importgtfs_effects dir n :
  Forall (static_effect dir) (trace (importgtfs w dir n)).
Proof.
  unfold importgtfs. rewrite bind_perf_counter. steps. rewrite bind_validator.
  pose proof (preamble_static dir _ (validator_preamble dir)) as Hpre.
  assert (Hfirst : static_effect dir (EPrint MsgImportingStatic)) by (now left).
  destruct (validator_result dir) as [Hv | Hv]; rewrite Hv.
  - cbv beta iota. rewrite !trace_after. unfold raise. cbn [trace snd].
    rewrite app_nil_r. constructor; assumption.
  - destruct (dataset_of (resolve dir default_directory)) as [ds|] eqn:Hds.
    + cbv beta iota. steps. rewrite !trace_after.
      constructor; [exact Hfirst|]. apply Forall_app. split; [exact Hpre|].
      constructor; [right; left; eauto|].
      destruct (negb _).
      * steps. finish_run. apply Forall_cons; [|apply Forall_nil].
        right. right. now left.
      * now apply import_files_effects.
    + cbv beta iota. rewrite !trace_after. unfold raise. cbn [trace snd].
      rewrite app_nil_r. constructor; assumption.
Qed.

Lemma preamble_quiet t :
  forallb is_preamble t = true ->
  events t = [] /\ visits t = [] /\
  existsb is_prompt t = false /\ existsb is_table_mutation t = false /\
  (forall x, In x t -> file_of x = None).
Proof.
  induction t as [|e t IH]; simpl.
  - intros _. repeat split. intros x [].
  - intros H. apply andb_true_iff in H as [He Ht].
    destruct (IH Ht) as (H1 & H2 & H3 & H4 & H5).
    unfold events, visits in *. simpl.
    destruct e; try discriminate He; try destruct m; try discriminate He; simpl;
      repeat split; auto; intros x [<- | Hx]; auto.
Qed.

End StaticFacts.

(** ** The realtime command *)

Section RealtimeFacts.

Context `{FA : FloatArith}.
Variable w : World.

Lemma realtime_cleared_then_inserted url apikey dataset n :
  cleared_then_inserted false (trace (importrealtime w url apikey dataset n)) = true.
Proof.
  unfold importrealtime. steps.
  world_answers; rewrite ?trace_after; finish_run;
    cbn [cleared_then_inserted];
    rewrite ?cleared_then_inserted_override; reflexivity.
Qed.

Lemma cleared_once b t :
  cleared_then_inserted b t = true ->
  (b = true -> count_clears t = 0) /\
  (b = false -> existsb is_insertion t = true -> count_clears t = 1).
Proof.
  unfold count_clears. revert b. induction t as [|e t IH]; intros b H.
  - split; [reflexivity | discriminate].
  - destruct e; simpl in H |- *; try (apply IH; exact H).
    + apply andb_true_iff in H as [Hb H]. destruct b; [discriminate|].
      destruct (IH true H) as [H0 _]. split; [discriminate|].
      intros _ _. now rewrite H0.
    + apply andb_true_iff in H as [Hb H]. subst b.
      destruct (IH true H) as [H0 _]. split; [auto | discriminate].
    + apply andb_true_iff in H as [Hb H]. subst b.
      destruct (IH true H) as [H0 _]. split; [auto | discriminate].
Qed.

Lemma filter_override_prints (p : effect -> bool) opt msg :
  (forall m, p (EPrint m) = false) -> filter p (override_prints opt msg) = [].
Proof. intros Hp. destruct opt as [[|c v]|]; simpl; rewrite ?Hp; reflexivity. Qed.

Lemma replay_app f g tables t1 t2 :
  replay f g tables (t1 ++ t2) = replay f g (replay f g tables t1) t2.
Proof. apply fold_left_app. Qed.

Lemma replay_cons f g tables e t :
  replay f g tables (e :: t) = replay f g (apply_effect f g tables e) t.
Proof. reflexivity. Qed.

Lemma replay_override_prints f g tables opt msg :
  replay f g tables (override_prints opt msg) = tables.
Proof. destruct opt as [[|c v]|]; reflexivity. Qed.

Lemma realtime_events url apikey dataset n :
  events (trace (importrealtime w url apikey dataset n)) = [] \/
  exists total_trips total_stop_times time_taken,
    events (trace (importrealtime w url apikey dataset n)) =
    [ECreateEvent REALTIME_DATABASE_UPDATED realtime_event_message
       (realtime_attributes (resolve dataset (GTFS_TFI_DATASET (settings_app w)))
          total_trips total_stop_times time_taken)].
Proof.
  unfold importrealtime, events. steps.
  world_answers; rewrite ?trace_after; finish_run; cbn [filter is_event];
    rewrite !filter_app, !filter_override_prints by reflexivity;
    cbn [filter is_event app]; eauto.
Qed.

End RealtimeFacts.

Section RealtimeClaims.

Context `{FA : FloatArith}.

(** C2.  In the realtime import flow, whenever [get_data()] returns
    [None], the command returns without an error, calls none of
    [clear_table_stop_trip], [import_stop_times], [import_trips] (nor any
    other call that changes a table) and records no event. *)
Theorem realtime_null_no_mutation w url apikey dataset n imp :
  realtime_importer_of w url apikey dataset = Ok imp ->
  get_data imp = Ok None ->
  outcome (importrealtime w url apikey dataset n) = Ok tt /\
  existsb is_table_mutation (trace (importrealtime w url apikey dataset n)) = false /\
  existsb is_event (trace (importrealtime w url apikey dataset n)) = false.
Proof.
  unfold realtime_importer_of. intros Hi Hd.
  unfold importrealtime. steps. rewrite Hi. steps. rewrite Hd. steps.
  rewrite !outcome_after, !trace_after. finish_run.
  cbn [existsb is_table_mutation is_event orb].
  rewrite !existsb_app, !override_prints_quiet by reflexivity.
  repeat split.
Qed.



(** C7.  In a realtime run the tables are cleared at most once and nothing
    is inserted before they are cleared; a run that inserts anything has
    cleared exactly once, and so has every run whose feed is not [None]
    and has its entities counted.  With the table semantics of the spec,
    after a run that returns the tables hold exactly the records of this
    feed, whatever they held before: replaced, never appended to. *)
Theorem realtime_tables_replaced w trip_records stop_time_records url apikey dataset n :
  let run := importrealtime w url apikey dataset n in
  cleared_then_inserted false (trace run) = true /\
  (existsb is_insertion (trace run) = true -> count_clears (trace run) = 1) /\
  (forall imp data entity k,
     realtime_importer_of w url apikey dataset = Ok imp ->
     get_data imp = Ok (Some data) ->
     subscript data "entity" = Ok entity ->
     py_len entity = Ok k ->
     count_clears (trace run) = 1) /\
  (forall imp data,
     realtime_importer_of w url apikey dataset = Ok imp ->
     get_data imp = Ok (Some data) ->
     outcome run = Ok tt ->
     forall tables,
       replay trip_records stop_time_records tables (trace run) =
       {| rt_trip := trip_records data; rt_stop_time := stop_time_records data |}).
Proof.
  intros run. pose proof (realtime_cleared_then_inserted w url apikey dataset n) as Hc.
  fold run in Hc. split; [exact Hc|]. split; [|split].
  - intros Hins. now apply (cleared_once false (trace run) Hc).
  - unfold realtime_importer_of. intros imp data entity k Hi Hd He Hk.
    subst run. unfold importrealtime, count_clears. steps.
    rewrite Hi. steps. rewrite Hd. steps. rewrite He, Hk. steps.
    world_answers; rewrite ?trace_after; finish_run; cbn [filter is_clear_stop_trip];
      rewrite !filter_app, !filter_override_prints by reflexivity; reflexivity.
  - unfold realtime_importer_of. intros imp data Hi Hd.
    subst run. unfold importrealtime. steps.
    rewrite Hi. steps. rewrite Hd. steps.
    world_answers; rewrite ?trace_after, ?outcome_after; finish_run;
      try discriminate; intros _ tables;
      repeat first [ rewrite replay_app | rewrite replay_override_prints
                   | rewrite replay_cons ];
      reflexivity.
Qed.


End RealtimeClaims.

(** ** How the loop ends *)

Section LoopOutcomes.

Context `{FA : FloatArith}.
Variable w : World.

Lemma files_to_import_NoDup : NoDup files_to_import.
Proof.
  unfold files_to_import.
  repeat (constructor; [simpl; intuition discriminate|]).
  constructor.
Qed.

Lemma NoDup_app_disjoint {A : Type} (l1 l2 : list A) x :
  NoDup (l1 ++ l2) -> In x l1 -> In x l2 -> False.
Proof.
  induction l1 as [|y l1 IH]; simpl; [intros _ []|].
  intros Hn [-> | Hx] H2; inversion Hn; subst.
  - apply H1. apply in_or_app. now right.
  - now apply IH.
Qed.

Lemma loop_steps_file_of dir files t x f :
  Forall (loop_step dir files) t -> In x t -> file_of x = Some f -> In f files.
Proof.
  intros Hall Hx Hf. rewrite Forall_forall in Hall.
  destruct (Hall x Hx) as (g & Hg & Hstep).
  destruct (iteration_step_quiet _ _ _ Hstep) as (_ & _ & [Hn | Hs] & _);
    congruence.
Qed.

Lemma for_each_file_ok dir ds files l n :
  (forall file l' k, In file files ->
     is_ok (outcome (process_file w dir ds l' file k)) = true) ->
  exists l', outcome (for_each_file w dir ds files l n) = Ok l'.
Proof.
  revert l n. induction files as [|file rest IH]; intros l n Hok.
  - exists l. reflexivity.
  - rewrite for_each_file_cons.
    pose proof (Hok file l n (or_introl eq_refl)) as H.
    destruct (outcome (process_file w dir ds l file n)) as [l1|e]; [|discriminate].
    rewrite outcome_after. apply IH. intros f l' k Hf. apply Hok. now right.
Qed.

Lemma for_each_file_first_raise dir ds before file rest l n e :
  (forall f l' k, In f before ->
     is_ok (outcome (process_file w dir ds l' f k)) = true) ->
  (forall l' k, outcome (process_file w dir ds l' file k) = Raise e) ->
  outcome (for_each_file w dir ds (before ++ file :: rest) l n) = Raise e.
Proof.
  intros Hok Hraise. revert l n. induction before as [|f before IH]; intros l n.
  - cbn [app]. rewrite for_each_file_cons, Hraise. reflexivity.
  - cbn [app]. rewrite for_each_file_cons.
    pose proof (Hok f l n (or_introl eq_refl)) as H.
    destruct (outcome (process_file w dir ds l f n)) as [l1|e1]; [|discriminate].
    rewrite outcome_after. apply IH. intros g l' k Hg. apply Hok. now right.
Qed.

Lemma dict_keys_set d k v : dict_keys (dict_set d k v) = add_key (dict_keys d) k.
Proof.
  unfold add_key, dict_keys. induction d as [|[k' v'] d IH]; simpl; [reflexivity|].
  destruct (String.eqb k' k); simpl; [reflexivity|].
  rewrite IH. destruct (existsb _ (map fst d)); reflexivity.
Qed.

Lemma for_each_file_keys dir ds files l n l' :
  outcome (for_each_file w dir ds files l n) = Ok l' ->
  dict_keys (attributes_of_total_rows l') =
  fold_left add_key (map base_name files) (dict_keys (attributes_of_total_rows l)).
Proof.
  revert l n. induction files as [|file rest IH]; intros l n.
  - intros [= <-]. reflexivity.
  - rewrite for_each_file_cons.
    destruct (outcome (process_file w dir ds l file n)) as [l1|e] eqn:Ho;
      [|discriminate].
    rewrite outcome_after. intros H. rewrite (IH _ _ H). simpl.
    destruct (process_file_entry w _ _ _ _ _ _ Ho) as (v & -> & _).
    now rewrite dict_keys_set.
Qed.

End LoopOutcomes.

(** ** Runs that import nothing *)

Section SkippedFiles.

Context `{FA : FloatArith}.
Variable w : World.

Lemma process_file_skipped dir ds l file n :
  skipped w dir ds file ->
  exists v,
    outcome (process_file w dir ds l file n) = Ok (record_entry l file v) /\
    is_skip_entry file v.
Proof.
  intros [Hmissing | (rc & Hu)].
  - rewrite process_file_missing by exact Hmissing. eexists. split; [reflexivity|].
    now left.
  - rewrite (process_file_unsupported w dir ds l file n rc Hu).
    eexists. split; [reflexivity|]. right. eauto.
Qed.

Lemma for_each_file_skipped dir ds files l n :
  (forall file, In file files -> skipped w dir ds file) ->
  incl files files_to_import ->
  all_skipped (attributes_of_total_rows l) ->
  exists l',
    outcome (for_each_file w dir ds files l n) = Ok l' /\
    finish l' = finish l /\
    total_time_taken l' = total_time_taken l /\
    all_skipped (attributes_of_total_rows l').
Proof.
  revert l n. induction files as [|file rest IH]; intros l n Hs Hincl Hl.
  - exists l. repeat split. exact Hl.
  - rewrite for_each_file_cons.
    destruct (process_file_skipped dir ds l file n (Hs file (or_introl eq_refl)))
      as (v & Ho & Hv).
    rewrite Ho, outcome_after.
    destruct (IH (record_entry l file v)
                 (ticks (process_file w dir ds l file n))) as (l' & H1 & H2 & H3 & H4).
    + intros f Hf. apply Hs. now right.
    + intros f Hf. apply Hincl. now right.
    + cbn [record_entry attributes_of_total_rows].
      apply Forall_dict_set; [exact Hl|].
      exists file. split; [apply Hincl; now left|]. split; [reflexivity | exact Hv].
    + exists l'. repeat split; assumption.
Qed.

End SkippedFiles.

(** ** Splitting paths *)

Section StringFacts.

Lemma split_not_nil sep s : PyStr.split sep s <> [].
Proof.
  destruct s as [|c r]; simpl; [discriminate|].
  destruct (Ascii.eqb c sep); [discriminate|].
  destruct (PyStr.split sep r); discriminate.
Qed.

Lemma split_app sep a b :
  PyStr.split sep (a ++ String sep b) = PyStr.split sep a ++ PyStr.split sep b.
Proof.
  induction a as [|c a IH]; simpl.
  - now rewrite Ascii.eqb_refl.
  - destruct (Ascii.eqb c sep); [now rewrite IH|].
    rewrite IH. destruct (PyStr.split sep a) as [|seg segs] eqn:E.
    + now apply split_not_nil in E.
    + reflexivity.
Qed.

Lemma split_no_sep sep s : PyStr.mem sep s = false -> PyStr.split sep s = [s].
Proof.
  induction s as [|c r IH]; simpl; [reflexivity|].
  intros H. apply orb_false_iff in H as [Hc Hr]. rewrite Hc, (IH Hr). reflexivity.
Qed.

Lemma index_from_end_snoc {A : Type} (l : list A) x :
  index_from_end (l ++ [x]) 2 = index_from_end l 1.
Proof.
  unfold index_from_end. rewrite length_app. simpl.
  destruct l as [|y l]; [reflexivity|]. simpl length.
  replace (S (length l) + 1 - 2) with (length l) by lia.
  replace (S (length l) - 1) with (length l) by lia.
  replace (S (length l) + 1 <? 2)%nat with false by (symmetry; apply Nat.ltb_ge; lia).
  replace (S (length l) <? 1)%nat with false by (symmetry; apply Nat.ltb_ge; lia).
  rewrite nth_error_app1 by (simpl; lia). reflexivity.
Qed.

Lemma index_from_end_last {A : Type} (l : list A) x :
  index_from_end (l ++ [x]) 1 = Some x.
Proof.
  unfold index_from_end. rewrite length_app. simpl.
  replace (length l + 1 <? 1)%nat with false by (symmetry; apply Nat.ltb_ge; lia).
  replace (length l + 1 - 1) with (length l) by lia.
  rewrite nth_error_app2 by lia. now rewrite Nat.sub_diag.
Qed.

Lemma dataset_of_trailing_slash parent name :
  PyStr.mem "/" name = false ->
  dataset_of (parent ++ "/" ++ name ++ "/") = Some name.
Proof.
  intros H. unfold dataset_of.
  change (parent ++ "/" ++ name ++ "/")%string
    with (parent ++ String "/" (name ++ String "/" ""))%string.
  rewrite !split_app, (split_no_sep _ _ H). simpl PyStr.split.
  change (PyStr.split "/" parent ++ [name] ++ [""])
    with (PyStr.split "/" parent ++ [name; ""]).
  replace (PyStr.split "/" parent ++ [name; ""])
    with ((PyStr.split "/" parent ++ [name]) ++ [""]) by now rewrite <- app_assoc.
  rewrite index_from_end_snoc. apply index_from_end_last.
Qed.

Lemma dataset_of_no_trailing_slash parent name :
  PyStr.mem "/" name = false ->
  dataset_of (parent ++ "/" ++ name) = index_from_end (PyStr.split "/" parent) 1.
Proof.
  intros H. unfold dataset_of.
  change (parent ++ "/" ++ name)%string with (parent ++ String "/" name)%string.
  rewrite split_app, (split_no_sep _ _ H). apply index_from_end_snoc.
Qed.

Lemma string_app_assoc (a b c : string) : ((a ++ b) ++ c = a ++ (b ++ c))%string.
Proof. induction a as [|x a IH]; simpl; [reflexivity | now rewrite IH]. Qed.

End StringFacts.

(** ** The static command: the claims *)

Section StaticClaims.

Context `{FA : FloatArith}.

(** C9.  When [importgtfs] is given a directory (a non-empty [-dir], which
    is what the validator's [if dir] tests) that does not exist or is not
    a directory, [gtfs_directory_validator] prints the error and returns
    [None]; [importgtfs] then raises [AttributeError] at [dir.split], after
    nothing but the opening line and the validator's probes and error
    line: no prompt, no table mutation, no iteration of the loop (hence
    no report entry) and no event. *)
Theorem missing_directory_aborts w d n :
  d <> "" ->
  os_path_exists w d && os_path_isdir w d = false ->
  let stat := EExists d :: (if os_path_exists w d then [EIsDir d] else []) in
  gtfs_directory_validator w (Some d) (S n) =
    (Ok None, S n, stat ++ [EPrint (MsgDirectoryDoesNotExist d)]) /\
  importgtfs w (Some d) n =
    (Raise AttributeError, S n,
     EPrint MsgImportingStatic :: stat ++ [EPrint (MsgDirectoryDoesNotExist d)]) /\
  existsb is_prompt (trace (importgtfs w (Some d) n)) = false /\
  existsb is_table_mutation (trace (importgtfs w (Some d) n)) = false /\
  visits (trace (importgtfs w (Some d) n)) = [] /\
  events (trace (importgtfs w (Some d) n)) = [].
Proof.
  intros Hd Hmissing stat.
  assert (Hv : gtfs_directory_validator w (Some d) (S n) =
               (Ok None, S n, stat ++ [EPrint (MsgDirectoryDoesNotExist d)])).
  { unfold gtfs_directory_validator, stat.
    destruct d as [|c d]; [congruence|]. steps.
    destruct (os_path_exists w (String c d)); steps.
    - simpl in Hmissing. rewrite Hmissing. steps. reflexivity.
    - reflexivity. }
  assert (Hrun : importgtfs w (Some d) n =
    (Raise AttributeError, S n,
     EPrint MsgImportingStatic :: stat ++ [EPrint (MsgDirectoryDoesNotExist d)])).
  { unfold importgtfs. rewrite bind_perf_counter. steps.
    rewrite bind_run, Hv. unfold after, raise. cbn [outcome ticks trace fst snd app].
    now rewrite app_nil_r. }
  split; [exact Hv|]. split; [exact Hrun|]. rewrite Hrun. cbn [trace snd].
  unfold stat, events, visits. destruct (os_path_exists w d); repeat split.
Qed.


(** C1, amended.  An error raised by [clear_table()] or [import_data()]
    is not caught: the only handler of the loop is [except ValueError]
    around [get_importer_for_file].  The iteration ends with that error,
    so no entry is recorded for the file; the command ends with an error
    (this one, when no earlier file raised), records no event, and does
    nothing about the files that come later in the list. *)
Theorem import_error_aborts_run w dir n d ds before file rest e :
  confirmed w dir d ds ->
  files_to_import = before ++ file :: rest ->
  import_raises w d ds file e ->
  (forall l k, outcome (process_file w d ds l file k) = Raise e) /\
  is_ok (outcome (importgtfs w dir n)) = false /\
  ((forall f l k, In f before ->
      is_ok (outcome (process_file w d ds l f k)) = true) ->
   outcome (importgtfs w dir n) = Raise e) /\
  events (trace (importgtfs w dir n)) = [] /\
  (forall x f, In x (trace (importgtfs w dir n)) -> In f rest ->
     file_of x <> Some f).
Proof.
  intros Hc Hfiles Hraise.
  assert (Hfile : forall l k, outcome (process_file w d ds l file k) = Raise e)
    by (intros; now apply process_file_raises).
  split; [exact Hfile|].
  rewrite (importgtfs_confirmed w dir d ds n Hc), import_files_run. cbv zeta.
  rewrite Hfiles.
  set (loop := for_each_file w d ds (before ++ file :: rest) initial_locals (S (S n))).
  destruct (for_each_file_raises w d ds before file rest initial_locals (S (S n)))
    as [Hnot Hsteps].
  { intros l k. now rewrite Hfile. }
  fold loop in Hnot, Hsteps.
  destruct Hc as (Hv & _ & _).
  destruct (preamble_quiet _ (validator_preamble w dir)) as (Hev & _ & _ & _ & Hfo).
  split; [|split; [|split]].
  - rewrite outcome_after. destruct (outcome loop); [discriminate Hnot | reflexivity].
  - intros Hok. rewrite outcome_after.
    pose proof (for_each_file_first_raise w d ds before file rest initial_locals
                  (S (S n)) e Hok Hfile) as Hl.
    fold loop in Hl. now rewrite Hl.
  - rewrite trace_after. destruct (outcome loop); [discriminate Hnot|].
    cbn [trace snd app]. unfold events in *. simpl. rewrite !filter_app, Hev. simpl.
    eapply loop_steps_no_events. exact Hsteps.
  - intros x f Hx Hf Hfx. rewrite trace_after in Hx.
    destruct (outcome loop); [discriminate Hnot|]. cbn [trace snd] in Hx.
    destruct Hx as [<- | Hx]; [discriminate|].
    apply in_app_or in Hx as [Hx | Hx].
    + apply in_app_or in Hx as [Hx | [<- | []]]; [|discriminate].
      rewrite (Hfo x Hx) in Hfx. discriminate.
    + pose proof (loop_steps_file_of _ _ _ _ _ Hsteps Hx Hfx) as Hin.
      pose proof files_to_import_NoDup as Hnd. rewrite Hfiles in Hnd.
      replace (before ++ file :: rest) with ((before ++ [file]) ++ rest) in Hnd
        by (now rewrite <- app_assoc).
      exact (NoDup_app_disjoint _ _ _ Hnd Hin Hf).
Qed.


(** C3, amended.  A static run that passes the directory check, is
    confirmed at the prompt and in which no iteration raises goes through
    exactly the eight files, each once, in the fixed order, and then makes
    exactly one report-emission step: the event comes after every
    iteration, nothing after it is an iteration or an event, and its
    totals have the eight base names as keys, in that order. *)
Theorem confirmed_run_visits_each_file_once w dir n d ds :
  confirmed w dir d ds ->
  (forall file l k, In file files_to_import ->
     is_ok (outcome (process_file w d ds l file k)) = true) ->
  visits (trace (importgtfs w dir n)) =
    [ "agency.txt"; "calendar.txt"; "calendar_dates.txt"; "routes.txt";
      "stops.txt"; "trips.txt"; "stop_times.txt"; "shapes.txt" ] /\
  exists before l closing,
    trace (importgtfs w dir n) =
      before
      ++ ECreateEvent GTFS_DATABASE_UPDATED static_event_message
           (static_attributes ds l)
      :: closing /\
    visits before = files_to_import /\ events before = [] /\
    visits closing = [] /\ events closing = [] /\
    dict_keys (attributes_of_total_rows l) =
      [ "agency"; "calendar"; "calendar_dates"; "routes";
        "stops"; "trips"; "stop_times"; "shapes" ].
Proof.
  intros Hc Hok.
  rewrite (importgtfs_confirmed w dir d ds n Hc), import_files_run. cbv zeta.
  set (loop := for_each_file w d ds files_to_import initial_locals (S (S n))).
  destruct (for_each_file_ok w d ds files_to_import initial_locals (S (S n)) Hok)
    as [l Hl].
  fold loop in Hl. rewrite Hl.
  pose proof (for_each_file_visits w _ _ _ _ _ _ Hl) as Hvis. fold loop in Hvis.
  pose proof (for_each_file_events w d ds files_to_import initial_locals (S (S n)))
    as Hev. fold loop in Hev.
  pose proof (for_each_file_keys w _ _ _ _ _ _ Hl) as Hkeys.
  destruct (preamble_quiet _ (validator_preamble w dir)) as (Hpe & Hpv & _).
  set (pre := EPrint MsgImportingStatic
              :: trace (gtfs_directory_validator w dir 0) ++ [EPrompt ds]).
  assert (Hpre_v : visits pre = []).
  { unfold pre, visits in *. simpl. now rewrite flat_map_app, Hpv. }
  assert (Hpre_e : events pre = []).
  { unfold pre, events in *. simpl. now rewrite filter_app, Hpe. }
  set (event := ECreateEvent GTFS_DATABASE_UPDATED static_event_message
                  (static_attributes ds l)).
  assert (Hshape : exists closing,
    trace (after pre (after (trace loop ++ [event])
      match create_event_with_session w GTFS_DATABASE_UPDATED
              static_event_message (static_attributes ds l) with
      | Ok _ =>
          match finish l with
          | Some f =>
              (Ok tt, ticks loop,
               [EPrint (MsgFinished (fround2 (fsub f (perf_counter_at w (S n)))))])
          | None => (Raise UnboundLocalError, ticks loop, [])
          end
      | Raise e => (Raise e, ticks loop, [])
      end)) = (pre ++ trace loop) ++ event :: closing /\
    visits closing = [] /\ events closing = []).
  { rewrite !trace_after.
    destruct (create_event_with_session w _ _ _); [destruct (finish l)|];
      cbn [trace snd]; eexists; (split; [now rewrite <- !app_assoc|]);
      split; reflexivity. }
  destruct Hshape as (closing & Ht & Hcv & Hce). rewrite Ht.
  split.
  - rewrite !visits_app, Hpre_v, Hvis. simpl. rewrite Hcv. reflexivity.
  - exists (pre ++ trace loop), l, closing. repeat split; auto.
    + now rewrite visits_app, Hpre_v, Hvis.
    + now rewrite events_app, Hpre_e, Hev.
Qed.


(** C5, amended.  When the loop meets a file that is absent on disk it
    prints that the file does not exist, records for it the entry with
    time taken 0, row count 0 and the error "File '...' does not exist.",
    and goes on with the next file.  In a directory that contains only
    [agency.txt], the report has the entry of the import for [agency] and
    the "does not exist" entry for each of the other seven files. *)
Theorem missing_file_is_skipped w d ds :
  (forall l file rest n,
     present w d file = false ->
     for_each_file w d ds (file :: rest) l n =
       after (probes w d file ++ [EPrint (MsgFileDoesNotExist file)])
         (for_each_file w d ds rest (record_entry l file (entry_missing file)) (S n)) /\
     entry_missing file =
       VDict [ ("time_taken(s)", VInt 0); ("row_count", VInt 0);
               ("error", VStr ("File '" ++ file ++ "' does not exist.")) ]) /\
  (forall dir n row_count importer,
     confirmed w dir d ds ->
     os_path_exists w d = true ->
     (forall file, In file files_to_import ->
        os_path_isfile w (d ++ file) = String.eqb file "agency.txt") ->
     dispatched_to w d ds "agency.txt" row_count importer ->
     clear_table importer = Ok tt ->
     import_data importer = Ok tt ->
     exists time_taken total,
       events (trace (importgtfs w dir n)) =
       [ECreateEvent GTFS_DATABASE_UPDATED static_event_message
          (VDict
             [ ("dataset", VStr ds);
               ("totals",
                VDict
                  [ ("agency", entry_imported time_taken row_count);
                    ("calendar", entry_missing "calendar.txt");
                    ("calendar_dates", entry_missing "calendar_dates.txt");
                    ("routes", entry_missing "routes.txt");
                    ("stops", entry_missing "stops.txt");
                    ("trips", entry_missing "trips.txt");
                    ("stop_times", entry_missing "stop_times.txt");
                    ("shapes", entry_missing "shapes.txt") ]);
               ("total_time_taken(s)", VFloat total) ])]).
Proof.
  split.
  - intros l file rest n Hmissing. split; [|reflexivity].
    rewrite for_each_file_cons, process_file_missing by exact Hmissing.
    reflexivity.
  - intros dir n rc imp Hc Hexists Hfiles Hagency Hclear Himport.
    assert (Hmissing : forall file, In file files_to_import ->
              String.eqb file "agency.txt" = false -> present w d file = false).
    { intros file Hin Hne. unfold present. now rewrite Hexists, (Hfiles file Hin). }
    rewrite (importgtfs_confirmed w dir d ds n Hc), import_files_run. cbv zeta.
    set (loop := for_each_file w d ds files_to_import initial_locals (S (S n))).
    pose proof (for_each_file_events w d ds files_to_import initial_locals (S (S n)))
      as Hloop. fold loop in Hloop.
    destruct (preamble_quiet _ (validator_preamble w dir)) as (Hpe & _).
    assert (Hout : exists l time_taken,
              outcome loop = Ok l /\
              attributes_of_total_rows l =
                [ ("agency", entry_imported time_taken rc);
                  ("calendar", entry_missing "calendar.txt");
                  ("calendar_dates", entry_missing "calendar_dates.txt");
                  ("routes", entry_missing "routes.txt");
                  ("stops", entry_missing "stops.txt");
                  ("trips", entry_missing "trips.txt");
                  ("stop_times", entry_missing "stop_times.txt");
                  ("shapes", entry_missing "shapes.txt") ]).
    { subst loop. unfold files_to_import.
      rewrite for_each_file_cons,
        (process_file_imported w d ds _ _ _ rc imp Hagency Hclear Himport).
      cbn [outcome ticks trace fst snd]. rewrite outcome_after.
      repeat (rewrite for_each_file_cons, process_file_missing
                by (apply Hmissing; [unfold files_to_import; simpl; tauto | reflexivity]);
              cbn [outcome ticks trace fst snd]; rewrite outcome_after).
      do 2 eexists. split; reflexivity. }
    clearbody loop. destruct Hout as (l & time_taken & Hl & Htotals).
    rewrite Hl. exists time_taken, (total_time_taken l).
    unfold static_attributes. rewrite Htotals.
    unfold events in *. rewrite !trace_after. simpl filter.
    rewrite !filter_app, Hpe, Hloop. cbn [filter is_event app].
    destruct (create_event_with_session w _ _ _); [destruct (finish l)|];
      reflexivity.
Qed.


End StaticClaims.

(** * More about the commands *)

(** ** How a static run ends *)

Section RunEndings.

Context `{FA : FloatArith}.
Variable w : World.

(** An iteration that returns either skipped the file or imported it. *)
Lemma process_file_ok_inv dir ds l file n l' :
  outcome (process_file w dir ds l file n) = Ok l' ->
  skipped w dir ds file \/
  exists rc imp,
    dispatched_to w dir ds file rc imp /\
    clear_table imp = Ok tt /\ import_data imp = Ok tt.
Proof.
  unfold skipped, unsupported, dispatched_to.
  unfold process_file. rewrite bind_perf_counter, guard_run.
  destruct (present w dir file) eqn:Hp; cbn [negb]; steps; [|intros _; left; left; reflexivity].
  destruct (imp_GTFSImporter w file dir) as [gi|e] eqn:Hgi; steps; [|discriminate].
  destruct (get_reader gi) as [rd|e] eqn:Hrd; steps; [|discriminate].
  destruct (get_row_count gi) as [rc|e] eqn:Hrc; steps; [|discriminate].
  rewrite bind_try_dispatch.
  destruct (imp_get_importer_for_file w file rd rc ds) as [imp|e] eqn:Hreg.
  - steps.
    destruct (clear_table imp) as [[]|e] eqn:Hc; steps; [|discriminate].
    destruct (import_data imp) as [[]|e] eqn:Hi; steps; [|discriminate].
    intros _. right. exists rc, imp. split; [|split; assumption].
    split; [reflexivity|]. exists gi, rd. auto.
  - destruct e; cbn [is_ValueError]; try discriminate.
    intros _. left. right. exists rc. split; [reflexivity|]. exists gi, rd. auto.
Qed.

(** A run that is not confirmed touches nothing. *)
Lemma importgtfs_confirmed_or_quiet dir n :
  (exists ds, confirmed w dir (resolve dir default_directory) ds) \/
  (events (trace (importgtfs w dir n)) = [] /\
   visits (trace (importgtfs w dir n)) = [] /\
   existsb is_table_mutation (trace (importgtfs w dir n)) = false /\
   (forall x, In x (trace (importgtfs w dir n)) -> file_of x = None)).
Proof.
  destruct (preamble_quiet _ (validator_preamble w dir)) as (Hpe & Hpv & _ & Hpm & Hpf).
  unfold importgtfs. rewrite bind_perf_counter. steps. rewrite bind_validator.
  destruct (validator_result w dir) as [Hv | Hv]; rewrite Hv; cbv beta iota.
  - right. rewrite !trace_after. unfold raise. cbn [trace snd]. rewrite app_nil_r.
    unfold events, visits in *. simpl. rewrite Hpe, Hpv, Hpm. repeat split.
    intros x [<- | Hx]; auto.
  - destruct (dataset_of (resolve dir default_directory)) as [ds|] eqn:Hds.
    + steps. destruct (String.eqb (click_prompt w ds) "y") eqn:Hy; cbn [negb].
      * left. exists ds. repeat split; auto. now apply String.eqb_eq.
      * right. steps. rewrite !trace_after. finish_run.
        unfold events, visits in *. simpl.
        rewrite filter_app, flat_map_app, existsb_app, Hpe, Hpv, Hpm.
        repeat split. intros x [<- | Hx]; auto.
        apply in_app_or in Hx as [Hx | [<- | [<- | []]]]; auto.
    + right. rewrite !trace_after. unfold raise. cbn [trace snd]. rewrite app_nil_r.
      unfold events, visits in *. simpl. rewrite Hpe, Hpv, Hpm. repeat split.
      intros x [<- | Hx]; auto.
Qed.


(** The three ways in which a confirmed run ends once the loop has
    returned, and the one in which the loop raises. *)
Lemma confirmed_run_cases dir d ds n :
  confirmed w dir d ds ->
  let loop := for_each_file w d ds files_to_import initial_locals (S (S n)) in
  let pre := EPrint MsgImportingStatic
             :: trace (gtfs_directory_validator w dir 0) ++ [EPrompt ds] in
  (exists e,
     outcome loop = Raise e /\
     importgtfs w dir n = (Raise e, ticks loop, pre ++ trace loop)) \/
  (exists l r closing,
     outcome loop = Ok l /\
     importgtfs w dir n =
       (r, ticks loop,
        pre ++ trace loop
        ++ ECreateEvent GTFS_DATABASE_UPDATED static_event_message
             (static_attributes ds l) :: closing) /\
     ((exists e,
         create_event_with_session w GTFS_DATABASE_UPDATED static_event_message
           (static_attributes ds l) = Raise e /\
         r = Raise e /\ closing = []) \/
      (finish l = None /\ r = Raise UnboundLocalError /\ closing = []) \/
      (exists f,
         finish l = Some f /\ r = Ok tt /\
         closing = [EPrint (MsgFinished
                              (fround2 (fsub f (perf_counter_at w (S n)))))]))).
Proof.
  intros Hc loop pre.
  rewrite (importgtfs_confirmed w dir d ds n Hc), import_files_run. cbv zeta.
  fold loop. fold pre. clearbody loop pre.
  destruct (outcome loop) as [l|e].
  - right.
    destruct (create_event_with_session w _ _ _) as [u|e] eqn:He;
      [destruct (finish l) as [f|] eqn:Hf|];
      unfold after; cbn [outcome ticks trace fst snd];
      rewrite <- ?app_assoc; cbn [app]; do 3 eexists;
      (split; [reflexivity|]); (split; [reflexivity|]).
    + right. right. eauto.
    + right. left. auto.
    + left. eauto.
  - left. exists e. split; reflexivity.
Qed.

End RunEndings.

Section RunEndingFacts.

Context `{FA : FloatArith}.
Variable w : World.

Lemma split_length_sep sep s :
  PyStr.mem sep s = true -> 2 <= length (PyStr.split sep s).
Proof.
  induction s as [|c r IH]; simpl; [discriminate|].
  destruct (Ascii.eqb c sep) eqn:E; simpl.
  - intros _. pose proof (split_not_nil sep r).
    destruct (PyStr.split sep r); [congruence | simpl; lia].
  - intros H. specialize (IH H).
    destruct (PyStr.split sep r); simpl in *; lia.
Qed.

Lemma dataset_of_none_iff d : dataset_of d = None <-> PyStr.mem "/" d = false.
Proof.
  unfold dataset_of, index_from_end. split.
  - intros H. destruct (PyStr.mem "/" d) eqn:Hm; [|reflexivity].
    apply split_length_sep in Hm.
    destruct (Nat.ltb_spec (length (PyStr.split "/" d)) 2) as [Hlt | Hge]; [lia|].
    apply nth_error_None in H. lia.
  - intros H. now rewrite (split_no_sep _ _ H).
Qed.

(** If the loop returns with [finish] changed, a file was imported. *)
Lemma for_each_file_finish dir ds files l n l' :
  outcome (for_each_file w dir ds files l n) = Ok l' ->
  finish l' = finish l \/
  exists file, In file files /\
    In (EImportData file) (trace (for_each_file w dir ds files l n)).
Proof.
  revert l n. induction files as [|file rest IH]; intros l n.
  - intros [= <-]. now left.
  - rewrite for_each_file_cons.
    destruct (outcome (process_file w dir ds l file n)) as [l1|e] eqn:Ho;
      [|discriminate].
    rewrite outcome_after, trace_after. intros H.
    destruct (process_file_ok_inv w _ _ _ _ _ _ Ho) as [Hs | (rc & imp & Hd & Hc & Hi)].
    + destruct (process_file_skipped w dir ds l file n Hs) as (v & Hv & _).
      rewrite Ho in Hv. injection Hv as ->.
      destruct (IH _ _ H) as [Hf | (f & Hf & Hin)].
      * now left.
      * right. exists f. split; [now right|]. apply in_or_app. now right.
    + right. exists file. split; [now left|]. apply in_or_app. left.
      rewrite (process_file_imported w dir ds l file n rc imp Hd Hc Hi).
      cbn [trace snd]. apply in_or_app. right. simpl. tauto.
Qed.

End RunEndingFacts.

(** ** The static command: what it does and what it never does *)

Section StaticBehaviour.

Context `{FA : FloatArith}.

(** X1.  [gtfs_directory_validator] never raises and never reads the
    clock.  Given a non-empty directory it returns it when it exists and
    is a directory and [None] otherwise, asking [isdir] only when
    [exists] said yes.  Given no directory, or the empty string, it
    returns the default "./gtfs_data/TFI/" without asking the filesystem
    anything: the default is not checked. *)
Theorem validator_result_and_probes w dir n :
  ticks (gtfs_directory_validator w dir n) = n /\
  match dir with
  | Some (String c r) =>
      let d := String c r in
      outcome (gtfs_directory_validator w dir n) =
        Ok (if os_path_exists w d && os_path_isdir w d then Some d else None) /\
      (In (EIsDir d) (trace (gtfs_directory_validator w dir n)) <->
       os_path_exists w d = true)
  | _ =>
      gtfs_directory_validator w dir n =
        (Ok (Some "./gtfs_data/TFI/"), n,
         [EPrint (MsgNoDirectorySpecified "./gtfs_data/TFI/")])
  end.
Proof.
  unfold gtfs_directory_validator. destruct dir as [[|c r]|]; steps.
  - split; reflexivity.
  - destruct (os_path_exists w (String c r)); steps;
      [destruct (os_path_isdir w (String c r))|]; steps; finish_run;
      (split; [reflexivity|]); (split; [reflexivity|]);
      simpl; intuition discriminate.
  - split; reflexivity.
Qed.

(** X2.  A run that is not confirmed with exactly "y" at the prompt
    prints that it aborts and returns: no file is visited, no table is
    touched and no event is recorded. *)
Theorem declined_run_changes_nothing w dir n d ds :
  outcome (gtfs_directory_validator w dir 0) = Ok (Some d) ->
  dataset_of d = Some ds ->
  click_prompt w ds <> "y" ->
  importgtfs w dir n =
    (Ok tt, S n,
     EPrint MsgImportingStatic :: trace (gtfs_directory_validator w dir 0)
     ++ [EPrompt ds; EPrint MsgAborting]) /\
  existsb is_table_mutation (trace (importgtfs w dir n)) = false /\
  visits (trace (importgtfs w dir n)) = [] /\
  events (trace (importgtfs w dir n)) = [].
Proof.
  intros Hv Hds Hn.
  assert (Hrun : importgtfs w dir n =
    (Ok tt, S n,
     EPrint MsgImportingStatic :: trace (gtfs_directory_validator w dir 0)
     ++ [EPrompt ds; EPrint MsgAborting])).
  { unfold importgtfs. rewrite bind_perf_counter. steps.
    rewrite bind_validator, Hv, Hds. steps.
    destruct (String.eqb (click_prompt w ds) "y") eqn:E.
    - apply String.eqb_eq in E. contradiction.
    - cbn [negb]. steps. finish_run. reflexivity. }
  split; [exact Hrun|]. rewrite Hrun. cbn [trace snd].
  destruct (preamble_quiet _ (validator_preamble w dir)) as (Hpe & Hpv & _ & Hpm & _).
  unfold events, visits in *. simpl.
  rewrite filter_app, flat_map_app, existsb_app, Hpe, Hpv, Hpm. repeat split.
Qed.

(** X3.  [dir.split("/")[-2]] fails exactly for the directory strings
    without a "/".  For such a directory that exists, [importgtfs] raises
    [IndexError] right after the validator accepted it, before the
    prompt. *)
Theorem directory_without_separator_raises w d n :
  (forall d', dataset_of d' = None <-> PyStr.mem "/" d' = false) /\
  (d <> "" ->
   os_path_exists w d && os_path_isdir w d = true ->
   PyStr.mem "/" d = false ->
   importgtfs w (Some d) n =
     (Raise IndexError, S n,
      [EPrint MsgImportingStatic; EExists d; EIsDir d;
       EPrint (MsgUsingDirectory d)])).
Proof.
  split; [apply dataset_of_none_iff|].
  intros Hd He Hm. apply andb_true_iff in He as [He Hi].
  apply dataset_of_none_iff in Hm.
  assert (Hv : gtfs_directory_validator w (Some d) 0 =
               (Ok (Some d), 0, [EExists d; EIsDir d; EPrint (MsgUsingDirectory d)])).
  { unfold gtfs_directory_validator. destruct d as [|c r]; [congruence|].
    steps. rewrite He. steps. rewrite Hi. steps. reflexivity. }
  unfold importgtfs. rewrite bind_perf_counter. steps.
  rewrite bind_validator, Hv. cbn [outcome trace fst snd]. rewrite Hm.
  reflexivity.
Qed.

(** X4.  The handler of the loop recovers from nothing but a
    [ValueError] of [get_importer_for_file]: an error of
    [GTFSImporter(...)], [get_reader()] or [get_row_count()] (a
    [ValueError] included), and any other error of the registry, ends the
    iteration with that error, before any table is touched. *)
Theorem only_the_registry_error_is_recovered w d ds l file n e :
  present w d file = true ->
  (imp_GTFSImporter w file d = Raise e \/
   exists gi,
     imp_GTFSImporter w file d = Ok gi /\
     (get_reader gi = Raise e \/
      exists rd,
        get_reader gi = Ok rd /\
        (get_row_count gi = Raise e \/
         exists rc,
           get_row_count gi = Ok rc /\
           imp_get_importer_for_file w file rd rc ds = Raise e /\
           is_ValueError e = false))) ->
  outcome (process_file w d ds l file n) = Raise e /\
  existsb is_table_mutation (trace (process_file w d ds l file n)) = false.
Proof.
  intros Hp H.
  assert (Hprobes : existsb is_table_mutation (probes w d file) = false).
  { unfold probes. destruct (os_path_exists w d); reflexivity. }
  unfold process_file. rewrite bind_perf_counter, guard_run, Hp. cbn [negb].
  rewrite outcome_after, trace_after, existsb_app, Hprobes. steps.
  destruct H as [Hgi | (gi & Hgi & H)]; rewrite Hgi; steps; [split; reflexivity|].
  destruct H as [Hrd | (rd & Hrd & H)]; rewrite Hrd; steps; [split; reflexivity|].
  destruct H as [Hrc | (rc & Hrc & Hreg & He)]; rewrite Hrc; steps;
    [split; reflexivity|].
  rewrite bind_try_dispatch, Hreg, He. split; reflexivity.
Qed.

(** X5.  An iteration for a file that is absent or unsupported returns,
    reads the clock once, touches no table, and leaves the running total
    and [finish] as they were; for an absent file it does nothing but
    probe the two paths and print the error. *)
Theorem skipped_file_touches_no_table w d ds l file n :
  skipped w d ds file ->
  exists l',
    outcome (process_file w d ds l file n) = Ok l' /\
    ticks (process_file w d ds l file n) = S n /\
    existsb is_table_mutation (trace (process_file w d ds l file n)) = false /\
    total_time_taken l' = total_time_taken l /\
    finish l' = finish l /\
    (present w d file = false ->
     forall x, In x (trace (process_file w d ds l file n)) ->
       x = EExists d \/ x = EIsFile (d ++ file) \/
       x = EPrint (MsgFileDoesNotExist file)).
Proof.
  assert (Hprobes : existsb is_table_mutation (probes w d file) = false).
  { unfold probes. destruct (os_path_exists w d); reflexivity. }
  intros [Hm | (rc & Hu)].
  - rewrite (process_file_missing w d ds l file n Hm).
    eexists. split; [reflexivity|]. cbn [ticks trace fst snd].
    rewrite existsb_app, Hprobes. repeat split.
    intros _ x Hx. apply in_app_or in Hx as [Hx | [<- | []]]; [|auto].
    unfold probes in Hx. destruct (os_path_exists w d); simpl in Hx; intuition.
  - rewrite (process_file_unsupported w d ds l file n rc Hu).
    eexists. split; [reflexivity|]. cbn [ticks trace fst snd].
    rewrite existsb_app, Hprobes. repeat split.
    destruct Hu as (Hp & _). intros Hm. congruence.
Qed.

(** X6.  Whatever the world does, [importgtfs] touches a table only
    after it has shown the prompt for the dataset of the directory and
    the reply was "y". *)
Theorem tables_change_only_after_consent w dir n :
  existsb is_table_mutation (trace (importgtfs w dir n)) = true ->
  exists dataset,
    dataset_of (resolve dir default_directory) = Some dataset /\
    In (EPrompt dataset) (trace (importgtfs w dir n)) /\
    click_prompt w dataset = "y".
Proof.
  intros Hmut.
  destruct (importgtfs_confirmed_or_quiet w dir n)
    as [(ds & Hc) | (_ & _ & Hq & _)]; [|congruence].
  exists ds. pose proof Hc as (_ & Hds & Hy). repeat split; auto.
  rewrite (importgtfs_confirmed w dir _ ds n Hc), trace_after.
  right. apply in_or_app. left. apply in_or_app. right. now left.
Qed.

(** X7.  Neither command ever records more than one event in a run. *)
Theorem at_most_one_event w c n :
  length (events (trace (run_command w c n))) <= 1.
Proof.
  destruct c as [dir | url apikey dataset]; cbn [run_command].
  - destruct (importgtfs_confirmed_or_quiet w dir n)
      as [(ds & Hc) | (Hq & _)]; [|rewrite Hq; simpl; lia].
    destruct (preamble_quiet _ (validator_preamble w dir)) as (Hpe & _).
    pose proof (for_each_file_events w (resolve dir default_directory) ds
                  files_to_import initial_locals (S (S n))) as Hloop.
    pose proof (confirmed_run_cases w dir _ ds n Hc) as Hcases. cbv zeta in Hcases.
    set (loop := for_each_file w (resolve dir default_directory) ds
                   files_to_import initial_locals (S (S n))) in *.
    clearbody loop.
    destruct Hcases as [(e & _ & Hrun) | (l & r & closing & _ & Hrun & Hend)];
      rewrite Hrun; cbn [trace snd]; unfold events in *; simpl;
      rewrite !filter_app, Hpe, Hloop; simpl; [lia|].
    destruct Hend as [(e & _ & _ & ->) | [(_ & _ & ->) | (f & _ & _ & ->)]];
      simpl; lia.
  - destruct (realtime_events w url apikey dataset n) as [H | (a & b & t & H)];
      rewrite H; simpl; lia.
Qed.

(** X8.  An event of a static run always reports a complete pass: when
    it is recorded, each of the eight files has been visited once, in
    order, all of that before the event, and no table is touched after
    it. *)
Theorem event_reports_a_complete_pass w dir n ty msg attributes :
  In (ECreateEvent ty msg attributes) (trace (importgtfs w dir n)) ->
  visits (trace (importgtfs w dir n)) = files_to_import /\
  exists before closing,
    trace (importgtfs w dir n) =
      before ++ ECreateEvent ty msg attributes :: closing /\
    visits before = files_to_import /\
    existsb is_table_mutation closing = false.
Proof.
  intros Hin.
  destruct (importgtfs_confirmed_or_quiet w dir n)
    as [(ds & Hc) | (Hq & _)].
  2:{ assert (H : In (ECreateEvent ty msg attributes)
                    (events (trace (importgtfs w dir n))))
        by (apply filter_In; split; [exact Hin | reflexivity]).
      rewrite Hq in H. destruct H. }
  destruct (preamble_quiet _ (validator_preamble w dir)) as (Hpe & Hpv & _).
  pose proof (for_each_file_events w (resolve dir default_directory) ds
                files_to_import initial_locals (S (S n))) as Hloop.
  pose proof (confirmed_run_cases w dir _ ds n Hc) as Hcases. cbv zeta in Hcases.
  assert (Hvisits : forall l,
            outcome (for_each_file w (resolve dir default_directory) ds
                       files_to_import initial_locals (S (S n))) = Ok l ->
            visits (trace (for_each_file w (resolve dir default_directory) ds
                             files_to_import initial_locals (S (S n))))
            = files_to_import)
    by (intros l; apply for_each_file_visits).
  set (loop := for_each_file w (resolve dir default_directory) ds
                 files_to_import initial_locals (S (S n))) in *.
  clearbody loop.
  set (pre := EPrint MsgImportingStatic
              :: trace (gtfs_directory_validator w dir 0) ++ [EPrompt ds]) in *.
  assert (Hpre_e : events pre = []).
  { unfold pre, events in *. simpl. now rewrite filter_app, Hpe. }
  assert (Hpre_v : visits pre = []).
  { unfold pre, visits in *. simpl. now rewrite flat_map_app, Hpv. }
  clearbody pre.
  assert (Hev : In (ECreateEvent ty msg attributes)
                  (events (trace (importgtfs w dir n))))
    by (apply filter_In; split; [exact Hin | reflexivity]).
  destruct Hcases as [(e & _ & Hrun) | (l & r & closing & Hl & Hrun & Hend)];
    rewrite Hrun in Hev |- *; cbn [trace snd] in Hev |- *.
  - rewrite events_app, Hpre_e, Hloop in Hev. destruct Hev.
  - assert (Hclosing : visits closing = [] /\ events closing = [] /\
                       existsb is_table_mutation closing = false).
    { destruct Hend as [(e & _ & _ & ->) | [(_ & _ & ->) | (f & _ & _ & ->)]];
        repeat split. }
    destruct Hclosing as (Hcv & Hce & Hcm).
    rewrite !events_app, Hpre_e, Hloop in Hev. unfold events in Hev.
    cbn [filter is_event app] in Hev. fold (events closing) in Hev.
    rewrite Hce in Hev. destruct Hev as [Hev | []]. rewrite <- Hev.
    split.
    + rewrite !visits_app, Hpre_v, (Hvisits l Hl). unfold visits in *.
      cbn [flat_map visit_of app]. rewrite Hcv. now rewrite app_nil_r.
    + exists (pre ++ trace loop), closing. split; [apply app_assoc|].
      split; [|exact Hcm]. now rewrite visits_app, Hpre_v, (Hvisits l Hl).
Qed.

(** X9.  [importgtfs] returns normally in two ways only: the run was
    declined at the prompt, having touched no table, or at least one file
    was imported and the event was recorded. *)
Theorem normal_return_means_declined_or_imported w dir n :
  outcome (importgtfs w dir n) = Ok tt ->
  (In (EPrint MsgAborting) (trace (importgtfs w dir n)) /\
   existsb is_table_mutation (trace (importgtfs w dir n)) = false) \/
  (exists file,
     In file files_to_import /\
     In (EImportData file) (trace (importgtfs w dir n)) /\
     length (events (trace (importgtfs w dir n))) = 1).
Proof.
  intros Hok.
  assert (Hraise :
            outcome (gtfs_directory_validator w dir 0) = Ok None \/
            dataset_of (resolve dir default_directory) = None ->
            outcome (gtfs_directory_validator w dir 0) = Ok None \/
            outcome (gtfs_directory_validator w dir 0) =
              Ok (Some (resolve dir default_directory)) ->
            is_ok (outcome (importgtfs w dir n)) = false).
  { intros Hbad Hv. unfold importgtfs. rewrite bind_perf_counter. steps.
    rewrite bind_validator.
    destruct Hv as [Hv | Hv]; rewrite Hv; cbv beta iota; [reflexivity|].
    destruct Hbad as [Hbad | Hbad]; [congruence|]. rewrite Hbad. reflexivity. }
  destruct (validator_result w dir) as [Hv | Hv].
  { rewrite Hok in Hraise. specialize (Hraise (or_introl Hv) (or_introl Hv)).
    discriminate. }
  destruct (dataset_of (resolve dir default_directory)) as [ds|] eqn:Hds.
  2:{ rewrite Hok in Hraise.
      specialize (Hraise (or_intror eq_refl) (or_intror Hv)).
      discriminate. }
  clear Hraise.
  destruct (String.eqb (click_prompt w ds) "y") eqn:Hy.
  - right.
    assert (Hc : confirmed w dir (resolve dir default_directory) ds)
      by (repeat split; auto; now apply String.eqb_eq).
    destruct (preamble_quiet _ (validator_preamble w dir)) as (Hpe & _).
    pose proof (for_each_file_events w (resolve dir default_directory) ds
                  files_to_import initial_locals (S (S n))) as Hloop.
    pose proof (confirmed_run_cases w dir _ ds n Hc) as Hcases. cbv zeta in Hcases.
    assert (Hfinish : forall l,
              outcome (for_each_file w (resolve dir default_directory) ds
                         files_to_import initial_locals (S (S n))) = Ok l ->
              finish l = None \/
              exists file, In file files_to_import /\
                In (EImportData file)
                   (trace (for_each_file w (resolve dir default_directory) ds
                             files_to_import initial_locals (S (S n)))))
      by (intros l; apply for_each_file_finish).
    set (loop := for_each_file w (resolve dir default_directory) ds
                   files_to_import initial_locals (S (S n))) in *.
    clearbody loop.
    destruct Hcases as [(e & _ & Hrun) | (l & r & closing & Hl & Hrun & Hend)];
      rewrite Hrun in Hok |- *; cbn [outcome trace fst snd] in Hok |- *;
      [discriminate|].
    destruct Hend as [(e & _ & -> & _) | [(_ & -> & _) | (f & Hf & _ & ->)]];
      try discriminate.
    destruct (Hfinish l Hl) as [Hnone | (file & Hfile & Hin)]; [congruence|].
    exists file. split; [exact Hfile|]. split.
    + right. apply in_or_app. right. apply in_or_app. now left.
    + unfold events in *. simpl. rewrite !filter_app, Hpe, Hloop. reflexivity.
  - left.
    destruct (declined_run_changes_nothing w dir n _ ds Hv Hds) as (Hrun & Hm & _).
    { intros E. rewrite E in Hy. discriminate. }
    split; [|exact Hm]. rewrite Hrun. cbn [trace snd]. right.
    apply in_or_app. right. simpl. tauto.
Qed.

End StaticBehaviour.

(** ** Invariants of the loop *)

Section LoopInvariants.

Context `{FA : FloatArith}.
Variable w : World.

Lemma import_after_clear_prev p q t :
  starts_with_import t = false ->
  import_after_clear p t = import_after_clear q t.
Proof. destruct t as [|e t]; [reflexivity|]. destruct e; simpl; congruence. Qed.

Lemma import_after_clear_app p t1 t2 :
  import_after_clear p t1 = true ->
  starts_with_import t2 = false ->
  import_after_clear None t2 = true ->
  import_after_clear p (t1 ++ t2) = true.
Proof.
  revert p. induction t1 as [|e t1 IH]; intros p H1 Hs H2.
  - simpl. now rewrite (import_after_clear_prev p None).
  - simpl in *. apply andb_true_iff in H1 as [He H1]. rewrite He. simpl.
    now apply IH.
Qed.

Lemma process_file_import_after_clear dir ds l file n :
  starts_with_import (trace (process_file w dir ds l file n)) = false /\
  import_after_clear None (trace (process_file w dir ds l file n)) = true.
Proof.
  unfold process_file. rewrite bind_perf_counter, guard_run, trace_after.
  unfold probes. destruct (present w dir file); cbn [negb]; steps.
  - destruct (os_path_exists w dir);
      world_answers; finish_run; simpl; rewrite ?String.eqb_refl; split; reflexivity.
  - destruct (os_path_exists w dir); finish_run; split; reflexivity.
Qed.

Lemma for_each_file_import_after_clear dir ds files l n :
  starts_with_import (trace (for_each_file w dir ds files l n)) = false /\
  import_after_clear None (trace (for_each_file w dir ds files l n)) = true.
Proof.
  revert l n. induction files as [|file rest IH]; intros l n.
  - split; reflexivity.
  - rewrite for_each_file_cons.
    destruct (process_file_import_after_clear dir ds l file n) as [Hs Hi].
    destruct (outcome (process_file w dir ds l file n)) as [l1|e]; [|split; assumption].
    rewrite trace_after.
    destruct (IH l1 (ticks (process_file w dir ds l file n))) as [Hs' Hi'].
    split.
    + destruct (trace (process_file w dir ds l file n)) as [|x t]; [exact Hs' | exact Hs].
    + now apply import_after_clear_app.
Qed.


Lemma quiet_import_after_clear p t :
  existsb is_table_mutation t = false ->
  import_after_clear p t = true /\ starts_with_import t = false.
Proof.
  revert p. induction t as [|e t IH]; intros p H; [split; reflexivity|].
  simpl in H. apply orb_false_iff in H as [He Ht].
  destruct (IH (Some e) Ht) as [H1 _].
  destruct e; try discriminate He; simpl; rewrite H1; split; reflexivity.
Qed.

Lemma starts_with_import_app t1 t2 :
  starts_with_import t1 = false -> starts_with_import t2 = false ->
  starts_with_import (t1 ++ t2) = false.
Proof. destruct t1 as [|e t1]; simpl; auto. Qed.


Lemma dict_set_fresh (d : dict) k v :
  ~ In k (dict_keys d) -> dict_set d k v = d ++ [(k, v)].
Proof.
  unfold dict_keys. induction d as [|[k' v'] d IH]; simpl; [reflexivity|].
  intros H. destruct (String.eqb k' k) eqn:E.
  - apply String.eqb_eq in E. tauto.
  - rewrite IH by tauto. reflexivity.
Qed.

Lemma dict_get_set_same (d : dict) k v : dict_get (dict_set d k v) k = Some v.
Proof.
  induction d as [|[k' v'] d IH]; simpl.
  - now rewrite String.eqb_refl.
  - destruct (String.eqb k' k) eqn:E; simpl; rewrite E; [reflexivity | exact IH].
Qed.

Lemma dict_get_set_other (d : dict) k k' v :
  k' <> k -> dict_get (dict_set d k v) k' = dict_get d k'.
Proof.
  intros Hne. induction d as [|[k0 v0] d IH]; simpl.
  - destruct (String.eqb k k') eqn:E; [|reflexivity].
    apply String.eqb_eq in E. congruence.
  - destruct (String.eqb k0 k) eqn:E; simpl.
    + apply String.eqb_eq in E. subst k0.
      destruct (String.eqb k k') eqn:E'; [|reflexivity].
      apply String.eqb_eq in E'. congruence.
    + destruct (String.eqb k0 k'); [reflexivity | exact IH].
Qed.

(** The locals after an iteration that returns. *)
Lemma process_file_locals dir ds l file n l' :
  outcome (process_file w dir ds l file n) = Ok l' ->
  (exists v, is_skip_entry file v /\ l' = record_entry l file v) \/
  (exists t rc f,
     l' = {| attributes_of_total_rows :=
               dict_set (attributes_of_total_rows l) (base_name file)
                 (entry_imported t rc);
             total_time_taken := fadd (total_time_taken l) t;
             finish := Some f |}).
Proof.
  intros Ho.
  destruct (process_file_ok_inv w _ _ _ _ _ _ Ho) as [Hs | (rc & imp & Hd & Hc & Hi)].
  - left. destruct (process_file_skipped w dir ds l file n Hs) as (v & Hv & Hskip).
    rewrite Ho in Hv. injection Hv as ->. eauto.
  - right. rewrite (process_file_imported w dir ds l file n rc imp Hd Hc Hi) in Ho.
    injection Ho as <-. eauto.
Qed.

Lemma base_names_NoDup : NoDup (map base_name files_to_import).
Proof.
  vm_compute. repeat (constructor; [simpl; intuition discriminate|]). constructor.
Qed.

Lemma reported_times_snoc (d : dict) k v :
  reported_times (d ++ [(k, v)]) = reported_times d ++ time_of_entry v.
Proof. unfold reported_times. rewrite flat_map_app. simpl. now rewrite app_nil_r. Qed.

(** The running total is the sum of the times reported so far. *)
Lemma for_each_file_total dir ds files l n l' :
  NoDup (dict_keys (attributes_of_total_rows l) ++ map base_name files) ->
  total_time_taken l =
    fold_left fadd (reported_times (attributes_of_total_rows l)) fzero ->
  outcome (for_each_file w dir ds files l n) = Ok l' ->
  total_time_taken l' =
    fold_left fadd (reported_times (attributes_of_total_rows l')) fzero.
Proof.
  revert l n. induction files as [|file rest IH]; intros l n Hnd Hl.
  - intros [= <-]. exact Hl.
  - rewrite for_each_file_cons.
    destruct (outcome (process_file w dir ds l file n)) as [l1|e] eqn:Ho;
      [|discriminate].
    rewrite outcome_after.
    assert (Hfresh : ~ In (base_name file) (dict_keys (attributes_of_total_rows l))).
    { intros Hin. simpl in Hnd. apply NoDup_remove_2 in Hnd. apply Hnd.
      apply in_or_app. now left. }
    assert (Hnd' : forall v,
              NoDup (dict_keys (dict_set (attributes_of_total_rows l)
                                  (base_name file) v) ++ map base_name rest)).
    { intros v. rewrite dict_set_fresh by exact Hfresh.
      unfold dict_keys in *. rewrite map_app, <- app_assoc. exact Hnd. }
    apply IH.
    + destruct (process_file_locals _ _ _ _ _ _ Ho)
        as [(v & _ & ->) | (t & rc & f & ->)]; apply Hnd'.
    + destruct (process_file_locals _ _ _ _ _ _ Ho)
        as [(v & Hv & ->) | (t & rc & f & ->)];
        cbn [record_entry attributes_of_total_rows total_time_taken];
        rewrite dict_set_fresh by exact Hfresh;
        rewrite reported_times_snoc, fold_left_app, <- Hl.
      * destruct Hv as [-> | (rc & ->)]; reflexivity.
      * reflexivity.
Qed.

(** After the loop every file has its own entry under its base name. *)
Lemma for_each_file_lookup dir ds files l n l' :
  NoDup (map base_name files) ->
  outcome (for_each_file w dir ds files l n) = Ok l' ->
  (forall file, In file files ->
     exists v, dict_get (attributes_of_total_rows l') (base_name file) = Some v /\
               is_file_entry file v) /\
  (forall k, ~ In k (map base_name files) ->
     dict_get (attributes_of_total_rows l') k =
     dict_get (attributes_of_total_rows l) k).
Proof.
  revert l n. induction files as [|file rest IH]; intros l n Hnd.
  - intros [= <-]. split; [intros f []|reflexivity].
  - rewrite for_each_file_cons.
    destruct (outcome (process_file w dir ds l file n)) as [l1|e] eqn:Ho;
      [|discriminate].
    rewrite outcome_after. intros H. inversion Hnd as [|b bs Hb Hbs]; subst.
    destruct (IH _ _ Hbs H) as [Hin Hout].
    destruct (process_file_entry w _ _ _ _ _ _ Ho) as (v & Hv & Hentry).
    split.
    + intros f [<- | Hf]; [|now apply Hin].
      exists v. split; [|exact Hentry].
      rewrite (Hout _ Hb), Hv. apply dict_get_set_same.
    + intros k Hk. simpl in Hk.
      rewrite Hout by tauto. rewrite Hv. apply dict_get_set_other.
      intros ->. tauto.
Qed.

End LoopInvariants.

Section EventFacts.

Context `{FA : FloatArith}.
Variable w : World.

(** An event in the trace of a static run was made from the locals that
    the loop returned. *)
Lemma importgtfs_event_inv dir n ty msg attributes :
  In (ECreateEvent ty msg attributes) (trace (importgtfs w dir n)) ->
  exists ds l,
    confirmed w dir (resolve dir default_directory) ds /\
    outcome (for_each_file w (resolve dir default_directory) ds files_to_import
               initial_locals (S (S n))) = Ok l /\
    ty = GTFS_DATABASE_UPDATED /\ msg = static_event_message /\
    attributes = static_attributes ds l.
Proof.
  intros Hin.
  assert (Hev : In (ECreateEvent ty msg attributes)
                  (events (trace (importgtfs w dir n))))
    by (apply filter_In; split; [exact Hin | reflexivity]).
  destruct (importgtfs_confirmed_or_quiet w dir n)
    as [(ds & Hc) | (Hq & _)]; [|rewrite Hq in Hev; destruct Hev].
  destruct (preamble_quiet _ (validator_preamble w dir)) as (Hpe & _).
  pose proof (for_each_file_events w (resolve dir default_directory) ds
                files_to_import initial_locals (S (S n))) as Hloop.
  pose proof (confirmed_run_cases w dir _ ds n Hc) as Hcases. cbv zeta in Hcases.
  exists ds.
  set (loop := for_each_file w (resolve dir default_directory) ds
                 files_to_import initial_locals (S (S n))) in *.
  clearbody loop.
  set (pre := EPrint MsgImportingStatic
              :: trace (gtfs_directory_validator w dir 0) ++ [EPrompt ds]) in *.
  assert (Hpre_e : events pre = []).
  { unfold pre, events in *. simpl. now rewrite filter_app, Hpe. }
  clearbody pre.
  destruct Hcases as [(e & _ & Hrun) | (l & r & closing & Hl & Hrun & Hend)];
    rewrite Hrun in Hev; cbn [trace snd] in Hev.
  - rewrite events_app, Hpre_e, Hloop in Hev. destruct Hev.
  - assert (Hce : events closing = []).
    { destruct Hend as [(e & _ & _ & ->) | [(_ & _ & ->) | (f & _ & _ & ->)]];
        reflexivity. }
    rewrite !events_app, Hpre_e, Hloop in Hev. unfold events in Hev.
    cbn [filter is_event app] in Hev. fold (events closing) in Hev.
    rewrite Hce in Hev. destruct Hev as [[= <- <- <-] | []].
    exists l. split; [exact Hc|]. split; [exact Hl|]. repeat split.
Qed.

End EventFacts.

(** ** What the world decides about a file *)

Section WorldFacts.

Context `{FA : FloatArith}.
Variable w : World.

Lemma unsupported_row_count dir ds file rc rc' :
  unsupported w dir ds file rc -> unsupported w dir ds file rc' -> rc = rc'.
Proof.
  intros (_ & gi & rd & Hgi & _ & Hrc & _) (_ & gi' & rd' & Hgi' & _ & Hrc' & _).
  congruence.
Qed.

Lemma unsupported_not_dispatched dir ds file rc rc' imp :
  unsupported w dir ds file rc -> dispatched_to w dir ds file rc' imp -> False.
Proof.
  intros (_ & gi & rd & Hgi & Hrd & Hrc & Hreg)
         (_ & gi' & rd' & Hgi' & Hrd' & Hrc' & Hreg').
  assert (gi' = gi) by congruence. subst gi'.
  assert (rd' = rd) by congruence. subst rd'.
  assert (rc' = rc) by congruence. subst rc'.
  congruence.
Qed.

Lemma dispatched_to_unique dir ds file rc rc' imp imp' :
  dispatched_to w dir ds file rc imp -> dispatched_to w dir ds file rc' imp' ->
  rc' = rc /\ imp' = imp.
Proof.
  intros (_ & gi & rd & Hgi & Hrd & Hrc & Hreg)
         (_ & gi' & rd' & Hgi' & Hrd' & Hrc' & Hreg').
  assert (gi' = gi) by congruence. subst gi'.
  assert (rd' = rd) by congruence. subst rd'.
  assert (rc' = rc) by congruence. subst rc'.
  split; congruence.
Qed.

(** The entry that an iteration writes is decided by the world. *)
Lemma process_file_entry_of dir ds l file n l' :
  outcome (process_file w dir ds l file n) = Ok l' ->
  exists v,
    attributes_of_total_rows l' =
      dict_set (attributes_of_total_rows l) (base_name file) v /\
    (present w dir file = false -> v = entry_missing file) /\
    (forall rc, unsupported w dir ds file rc -> v = entry_unsupported file rc) /\
    (forall rc imp, dispatched_to w dir ds file rc imp ->
       exists t, v = entry_imported t rc).
Proof.
  intros Ho.
  destruct (process_file_ok_inv w _ _ _ _ _ _ Ho)
    as [[Hp | (rc0 & Hu)] | (rc0 & imp0 & Hd & Hc & Hi)].
  - rewrite (process_file_missing w dir ds l file n Hp) in Ho. injection Ho as <-.
    exists (entry_missing file). split; [reflexivity|]. split; [reflexivity|].
    split.
    + intros rc (Hp' & _). congruence.
    + intros rc imp (Hp' & _). congruence.
  - rewrite (process_file_unsupported w dir ds l file n rc0 Hu) in Ho.
    injection Ho as <-.
    exists (entry_unsupported file rc0). split; [reflexivity|]. split; [|split].
    + destruct Hu as (Hp & _). congruence.
    + intros rc Hu'. now rewrite (unsupported_row_count _ _ _ _ _ Hu Hu').
    + intros rc imp Hd. destruct (unsupported_not_dispatched _ _ _ _ _ _ Hu Hd).
  - rewrite (process_file_imported w dir ds l file n rc0 imp0 Hd Hc Hi) in Ho.
    injection Ho as <-. eexists. split; [reflexivity|]. split; [|split].
    + destruct Hd as (Hp & _). congruence.
    + intros rc Hu. destruct (unsupported_not_dispatched _ _ _ _ _ _ Hu Hd).
    + intros rc imp Hd'. destruct (dispatched_to_unique _ _ _ _ _ _ _ Hd Hd') as [-> _].
      eexists. reflexivity.
Qed.

(** After the loop, the entry under the base name of a file is the one
    that the file's own iteration wrote. *)
Lemma for_each_file_entry_of dir ds files l n l' :
  NoDup (map base_name files) ->
  outcome (for_each_file w dir ds files l n) = Ok l' ->
  forall file, In file files ->
    exists v,
      dict_get (attributes_of_total_rows l') (base_name file) = Some v /\
      (present w dir file = false -> v = entry_missing file) /\
      (forall rc, unsupported w dir ds file rc -> v = entry_unsupported file rc) /\
      (forall rc imp, dispatched_to w dir ds file rc imp ->
         exists t, v = entry_imported t rc).
Proof.
  revert l n. induction files as [|file rest IH]; intros l n Hnd.
  - intros _ f [].
  - rewrite for_each_file_cons.
    destruct (outcome (process_file w dir ds l file n)) as [l1|e] eqn:Ho;
      [|discriminate].
    rewrite outcome_after. intros H. inversion Hnd as [|b bs Hb Hbs]; subst.
    destruct (for_each_file_lookup w _ _ _ _ _ _ Hbs H) as [_ Hout].
    destruct (process_file_entry_of _ _ _ _ _ _ Ho) as (v & Hv & Hentry).
    intros f [<- | Hf]; [|now apply (IH _ _ Hbs H)].
    exists v. split; [|exact Hentry].
    rewrite (Hout _ Hb), Hv. apply dict_get_set_same.
Qed.

(** ** Where an [import_data] comes from *)

Lemma process_file_import_inv dir ds l file n f :
  In (EImportData f) (trace (process_file w dir ds l file n)) ->
  f = file /\
  exists rc imp,
    dispatched_to w dir ds file rc imp /\ clear_table imp = Ok tt.
Proof.
  unfold process_file. rewrite bind_perf_counter, guard_run. rewrite trace_after.
  intros Hin. apply in_app_or in Hin as [Hin | Hin].
  { unfold probes in Hin. destruct (os_path_exists w dir); simpl in Hin;
      intuition discriminate. }
  revert Hin.
  destruct (present w dir file) eqn:Hp; cbn [negb]; steps;
    [|finish_run; simpl; intuition discriminate].
  destruct (imp_GTFSImporter w file dir) as [gi|e] eqn:Hgi; steps;
    [|simpl; intuition discriminate].
  destruct (get_reader gi) as [rd|e] eqn:Hrd; steps;
    [|rewrite trace_after; simpl; intuition discriminate].
  destruct (get_row_count gi) as [rc|e] eqn:Hrc; steps;
    [|rewrite !trace_after; simpl; intuition discriminate].
  rewrite bind_try_dispatch.
  destruct (imp_get_importer_for_file w file rd rc ds) as [imp|e] eqn:Hreg.
  - steps.
    destruct (clear_table imp) as [[]|e] eqn:Hc; steps.
    + assert (Hd : dispatched_to w dir ds file rc imp).
      { split; [exact Hp|]. exists gi, rd. auto. }
      destruct (import_data imp) as [[]|e] eqn:Hi; steps;
        rewrite !trace_after; finish_run; simpl; intros Hin;
        repeat (destruct Hin as [Hin | Hin]; [try discriminate Hin|]);
        try contradiction;
        injection Hin as <-; (split; [reflexivity|]); exists rc, imp; auto.
    + rewrite !trace_after; simpl; intuition discriminate.
  - destruct (is_ValueError e); steps; rewrite ?trace_after; finish_run; simpl;
      intuition discriminate.
Qed.

Lemma for_each_file_import_inv dir ds files l n f :
  In (EImportData f) (trace (for_each_file w dir ds files l n)) ->
  In f files /\
  exists rc imp,
    dispatched_to w dir ds f rc imp /\ clear_table imp = Ok tt.
Proof.
  revert l n. induction files as [|file rest IH]; intros l n.
  - intros [].
  - rewrite for_each_file_cons.
    destruct (outcome (process_file w dir ds l file n)) as [l1|e] eqn:Ho.
    + rewrite trace_after. intros Hin. apply in_app_or in Hin as [Hin | Hin].
      * destruct (process_file_import_inv _ _ _ _ _ _ Hin) as (-> & H).
        split; [now left | exact H].
      * destruct (IH _ _ Hin) as (Hf & H). split; [now right | exact H].
    + cbn [trace snd]. intros Hin.
      destruct (process_file_import_inv _ _ _ _ _ _ Hin) as (-> & H).
      split; [now left | exact H].
Qed.

End WorldFacts.

(** ** How far the loop gets *)

Section ReachFacts.

Context `{FA : FloatArith}.
Variable w : World.

Lemma process_file_probes dir ds l file n :
  exists t, trace (process_file w dir ds l file n) = probes w dir file ++ t.
Proof.
  destruct (process_file_trace w dir ds l file n) as [H | (t & H & _)];
    rewrite H; eauto.
Qed.

(** When no iteration before [file] raises, the iteration of [file] is
    reached, whatever happens in it and after it. *)
Lemma for_each_file_upto dir ds before file rest l n :
  (forall f l' k, In f before ->
     is_ok (outcome (process_file w dir ds l' f k)) = true) ->
  exists l1 k1 t,
    trace (for_each_file w dir ds (before ++ file :: rest) l n) =
      trace (for_each_file w dir ds before l n)
      ++ trace (process_file w dir ds l1 file k1) ++ t /\
    visits (trace (for_each_file w dir ds before l n)) = before.
Proof.
  revert l n. induction before as [|b before IH]; intros l n Hok.
  - cbn [app]. rewrite for_each_file_cons. exists l, n.
    destruct (outcome (process_file w dir ds l file n)).
    + eexists. rewrite trace_after. split; reflexivity.
    + exists []. cbn [trace snd]. rewrite app_nil_r. split; reflexivity.
  - cbn [app]. rewrite !for_each_file_cons.
    pose proof (Hok b l n (or_introl eq_refl)) as Hb.
    destruct (outcome (process_file w dir ds l b n)) as [l0|e]; [|discriminate Hb].
    destruct (IH l0 (ticks (process_file w dir ds l b n)))
      as (l1 & k1 & t & Ht & Hv).
    { intros f l' k Hf. apply Hok. now right. }
    exists l1, k1, t. rewrite !trace_after, Ht, visits_app, Hv.
    rewrite (process_file_visits w). split; [now rewrite app_assoc | reflexivity].
Qed.

Lemma for_each_file_visits_upto dir ds before file rest l n :
  (forall f l' k, In f before ->
     is_ok (outcome (process_file w dir ds l' f k)) = true) ->
  In file (visits (trace (for_each_file w dir ds (before ++ file :: rest) l n))) /\
  incl (probes w dir file)
       (trace (for_each_file w dir ds (before ++ file :: rest) l n)).
Proof.
  intros Hok.
  destruct (for_each_file_upto dir ds before file rest l n Hok)
    as (l1 & k1 & t & Ht & _).
  rewrite Ht. split.
  - rewrite !visits_app, (process_file_visits w). apply in_or_app. right. now left.
  - destruct (process_file_probes dir ds l1 file k1) as (t' & ->).
    intros x Hx. apply in_or_app. right. apply in_or_app. left.
    apply in_or_app. now left.
Qed.

(** The trace of a confirmed run: the preamble, the loop, the rest. *)
Lemma confirmed_run_trace dir d ds n :
  confirmed w dir d ds ->
  exists closing,
    trace (importgtfs w dir n) =
      (EPrint MsgImportingStatic
       :: trace (gtfs_directory_validator w dir 0) ++ [EPrompt ds])
      ++ trace (for_each_file w d ds files_to_import initial_locals (S (S n)))
      ++ closing.
Proof.
  intros Hc.
  pose proof (confirmed_run_cases w dir d ds n Hc) as Hcases. cbv zeta in Hcases.
  set (loop := for_each_file w d ds files_to_import initial_locals (S (S n))) in *.
  clearbody loop.
  destruct Hcases as [(e & _ & Hrun) | (l & r & closing & _ & Hrun & _)];
    rewrite Hrun; cbn [trace snd].
  - exists []. now rewrite app_nil_r.
  - eexists. reflexivity.
Qed.

(** When the loop returns, the event made from its locals is recorded. *)
Lemma confirmed_run_event dir d ds n l :
  confirmed w dir d ds ->
  outcome (for_each_file w d ds files_to_import initial_locals (S (S n))) = Ok l ->
  In (ECreateEvent GTFS_DATABASE_UPDATED static_event_message
        (static_attributes ds l))
     (trace (importgtfs w dir n)).
Proof.
  intros Hc Hl.
  pose proof (confirmed_run_cases w dir d ds n Hc) as Hcases. cbv zeta in Hcases.
  set (loop := for_each_file w d ds files_to_import initial_locals (S (S n))) in *.
  clearbody loop.
  destruct Hcases as [(e & He & _) | (l' & r & closing & Hl' & Hrun & _)].
  - congruence.
  - assert (l' = l) by congruence. subst l'. rewrite Hrun. cbn [trace snd].
    apply in_or_app. right. apply in_or_app. right. now left.
Qed.

(** The prompt shows the dataset that the run derived. *)
Lemma importgtfs_prompt dir n d ds :
  outcome (gtfs_directory_validator w dir 0) = Ok (Some d) ->
  dataset_of d = Some ds ->
  In (EPrompt ds) (trace (importgtfs w dir n)).
Proof.
  intros Hv Hds.
  unfold importgtfs. rewrite bind_perf_counter. steps. rewrite bind_validator, Hv.
  cbv beta iota. rewrite Hds. steps. rewrite !trace_after.
  apply in_or_app. right. apply in_or_app. right. apply in_or_app. left. now left.
Qed.

End ReachFacts.

(** ** What a confirmed run records *)

Section RecordFacts.

Context `{FA : FloatArith}.
Variable w : World.


(** The keys of the totals after a loop that returned. *)
Lemma for_each_file_report_keys dir ds n l :
  outcome (for_each_file w dir ds files_to_import initial_locals n) = Ok l ->
  map fst (attributes_of_total_rows l) =
    [ "agency"; "calendar"; "calendar_dates"; "routes";
      "stops"; "trips"; "stop_times"; "shapes" ].
Proof.
  intros Hl. exact (for_each_file_keys w _ _ _ _ _ _ Hl).
Qed.

(** A realtime run in which every call before the event succeeds records
    the event, whatever the event repository answers. *)
Lemma importrealtime_records url apikey dataset n imp data entity k stop_times trips :
  realtime_importer_of w url apikey dataset = Ok imp ->
  get_data imp = Ok (Some data) ->
  subscript data "entity" = Ok entity ->
  py_len entity = Ok k ->
  clear_table_stop_trip imp = Ok tt ->
  import_stop_times imp data = Ok stop_times ->
  import_trips imp data = Ok trips ->
  In (ECreateEvent REALTIME_DATABASE_UPDATED realtime_event_message
        (realtime_attributes (resolve dataset (GTFS_TFI_DATASET (settings_app w)))
           trips stop_times
           (fround2 (fsub (perf_counter_at w (S n)) (perf_counter_at w n)))))
     (trace (importrealtime w url apikey dataset n)).
Proof.
  unfold realtime_importer_of. intros Hi Hd He Hk Hc Hs Ht.
  unfold importrealtime. steps. rewrite Hi. steps. rewrite Hd. steps.
  rewrite He, Hk. steps. rewrite Hc. steps. rewrite Hs. steps. rewrite Ht. steps.
  rewrite !trace_after.
  do 4 (apply in_or_app; right).
  repeat (apply in_or_app; right; try (now left)).
  destruct (create_event_with_session w _ _ _); [rewrite trace_after|];
    cbn [trace snd app]; now left.
Qed.

End RecordFacts.

(** ** The static command: the report, the skipped files, the paths *)

Section ReportClaims.

Context `{FA : FloatArith}.

(** C8.  In a confirmed static run in which no file reaches the
    successful-import branch (each of the eight is absent or unsupported)
    and the event is recorded without an error, the event
    [GTFS_DATABASE_UPDATED] is recorded with the all-skipped totals: the
    dataset, a total time of [0.0] and, under the base name of each of the
    eight files, the entry with time taken 0 and the error of that file
    ("does not exist" with row count 0 when it is absent, "does not have a
    supported importer" with its row count when it is unsupported).  The
    event is the last thing the command does, for the closing line then
    raises [UnboundLocalError]: [finish] is assigned only when a file has
    been imported. *)
Theorem all_skipped_run_raises_unbound_local w dir n d ds :
  confirmed w dir d ds ->
  (forall file, In file files_to_import -> skipped w d ds file) ->
  (forall attributes,
     create_event_with_session w GTFS_DATABASE_UPDATED static_event_message
       attributes = Ok tt) ->
  outcome (importgtfs w dir n) = Raise UnboundLocalError /\
  exists before totals,
    trace (importgtfs w dir n) =
      before ++ [ECreateEvent GTFS_DATABASE_UPDATED
                   "GTFS static data updated with latest schedules"
                   (VDict [ ("dataset", VStr ds);
                            ("totals", VDict totals);
                            ("total_time_taken(s)", VFloat fzero) ])] /\
    events before = [] /\
    map fst totals =
      [ "agency"; "calendar"; "calendar_dates"; "routes";
        "stops"; "trips"; "stop_times"; "shapes" ] /\
    (forall file,
       In file files_to_import -> present w d file = false ->
       dict_get totals (PyStr.replace ".txt" "" file) =
         Some (VDict [ ("time_taken(s)", VInt 0);
                       ("row_count", VInt 0);
                       ("error", VStr ("File '" ++ file ++ "' does not exist.")) ])) /\
    (forall file row_count,
       In file files_to_import -> unsupported w d ds file row_count ->
       dict_get totals (PyStr.replace ".txt" "" file) =
         Some (VDict [ ("time_taken(s)", VInt 0);
                       ("row_count", VInt row_count);
                       ("error", VStr ("File '" ++ file
                                       ++ "' does not have a supported importer.")) ])).
Proof.
  intros Hc Hskip Hevent.
  rewrite (importgtfs_confirmed w dir d ds n Hc), import_files_run. cbv zeta.
  set (loop := for_each_file w d ds files_to_import initial_locals (S (S n))).
  destruct (for_each_file_skipped w d ds files_to_import initial_locals (S (S n))
              Hskip (incl_refl _)) as (l & Hl & Hfinish & Htotal & _).
  { constructor. }
  pose proof (for_each_file_events w d ds files_to_import initial_locals (S (S n)))
    as Hev.
  pose proof (for_each_file_report_keys w _ _ _ _ Hl) as Hkeys.
  pose proof (for_each_file_entry_of w _ _ _ _ _ _ base_names_NoDup Hl) as Hentry.
  destruct (preamble_quiet _ (validator_preamble w dir)) as (Hpe & _).
  fold loop in Hl, Hev. rewrite Hl, Hevent, Hfinish. cbn [finish initial_locals].
  rewrite outcome_after, trace_after. cbn [after outcome trace ticks fst snd].
  split; [reflexivity|].
  clearbody loop.
  exists ((EPrint MsgImportingStatic
           :: trace (gtfs_directory_validator w dir 0) ++ [EPrompt ds])
          ++ trace loop), (attributes_of_total_rows l).
  split; [|split; [|split; [|split]]].
  - unfold static_attributes, static_event_message. rewrite Htotal.
    cbn [total_time_taken initial_locals]. now rewrite app_nil_r, app_assoc.
  - unfold events in *. simpl. rewrite !filter_app, Hpe, Hev. reflexivity.
  - exact Hkeys.
  - intros file Hfile Hp. destruct (Hentry file Hfile) as (v & Hv & Hmissing & _).
    fold (base_name file). rewrite Hv, (Hmissing Hp). reflexivity.
  - intros file rc Hfile Hu. destruct (Hentry file Hfile) as (v & Hv & _ & Hun & _).
    fold (base_name file). rewrite Hv, (Hun rc Hu). reflexivity.
Qed.


(** C10.  In every static run the dataset, as the prompt shows it and as
    the event records it, is the second-to-last "/"-separated segment of
    the directory string (the default "./gtfs_data/TFI/" gives "TFI"), and
    every file path probed is the directory string followed by the file
    name, by plain concatenation.  A run that passes the directory check
    does ask with that dataset; once confirmed it probes the directory
    and, when the directory exists, that path of every file it reaches
    ([agency.txt] always), and when no iteration raises it records the
    event with that dataset.  So for a directory [parent/name/] the
    dataset is [name], while for [parent/name], without the trailing "/",
    the dataset is the last segment of [parent] and the path probed for a
    file is the file [name ++ file] in [parent]. *)
Theorem dataset_and_paths w dir n :
  let d := resolve dir default_directory in
  (forall e, In e (trace (importgtfs w dir n)) ->
     (forall dataset, e = EPrompt dataset ->
        index_from_end (PyStr.split "/" d) 2 = Some dataset) /\
     (forall ty msg attributes, e = ECreateEvent ty msg attributes ->
        exists dataset,
          index_from_end (PyStr.split "/" d) 2 = Some dataset /\
          subscript attributes "dataset" = Ok (VStr dataset)) /\
     (forall path, e = EIsFile path ->
        exists file, In file files_to_import /\ path = (d ++ file)%string)) /\
  (forall dataset,
     outcome (gtfs_directory_validator w dir 0) = Ok (Some d) ->
     index_from_end (PyStr.split "/" d) 2 = Some dataset ->
     In (EPrompt dataset) (trace (importgtfs w dir n)) /\
     (click_prompt w dataset = "y" ->
      (forall before file rest,
         [ "agency.txt"; "calendar.txt"; "calendar_dates.txt"; "routes.txt";
           "stops.txt"; "trips.txt"; "stop_times.txt"; "shapes.txt" ]
         = before ++ file :: rest ->
         (forall f l k, In f before ->
            is_ok (outcome (process_file w d dataset l f k)) = true) ->
         In (EExists d) (trace (importgtfs w dir n)) /\
         (os_path_exists w d = true ->
          In (EIsFile (d ++ file)) (trace (importgtfs w dir n)))) /\
      ((forall f l k, In f files_to_import ->
          is_ok (outcome (process_file w d dataset l f k)) = true) ->
       exists totals total,
         In (ECreateEvent GTFS_DATABASE_UPDATED static_event_message
               (VDict [ ("dataset", VStr dataset);
                        ("totals", VDict totals);
                        ("total_time_taken(s)", VFloat total) ]))
            (trace (importgtfs w dir n))))) /\
  dataset_of default_directory = Some "TFI" /\
  (forall parent name,
     PyStr.mem "/" name = false ->
     dataset_of (parent ++ "/" ++ name ++ "/") = Some name /\
     dataset_of (parent ++ "/" ++ name) =
       index_from_end (PyStr.split "/" parent) 1 /\
     forall file,
       ((parent ++ "/" ++ name) ++ file = parent ++ "/" ++ (name ++ file))%string).
Proof.
  intros d. split; [|split; [|split]].
  - intros e He.
    pose proof (importgtfs_effects w dir n) as Hall.
    rewrite Forall_forall in Hall. specialize (Hall e He).
    destruct Hall as [Hp | [(ds & -> & Hds) | [-> | [(f & Hf & Hstep) |
                     [(ds & l & -> & Hds & _) | (s & ->)]]]]].
    + repeat split; intros; subst e; discriminate Hp.
    + repeat split; try discriminate. intros ds' [= <-]. exact Hds.
    + repeat split; discriminate.
    + destruct (iteration_step_quiet _ _ _ Hstep) as (Hev & Hpr & _ & Hpath).
      repeat split.
      * intros ds ->. discriminate Hpr.
      * intros ty msg a ->. discriminate Hev.
      * intros p Hp. exists f. split; [exact Hf | now apply Hpath].
    + repeat split; try discriminate.
      intros ty msg a [= <- <- <-]. exists ds. split; [exact Hds | reflexivity].
    + repeat split; discriminate.
  - intros ds Hv Hds.
    split; [exact (importgtfs_prompt w dir n d ds Hv Hds)|].
    intros Hy.
    assert (Hc : confirmed w dir d ds) by (repeat split; assumption).
    split.
    + intros before file rest Hfiles Hbefore.
      destruct (confirmed_run_trace w dir d ds n Hc) as (closing & ->).
      change files_to_import
        with [ "agency.txt"; "calendar.txt"; "calendar_dates.txt"; "routes.txt";
               "stops.txt"; "trips.txt"; "stop_times.txt"; "shapes.txt" ].
      rewrite Hfiles.
      destruct (for_each_file_visits_upto w d ds before file rest
                  initial_locals (S (S n)) Hbefore) as [_ Hprobes].
      assert (Hin : forall x, In x (probes w d file) ->
                In x ((EPrint MsgImportingStatic
                       :: trace (gtfs_directory_validator w dir 0) ++ [EPrompt ds])
                      ++ trace (for_each_file w d ds (before ++ file :: rest)
                                  initial_locals (S (S n)))
                      ++ closing)).
      { intros x Hx. apply in_or_app. right. apply in_or_app. left.
        now apply Hprobes. }
      split.
      * apply Hin. now left.
      * intros He. apply Hin. unfold probes. rewrite He. right. now left.
    + intros Hok.
      destruct (for_each_file_ok w d ds files_to_import initial_locals (S (S n)) Hok)
        as [l Hl].
      exists (attributes_of_total_rows l), (total_time_taken l).
      exact (confirmed_run_event w dir d ds n l Hc Hl).
  - reflexivity.
  - intros parent name Hname. split; [|split].
    + now apply dataset_of_trailing_slash.
    + now apply dataset_of_no_trailing_slash.
    + intros file. rewrite !string_app_assoc. reflexivity.
Qed.

(** C4, amended.  The keys that the code writes are [time_taken(s)] and
    [total_time_taken(s)], not [time_taken_s] and [total_time_taken_s],
    and the per-file map is under [totals].  Every event that a command
    records has the event type of the command and this shape: a static
    run records under [GTFS_DATABASE_UPDATED] a map of [dataset],
    [totals] and [total_time_taken(s)], where [totals] has the base names
    of the eight files as its keys, in the order of the list, and each
    entry has [time_taken(s)], [row_count] and, for a file that was not
    imported, [error]; a realtime run records under
    [REALTIME_DATABASE_UPDATED] a map of [dataset], [total_trips],
    [total_stop_times] and [time_taken(s)].  And the event is recorded: by
    a confirmed static run in which no iteration raises, and by a realtime
    run in which the fetch, the clearing and the two imports succeed. *)
Theorem report_shape w c n :
  (forall ty msg attributes,
     In (ECreateEvent ty msg attributes) (trace (run_command w c n)) ->
     match c with
     | ImportGtfs _ =>
         ty = GTFS_DATABASE_UPDATED /\
         exists dataset totals total,
           attributes =
             VDict [ ("dataset", VStr dataset);
                     ("totals", VDict totals);
                     ("total_time_taken(s)", VFloat total) ] /\
           map fst totals =
             [ "agency"; "calendar"; "calendar_dates"; "routes";
               "stops"; "trips"; "stop_times"; "shapes" ] /\
           Forall (fun kv => file_report_shape (snd kv)) totals
     | ImportRealtime _ _ _ =>
         ty = REALTIME_DATABASE_UPDATED /\ realtime_report_shape attributes
     end) /\
  match c with
  | ImportGtfs dir =>
      forall d ds,
        confirmed w dir d ds ->
        (forall file l k, In file files_to_import ->
           is_ok (outcome (process_file w d ds l file k)) = true) ->
        exists totals total,
          In (ECreateEvent GTFS_DATABASE_UPDATED static_event_message
                (VDict [ ("dataset", VStr ds);
                         ("totals", VDict totals);
                         ("total_time_taken(s)", VFloat total) ]))
             (trace (importgtfs w dir n))
  | ImportRealtime url apikey dataset =>
      forall imp data entity k stop_times trips,
        realtime_importer_of w url apikey dataset = Ok imp ->
        get_data imp = Ok (Some data) ->
        subscript data "entity" = Ok entity ->
        py_len entity = Ok k ->
        clear_table_stop_trip imp = Ok tt ->
        import_stop_times imp data = Ok stop_times ->
        import_trips imp data = Ok trips ->
        exists time_taken,
          In (ECreateEvent REALTIME_DATABASE_UPDATED realtime_event_message
                (VDict [ ("dataset",
                          VStr (resolve dataset (GTFS_TFI_DATASET (settings_app w))));
                         ("total_trips", VInt trips);
                         ("total_stop_times", VInt stop_times);
                         ("time_taken(s)", VFloat time_taken) ]))
             (trace (importrealtime w url apikey dataset n))
  end.
Proof.
  destruct c as [dir | url apikey dataset]; cbn [run_command]; split.
  - intros ty msg attributes Hin.
    destruct (importgtfs_event_inv w dir n ty msg attributes Hin)
      as (ds & l & _ & Hl & -> & _ & ->).
    split; [reflexivity|].
    exists ds, (attributes_of_total_rows l), (total_time_taken l).
    split; [reflexivity|]. split; [exact (for_each_file_report_keys w _ _ _ _ Hl)|].
    pose proof (for_each_file_totals w _ _ _ _ _ _ (incl_refl _) initial_totals Hl)
      as Htotals.
    eapply Forall_impl; [|exact Htotals].
    intros [k v] (file & _ & _ & Hentry). cbn [fst snd] in *.
    destruct Hentry as [-> | [(rc & ->) | (t & rc & ->)]].
    + right. eexists _, _. reflexivity.
    + right. eexists _, _. reflexivity.
    + left. eexists _, _. reflexivity.
  - intros d ds Hc Hok.
    destruct (for_each_file_ok w d ds files_to_import initial_locals (S (S n)) Hok)
      as [l Hl].
    exists (attributes_of_total_rows l), (total_time_taken l).
    exact (confirmed_run_event w dir d ds n l Hc Hl).
  - intros ty msg attributes Hin.
    assert (Hev : In (ECreateEvent ty msg attributes)
                    (events (trace (importrealtime w url apikey dataset n)))).
    { apply filter_In. split; [exact Hin | reflexivity]. }
    destruct (realtime_events w url apikey dataset n) as [H | (tt' & ts & t & H)];
      rewrite H in Hev.
    + destruct Hev.
    + destruct Hev as [[= <- <- <-] | []]. split; [reflexivity|].
      eexists _, _, _, _. reflexivity.
  - intros imp data entity k stop_times trips Hi Hd He Hk Hc Hs Ht.
    eexists.
    exact (importrealtime_records w url apikey dataset n imp data entity k
             stop_times trips Hi Hd He Hk Hc Hs Ht).
Qed.

End ReportClaims.

(** ** The static command: what it keeps *)

Section StaticInvariants.

Context `{FA : FloatArith}.

(** X10.  In every static run, whatever the world does, each
    [import_data()] comes directly after the [clear_table()] of the same
    file, and that [clear_table()] returned: the file is one of the list,
    the registry gave an importer for it and the dataset of the run, and
    [clear_table()] of that importer did not raise.  So a table is never filled without having
    just been cleared, and a file whose [clear_table()] raised is never
    imported. *)
Theorem every_import_follows_its_clear w dir n :
  import_after_clear None (trace (importgtfs w dir n)) = true /\
  forall file,
    In (EImportData file) (trace (importgtfs w dir n)) ->
    In file files_to_import /\
    exists dataset row_count importer,
      dataset_of (resolve dir default_directory) = Some dataset /\
      dispatched_to w (resolve dir default_directory) dataset file
        row_count importer /\
      clear_table importer = Ok tt.
Proof.
  destruct (importgtfs_confirmed_or_quiet w dir n)
    as [(ds & Hc) | (_ & _ & Hq & Hfo)].
  2:{ split; [now apply quiet_import_after_clear|].
      intros file Hin. apply Hfo in Hin. discriminate Hin. }
  destruct (preamble_quiet _ (validator_preamble w dir)) as (_ & _ & _ & Hpm & Hpf).
  pose proof (for_each_file_import_after_clear w (resolve dir default_directory) ds
                files_to_import initial_locals (S (S n))) as [Hls Hli].
  pose proof (fun f => for_each_file_import_inv w (resolve dir default_directory) ds
                files_to_import initial_locals (S (S n)) f) as Hinv.
  pose proof (confirmed_run_cases w dir _ ds n Hc) as Hcases. cbv zeta in Hcases.
  set (loop := for_each_file w (resolve dir default_directory) ds
                 files_to_import initial_locals (S (S n))) in *.
  clearbody loop.
  set (pre := EPrint MsgImportingStatic
              :: trace (gtfs_directory_validator w dir 0) ++ [EPrompt ds]) in *.
  assert (Hpre : existsb is_table_mutation pre = false).
  { unfold pre. simpl. now rewrite existsb_app, Hpm. }
  assert (Hquiet : forall t f, existsb is_table_mutation t = false ->
                     ~ In (EImportData f) t).
  { intros t f Ht Hin.
    assert (H : existsb is_table_mutation t = true)
      by (apply existsb_exists; exists (EImportData f); split; [exact Hin | reflexivity]).
    congruence. }
  clearbody pre.
  destruct (quiet_import_after_clear None pre Hpre) as [Hp1 Hp2].
  destruct Hcases as [(e & _ & Hrun) | (l & r & closing & _ & Hrun & Hend)];
    rewrite Hrun; cbn [trace snd].
  - split; [now apply import_after_clear_app|].
    intros file Hin. apply in_app_or in Hin as [Hin | Hin].
    + destruct (Hquiet _ _ Hpre Hin).
    + destruct (Hinv file Hin) as (Hf & rc & imp & H & Hclear).
      destruct Hc as (_ & Hds & _). split; [exact Hf|]. exists ds, rc, imp. auto.
  - assert (Hclosing : existsb is_table_mutation
                         (ECreateEvent GTFS_DATABASE_UPDATED static_event_message
                            (static_attributes ds l) :: closing) = false).
    { destruct Hend as [(e & _ & _ & ->) | [(_ & _ & ->) | (f & _ & _ & ->)]];
        reflexivity. }
    destruct (quiet_import_after_clear None _ Hclosing) as [Hc1 Hc2].
    split.
    + apply import_after_clear_app; [exact Hp1 | |].
      * now apply starts_with_import_app.
      * now apply import_after_clear_app.
    + intros file Hin. apply in_app_or in Hin as [Hin | Hin].
      * destruct (Hquiet _ _ Hpre Hin).
      * apply in_app_or in Hin as [Hin | Hin].
        -- destruct (Hinv file Hin) as (Hf & rc & imp & H & Hclear).
           destruct Hc as (_ & Hds & _). split; [exact Hf|]. exists ds, rc, imp. auto.
        -- destruct (Hquiet _ _ Hclosing Hin).
Qed.

(** X11.  The total that an event of a static run reports is the sum,
    from [0.0] and in the order of the report, of the per-file times that
    the same event reports for the imported files; skipped files add
    nothing. *)
Theorem reported_total_is_the_sum_of_the_times w dir n ty msg attributes :
  In (ECreateEvent ty msg attributes) (trace (importgtfs w dir n)) ->
  exists dataset totals,
    attributes =
      VDict [ ("dataset", VStr dataset);
              ("totals", VDict totals);
              ("total_time_taken(s)",
               VFloat (fold_left fadd (reported_times totals) fzero)) ].
Proof.
  intros Hin.
  destruct (importgtfs_event_inv w dir n ty msg attributes Hin)
    as (ds & l & _ & Hl & _ & _ & ->).
  exists ds, (attributes_of_total_rows l). unfold static_attributes.
  rewrite (for_each_file_total w _ _ files_to_import initial_locals _ l
             base_names_NoDup eq_refl Hl).
  reflexivity.
Qed.

(** X12.  In an event of a static run, looking up the base name of any
    of the eight files in [totals] gives an entry written for that very
    file: none is missing and none was overwritten by another file. *)
Theorem every_file_has_its_entry w dir n ty msg attributes file :
  In (ECreateEvent ty msg attributes) (trace (importgtfs w dir n)) ->
  In file files_to_import ->
  exists totals entry,
    subscript attributes "totals" = Ok (VDict totals) /\
    dict_get totals (base_name file) = Some entry /\
    is_file_entry file entry.
Proof.
  intros Hin Hfile.
  destruct (importgtfs_event_inv w dir n ty msg attributes Hin)
    as (ds & l & _ & Hl & _ & _ & ->).
  destruct (for_each_file_lookup w _ _ _ _ _ _ base_names_NoDup Hl) as [Hlook _].
  destruct (Hlook file Hfile) as (v & Hv & Hentry).
  exists (attributes_of_total_rows l), v. repeat split; assumption.
Qed.

(** X13.  When recording the event raises, after a loop in which no
    iteration raised, [importgtfs] ends with that error: every file has
    been processed by then, the attempt to record is the last thing done,
    and the closing line is not printed. *)
Theorem event_error_is_raised_after_the_import w dir n d ds e :
  confirmed w dir d ds ->
  (forall file l k, In file files_to_import ->
     is_ok (outcome (process_file w d ds l file k)) = true) ->
  (forall attributes,
     create_event_with_session w GTFS_DATABASE_UPDATED static_event_message
       attributes = Raise e) ->
  outcome (importgtfs w dir n) = Raise e /\
  visits (trace (importgtfs w dir n)) = files_to_import /\
  exists before l,
    trace (importgtfs w dir n) =
      before ++ [ECreateEvent GTFS_DATABASE_UPDATED static_event_message
                   (static_attributes ds l)].
Proof.
  intros Hc Hok Hevent.
  rewrite (importgtfs_confirmed w dir d ds n Hc), import_files_run. cbv zeta.
  destruct (for_each_file_ok w d ds files_to_import initial_locals (S (S n)) Hok)
    as [l Hl].
  pose proof (for_each_file_visits w _ _ _ _ _ _ Hl) as Hvis.
  destruct (preamble_quiet _ (validator_preamble w dir)) as (_ & Hpv & _).
  set (loop := for_each_file w d ds files_to_import initial_locals (S (S n))) in *.
  clearbody loop.
  rewrite Hl, Hevent, outcome_after, !trace_after.
  cbn [outcome trace ticks fst snd]. split; [reflexivity|]. split.
  - unfold visits in *. simpl. rewrite !flat_map_app, Hpv, Hvis. simpl.
    rewrite ?app_nil_r. reflexivity.
  - exists ((EPrint MsgImportingStatic
             :: trace (gtfs_directory_validator w dir 0) ++ [EPrompt ds])
            ++ trace loop), l.
    now rewrite app_nil_r, app_assoc.
Qed.

End StaticInvariants.

(** ** The realtime command: errors and the successful run *)

Section RealtimeBehaviour.

Context `{FA : FloatArith}.

Ltac realtime_leaf :=
  rewrite ?outcome_after, ?trace_after; finish_run;
  unfold count_clears, events;
  cbn [existsb filter is_table_mutation is_event is_clear_stop_trip is_insertion orb];
  rewrite ?existsb_app, ?filter_app;
  rewrite ?override_prints_quiet, ?filter_override_prints by reflexivity.

(** X14.  When [get_data()] raises, or the feed it returns has no
    "entity" (or none that can be counted), [importrealtime] ends with
    that error before anything is cleared: no table is touched and no
    event is recorded. *)
Theorem unusable_feed_touches_no_table w url apikey dataset n imp e :
  realtime_importer_of w url apikey dataset = Ok imp ->
  (get_data imp = Raise e \/
   exists data,
     get_data imp = Ok (Some data) /\
     (subscript data "entity" = Raise e \/
      exists entity,
        subscript data "entity" = Ok entity /\ py_len entity = Raise e)) ->
  outcome (importrealtime w url apikey dataset n) = Raise e /\
  existsb is_table_mutation (trace (importrealtime w url apikey dataset n)) = false /\
  events (trace (importrealtime w url apikey dataset n)) = [].
Proof.
  unfold realtime_importer_of. intros Hi H.
  unfold importrealtime. steps. rewrite Hi. steps.
  destruct H as [Hd | (data & Hd & H)]; rewrite Hd; steps.
  - realtime_leaf. repeat split.
  - destruct H as [He | (entity & He & Hk)]; rewrite He; [|rewrite Hk];
      realtime_leaf; repeat split.
Qed.

(** X15.  When [clear_table_stop_trip()], [import_stop_times()] or
    [import_trips()] raises, [importrealtime] ends with that error and
    records no event; the tables have been asked to clear exactly once,
    nothing is inserted after a failed clear, and trips are not imported
    after a failed import of stop times. *)
Theorem failed_replacement_is_raised_without_event
  w url apikey dataset n imp data entity k e :
  realtime_importer_of w url apikey dataset = Ok imp ->
  get_data imp = Ok (Some data) ->
  subscript data "entity" = Ok entity ->
  py_len entity = Ok k ->
  (clear_table_stop_trip imp = Raise e \/
   (clear_table_stop_trip imp = Ok tt /\
    (import_stop_times imp data = Raise e \/
     exists stop_times,
       import_stop_times imp data = Ok stop_times /\
       import_trips imp data = Raise e))) ->
  outcome (importrealtime w url apikey dataset n) = Raise e /\
  count_clears (trace (importrealtime w url apikey dataset n)) = 1 /\
  events (trace (importrealtime w url apikey dataset n)) = [] /\
  (clear_table_stop_trip imp = Raise e ->
   existsb is_insertion (trace (importrealtime w url apikey dataset n)) = false) /\
  (import_stop_times imp data = Raise e ->
   ~ In (EImportTrips data) (trace (importrealtime w url apikey dataset n))).
Proof.
  unfold realtime_importer_of. intros Hi Hd He Hk H.
  unfold importrealtime. steps. rewrite Hi. steps. rewrite Hd. steps.
  rewrite He, Hk. steps.
  destruct H as [Hc | (Hc & [Hs | (s & Hs & Ht)])]; rewrite Hc; steps.
  - realtime_leaf. repeat split. intros _ [H | H]; [discriminate|].
    repeat (apply in_app_or in H as [H | H];
            [destruct url as [[|? ?]|], apikey as [[|? ?]|], dataset as [[|? ?]|];
             simpl in H; intuition discriminate|]).
    simpl in H. intuition discriminate.
  - rewrite Hs. realtime_leaf. repeat split; try congruence.
    intros _ [H | H]; [discriminate|].
    repeat (apply in_app_or in H as [H | H];
            [destruct url as [[|? ?]|], apikey as [[|? ?]|], dataset as [[|? ?]|];
             simpl in H; intuition discriminate|]).
    simpl in H. intuition discriminate.
  - rewrite Hs. steps. rewrite Ht. realtime_leaf. repeat split; congruence.
Qed.

(** X16.  A realtime run in which every call succeeds does, in this
    order: construct the importer with the resolved URL, key and dataset,
    fetch, clear, import the stop times, import the trips, record the
    event, print the closing line.  The event carries the resolved
    dataset, under [total_trips] what [import_trips] returned and under
    [total_stop_times] what [import_stop_times] returned, and the same
    rounded difference of the two clock readings as the closing line. *)
Theorem successful_realtime_run
  w url apikey dataset n imp data entity k stop_times trips :
  realtime_importer_of w url apikey dataset = Ok imp ->
  get_data imp = Ok (Some data) ->
  subscript data "entity" = Ok entity ->
  py_len entity = Ok k ->
  clear_table_stop_trip imp = Ok tt ->
  import_stop_times imp data = Ok stop_times ->
  import_trips imp data = Ok trips ->
  (forall attributes,
     create_event_with_session w REALTIME_DATABASE_UPDATED realtime_event_message
       attributes = Ok tt) ->
  let realtime_url := resolve url (GTFS_TFI_REALTIME_URL (settings_app w)) in
  let realtime_apikey := resolve apikey (GTFS_TFI_API_KEY_1 (settings_app w)) in
  let realtime_dataset := resolve dataset (GTFS_TFI_DATASET (settings_app w)) in
  let elapsed := fround2 (fsub (perf_counter_at w (S n)) (perf_counter_at w n)) in
  importrealtime w url apikey dataset n =
  (Ok tt, S (S n),
   EPrint MsgImportingRealtime
   :: override_prints url MsgOverridingURL
   ++ override_prints apikey MsgOverridingApiKey
   ++ override_prints dataset MsgOverridingDataset
   ++ [ ENewRealTimeImporter realtime_url realtime_apikey realtime_dataset;
        EPrint (MsgImportingUsing realtime_dataset realtime_url);
        EGetData;
        EPrint (MsgEntitiesReturned k);
        EClearTableStopTrip;
        EPrint MsgImportingStopTimes;
        EImportStopTimes data;
        EPrint MsgImportingTrips;
        EImportTrips data;
        ECreateEvent REALTIME_DATABASE_UPDATED realtime_event_message
          (VDict [ ("dataset", VStr realtime_dataset);
                   ("total_trips", VInt trips);
                   ("total_stop_times", VInt stop_times);
                   ("time_taken(s)", VFloat elapsed) ]);
        EPrint (MsgFinished elapsed) ]).
Proof.
  unfold realtime_importer_of. intros Hi Hd He Hk Hc Hs Ht Hevent.
  cbv zeta. unfold importrealtime. steps. rewrite Hi. steps. rewrite Hd. steps.
  rewrite He, Hk. steps. rewrite Hc. steps. rewrite Hs. steps. rewrite Ht. steps.
  rewrite Hevent. steps. finish_run. reflexivity.
Qed.

End RealtimeBehaviour.

(** ** The commands that print a table *)

Section TableCommands.

Import Tables.

(** The four ways in which [docs] ends. *)
Lemma docs_result app :
  (openapi_config app = None /\ docs app = Raise AttributeError) \/
  (exists config,
     openapi_config app = Some config /\ openapi_controller config = None /\
     docs app = Raise AttributeError) \/
  (exists config controller,
     openapi_config app = Some config /\
     openapi_controller config = Some controller /\
     (redoc_paths controller = [] \/ swagger_ui_paths controller = [] \/
      stoplight_elements_paths controller = [] \/ rapidoc_paths controller = []) /\
     docs app = Raise IndexError) \/
  (exists config controller table,
     openapi_config app = Some config /\
     openapi_controller config = Some controller /\
     (redoc_paths controller <> [] /\ swagger_ui_paths controller <> [] /\
      stoplight_elements_paths controller <> [] /\ rapidoc_paths controller <> []) /\
     docs app = Ok table).
Proof.
  unfold docs.
  destruct (openapi_config app) as [config|]; cbn [attribute_of and_then];
    [|now left].
  destruct (openapi_controller config) as [controller|] eqn:Hk;
    cbn [attribute_of and_then]; [|right; left; eauto].
  right. right.
  destruct (redoc_paths controller) as [|p1 l1] eqn:H1;
    [left; exists config, controller; rewrite H1;
     repeat split; try assumption; auto 8|].
  destruct (swagger_ui_paths controller) as [|p2 l2] eqn:H2;
    [left; exists config, controller; rewrite H2;
     repeat split; try assumption; auto 8|].
  destruct (stoplight_elements_paths controller) as [|p3 l3] eqn:H3;
    [left; exists config, controller; rewrite H3;
     repeat split; try assumption; auto 8|].
  destruct (rapidoc_paths controller) as [|p4 l4] eqn:H4;
    [left; exists config, controller; rewrite H4;
     repeat split; try assumption; auto 8|].
  right. cbn [first_path and_then]. eexists config, controller, _.
  rewrite H1, H2, H3, H4.
  repeat split; try reflexivity; try assumption; discriminate.
Qed.

(** X17.  [docs] prints its table exactly when the application has an
    OpenAPI configuration, the configuration has a controller, and each of
    the four documentation pages (redoc, swagger, stoplight elements,
    rapidoc) has at least one path.  Without the configuration or the
    controller the first read, [app.openapi_config.openapi_controller.path],
    raises [AttributeError]; with them, a page without a path makes
    [list(...)[0]] raise [IndexError]; the command raises nothing else,
    and when it raises nothing is printed. *)
Theorem docs_needs_a_path_for_every_page app :
  ((exists table, docs app = Ok table) <->
   exists config controller,
     openapi_config app = Some config /\
     openapi_controller config = Some controller /\
     redoc_paths controller <> [] /\ swagger_ui_paths controller <> [] /\
     stoplight_elements_paths controller <> [] /\ rapidoc_paths controller <> []) /\
  (docs app = Raise AttributeError <->
   openapi_config app = None \/
   exists config,
     openapi_config app = Some config /\ openapi_controller config = None) /\
  (docs app = Raise IndexError <->
   exists config controller,
     openapi_config app = Some config /\
     openapi_controller config = Some controller /\
     (redoc_paths controller = [] \/ swagger_ui_paths controller = [] \/
      stoplight_elements_paths controller = [] \/ rapidoc_paths controller = [])) /\
  (forall e, docs app = Raise e -> e = AttributeError \/ e = IndexError).
Proof.
  destruct (docs_result app)
    as [(Hc & Hd) | [(config & Hc & Hk & Hd) |
        [(config & controller & Hc & Hk & Hp & Hd) |
         (config & controller & table & Hc & Hk & Hp & Hd)]]];
    rewrite Hd.
  - split; [|split; [|split]].
    + split; [intros [t H]; discriminate H | intros (c & k & H & _); congruence].
    + split; [intros _; now left | reflexivity].
    + split; [discriminate | intros (c & k & H & _); congruence].
    + intros e [= <-]. now left.
  - split; [|split; [|split]].
    + split; [intros [t H]; discriminate H | intros (c & k & H & H' & _); congruence].
    + split; [intros _; right; eauto | reflexivity].
    + split; [discriminate | intros (c & k & H & H' & _); congruence].
    + intros e [= <-]. now left.
  - split; [|split; [|split]].
    + split; [intros [t H]; discriminate H|].
      intros (c & k & H & H' & Hne).
      assert (k = controller) by congruence. subst k. tauto.
    + split; [discriminate | intros [H | (c & H & H')]; congruence].
    + split; [intros _; eauto | reflexivity].
    + intros e [= <-]. now right.
  - split; [|split; [|split]].
    + split; [intros _; eauto 6 | intros _; eauto].
    + split; [discriminate | intros [H | (c & H & H')]; congruence].
    + split; [discriminate|].
      intros (c & k & H & H' & He).
      assert (k = controller) by congruence. subst k. tauto.
    + discriminate.
Qed.

(** X18.  When [docs] has what it needs, the table it prints is this
    one: the columns "Doc Type" (in cyan) and "URL"; the rows Default,
    Redoc, Swagger, Elements, Rapidoc in this order, none of them styled;
    the Default URL is "http://localhost:8000" followed by the
    controller's path, and the URL of each page is the Default URL
    followed by the first path of that very page.  Every row has one cell
    per column. *)
Theorem docs_urls app config controller
  redoc_path swagger_path elements_path rapidoc_path l1 l2 l3 l4 :
  openapi_config app = Some config ->
  openapi_controller config = Some controller ->
  redoc_paths controller = redoc_path :: l1 ->
  swagger_ui_paths controller = swagger_path :: l2 ->
  stoplight_elements_paths controller = elements_path :: l3 ->
  rapidoc_paths controller = rapidoc_path :: l4 ->
  docs app =
    Ok {| columns := [ ("Doc Type", Some "cyan"); ("URL", None) ];
          rows :=
            [ (["Default"; "http://localhost:8000" ++ path controller], None);
              (["Redoc";
                "http://localhost:8000" ++ path controller ++ redoc_path], None);
              (["Swagger";
                "http://localhost:8000" ++ path controller ++ swagger_path], None);
              (["Elements";
                "http://localhost:8000" ++ path controller ++ elements_path], None);
              (["Rapidoc";
                "http://localhost:8000" ++ path controller ++ rapidoc_path], None) ]
       |}%string /\
  forall table, docs app = Ok table -> well_formed table.
Proof.
  intros Hc Hk H1 H2 H3 H4.
  assert (Hrun : docs app =
    Ok {| columns := [ ("Doc Type", Some "cyan"); ("URL", None) ];
          rows :=
            [ (["Default"; "http://localhost:8000" ++ path controller], None);
              (["Redoc";
                "http://localhost:8000" ++ path controller ++ redoc_path], None);
              (["Swagger";
                "http://localhost:8000" ++ path controller ++ swagger_path], None);
              (["Elements";
                "http://localhost:8000" ++ path controller ++ elements_path], None);
              (["Rapidoc";
                "http://localhost:8000" ++ path controller ++ rapidoc_path], None) ]
       |}%string).
  { unfold docs. rewrite Hc. cbn [attribute_of and_then]. rewrite Hk.
    cbn [attribute_of and_then]. rewrite H1, H2, H3, H4. reflexivity. }
  split; [exact Hrun|].
  intros table Ht. rewrite Hrun in Ht. injection Ht as <-.
  unfold well_formed. cbn [rows columns]. repeat constructor.
Qed.

(** X19.  The table that [settings] prints is this one: the columns
    "Setting" (in cyan) and "Value", and the seven settings in a fixed
    order.  The Debug row is the only styled one, and it is always
    styled: green with the value "True" when [DEBUG] is set, red with
    the value "False" when it is not.  Every row has one cell per
    column. *)
Theorem settings_table config :
  settings config =
    {| columns := [ ("Setting", Some "cyan"); ("Value", None) ];
       rows :=
         [ (["LITESTAR_APP"; LITESTAR_APP config], None);
           (["Debug"; if DEBUG config then "True" else "False"],
            Some (if DEBUG config then "green" else "red"));
           (["Environment"; ENVIRONMENT config], None);
           (["Database URL"; DB_URL config], None);
           (["Database SYNC URL"; DB_URL_SYNC config], None);
           (["Database Echo"; if DB_ECHO config then "True" else "False"], None);
           (["Log Level"; LOG_LEVEL config], None) ] |} /\
  well_formed (settings config).
Proof.
  split; [reflexivity|].
  unfold settings, new_table, add_column, add_row, well_formed.
  cbn [rows columns app]. repeat constructor.
Qed.

End TableCommands.

(** * Runs of the commands in concrete worlds *)

#[local] Existing Instance Demo.centi.

Example sunny_static_run :
  outcome (importgtfs (Demo.sunny "y" (Ok None)) None 0) = Ok tt /\
  visits (trace (importgtfs (Demo.sunny "y" (Ok None)) None 0)) = files_to_import /\
  length (events (trace (importgtfs (Demo.sunny "y" (Ok None)) None 0))) = 1.
Proof. vm_compute. repeat split. Qed.

(** C2, at a fetch that returns [None]. *)
Lemma realtime_null_no_mutation_witness :
  outcome (importrealtime (Demo.sunny "y" (Ok None)) None None None 0) = Ok tt /\
  existsb is_table_mutation
    (trace (importrealtime (Demo.sunny "y" (Ok None)) None None None 0)) = false /\
  existsb is_event
    (trace (importrealtime (Demo.sunny "y" (Ok None)) None None None 0)) = false.
Proof.
  apply (realtime_null_no_mutation (Demo.sunny "y" (Ok None)) None None None 0
           (Demo.rt_importer (Ok None))); reflexivity.
Defined.

(** C7, at a feed of three entities. *)
Lemma realtime_tables_replaced_witness :
  count_clears
    (trace (importrealtime (Demo.sunny "y" (Ok (Some Demo.feed))) None None None 0))
  = 1.
Proof.
  destruct (realtime_tables_replaced (Demo.sunny "y" (Ok (Some Demo.feed)))
              (fun _ => []) (fun _ => []) None None None 0) as (_ & H & _).
  apply H. reflexivity.
Defined.

(** C9, at a directory that does not exist. *)
Lemma missing_directory_aborts_witness :
  importgtfs Demo.nothing_on_disk (Some "./nowhere/") 0 =
  (Raise AttributeError, 1,
   [EPrint MsgImportingStatic; EExists "./nowhere/";
    EPrint (MsgDirectoryDoesNotExist "./nowhere/")]).
Proof.
  destruct (missing_directory_aborts Demo.nothing_on_disk "./nowhere/" 0)
    as (_ & H & _).
  - discriminate.
  - reflexivity.
  - exact H.
Defined.

(** C1: the claim fails when a row of [stops.txt] does not convert: the
    command ends with the error of [import_data], no event is recorded
    (so no report, with or without a [Failed] entry), and the loop never
    reaches [trips.txt], [stop_times.txt] and [shapes.txt]. *)
Lemma import_error_is_fatal :
  outcome (importgtfs Demo.stops_malformed None 0) =
    Raise (LibError "RowConversionError") /\
  events (trace (importgtfs Demo.stops_malformed None 0)) = [] /\
  visits (trace (importgtfs Demo.stops_malformed None 0)) =
    [ "agency.txt"; "calendar.txt"; "calendar_dates.txt"; "routes.txt";
      "stops.txt" ].
Proof. vm_compute. repeat split. Qed.

(** C1, amended, at that run. *)
Lemma import_error_aborts_run_witness :
  outcome (importgtfs Demo.stops_malformed None 0) =
    Raise (LibError "RowConversionError") /\
  events (trace (importgtfs Demo.stops_malformed None 0)) = [].
Proof.
  destruct (import_error_aborts_run Demo.stops_malformed None 0
              default_directory "TFI"
              [ "agency.txt"; "calendar.txt"; "calendar_dates.txt"; "routes.txt" ]
              "stops.txt" [ "trips.txt"; "stop_times.txt"; "shapes.txt" ]
              (LibError "RowConversionError"))
    as (_ & _ & H & He & _).
  - repeat split.
  - reflexivity.
  - exists 2%Z, {| importer_repr := "stops.txt"; clear_table := Ok tt;
                   import_data := Raise (LibError "RowConversionError") |}.
    split; [|right; split; reflexivity].
    split; [reflexivity|]. exists Demo.two_rows, "reader". repeat split.
  - split; [|exact He]. apply H. intros f l k Hf.
    repeat (destruct Hf as [<- | Hf]; [reflexivity|]). destruct Hf.
Defined.

(** C3: the claim fails for a run that is declined at the prompt, which
    goes through no file and emits no report, and for a run in which an
    import raises, which stops after five files and emits no report. *)
Lemma some_runs_stop_early :
  (outcome (importgtfs (Demo.sunny "n" (Ok None)) None 0) = Ok tt /\
   visits (trace (importgtfs (Demo.sunny "n" (Ok None)) None 0)) = [] /\
   events (trace (importgtfs (Demo.sunny "n" (Ok None)) None 0)) = []) /\
  (length (visits (trace (importgtfs Demo.stops_malformed None 0))) = 5 /\
   events (trace (importgtfs Demo.stops_malformed None 0)) = []).
Proof. vm_compute. repeat split. Qed.

(** C3, amended, at a run in which every file is imported. *)
Lemma confirmed_run_visits_each_file_once_witness :
  visits (trace (importgtfs (Demo.sunny "y" (Ok None)) None 0)) =
    [ "agency.txt"; "calendar.txt"; "calendar_dates.txt"; "routes.txt";
      "stops.txt"; "trips.txt"; "stop_times.txt"; "shapes.txt" ].
Proof.
  destruct (confirmed_run_visits_each_file_once (Demo.sunny "y" (Ok None)) None 0
              default_directory "TFI") as (H & _).
  - repeat split.
  - intros file l k Hf.
    repeat (destruct Hf as [<- | Hf]; [reflexivity|]). destruct Hf.
  - exact H.
Defined.

(** C5: the claim fails on its count.  In a directory that contains only
    [agency.txt], the files reported as missing are the other seven of
    the eight, not six. *)
Lemma only_agency_skips_seven :
  reported_missing (trace (importgtfs Demo.only_agency None 0)) =
    [ "calendar.txt"; "calendar_dates.txt"; "routes.txt"; "stops.txt";
      "trips.txt"; "stop_times.txt"; "shapes.txt" ] /\
  length (reported_missing (trace (importgtfs Demo.only_agency None 0))) <> 6.
Proof. vm_compute. split; [reflexivity | discriminate]. Qed.

(** C5, amended, at that directory. *)
Lemma missing_file_is_skipped_witness :
  exists time_taken total,
    events (trace (importgtfs Demo.only_agency None 0)) =
    [ECreateEvent GTFS_DATABASE_UPDATED static_event_message
       (VDict
          [ ("dataset", VStr "TFI");
            ("totals",
             VDict
               [ ("agency", entry_imported time_taken 2);
                 ("calendar", entry_missing "calendar.txt");
                 ("calendar_dates", entry_missing "calendar_dates.txt");
                 ("routes", entry_missing "routes.txt");
                 ("stops", entry_missing "stops.txt");
                 ("trips", entry_missing "trips.txt");
                 ("stop_times", entry_missing "stop_times.txt");
                 ("shapes", entry_missing "shapes.txt") ]);
            ("total_time_taken(s)", VFloat total) ])].
Proof.
  destruct (missing_file_is_skipped Demo.only_agency default_directory "TFI")
    as (_ & H).
  apply (H None 0 2%Z (Demo.ok_importer "agency.txt")).
  - repeat split.
  - reflexivity.
  - intros file Hf.
    repeat (destruct Hf as [<- | Hf]; [reflexivity|]). destruct Hf.
  - split; [reflexivity|]. exists Demo.two_rows, "reader". repeat split.
  - reflexivity.
  - reflexivity.
Defined.

(** C10, at the default directory without its trailing "/": the prompt
    shows the parent's name and the path probed for [agency.txt] is
    malformed. *)
Lemma dataset_and_paths_witness :
  In (EPrompt "gtfs_data")
     (trace (importgtfs (Demo.sunny "y" (Ok None)) (Some "./gtfs_data/TFI") 0)) /\
  In (EIsFile "./gtfs_data/TFIagency.txt")
     (trace (importgtfs (Demo.sunny "y" (Ok None)) (Some "./gtfs_data/TFI") 0)).
Proof.
  destruct (dataset_and_paths (Demo.sunny "y" (Ok None)) (Some "./gtfs_data/TFI") 0)
    as (_ & H & _).
  destruct (H "gtfs_data") as (Hprompt & Hrun).
  - reflexivity.
  - reflexivity.
  - split; [exact Hprompt|].
    destruct (Hrun eq_refl) as (Hfiles & _).
    destruct (Hfiles [] "agency.txt"
                [ "calendar.txt"; "calendar_dates.txt"; "routes.txt";
                  "stops.txt"; "trips.txt"; "stop_times.txt"; "shapes.txt" ])
      as (_ & Hprobe).
    + reflexivity.
    + intros f l k [].
    + apply Hprobe. reflexivity.
Defined.


(** C8, at an empty directory. *)
Lemma all_skipped_run_raises_unbound_local_witness :
  outcome (importgtfs Demo.empty_directory None 0) = Raise UnboundLocalError /\
  exists before totals,
    trace (importgtfs Demo.empty_directory None 0) =
      before ++ [ECreateEvent GTFS_DATABASE_UPDATED
                   "GTFS static data updated with latest schedules"
                   (VDict [ ("dataset", VStr "TFI");
                            ("totals", VDict totals);
                            ("total_time_taken(s)", VFloat 0%Z) ])] /\
    dict_get totals "shapes" =
      Some (VDict [ ("time_taken(s)", VInt 0);
                    ("row_count", VInt 0);
                    ("error", VStr "File 'shapes.txt' does not exist.") ]).
Proof.
  destruct (all_skipped_run_raises_unbound_local Demo.empty_directory None 0
              default_directory "TFI")
    as (H & before & totals & Ht & _ & _ & Hmissing & _).
  - repeat split.
  - intros file Hf. left. reflexivity.
  - reflexivity.
  - split; [exact H|]. exists before, totals. split; [exact Ht|].
    apply (Hmissing "shapes.txt"); [simpl; tauto | reflexivity].
Defined.

(** C4: the claim fails on the names of the keys.  In the event of a
    static run there is no [total_time_taken_s] and the entry of a file
    has no [time_taken_s]; in the event of a realtime run there is no
    [time_taken_s]. *)
Lemma report_has_no_time_taken_s :
  (exists attributes totals entry,
     events (trace (importgtfs (Demo.sunny "y" (Ok None)) None 0)) =
       [ECreateEvent GTFS_DATABASE_UPDATED static_event_message attributes] /\
     subscript attributes "total_time_taken_s" = Raise KeyError /\
     subscript attributes "totals" = Ok (VDict totals) /\
     dict_get totals "agency" = Some entry /\
     subscript entry "row_count" = Ok (VInt 2) /\
     subscript entry "time_taken_s" = Raise KeyError) /\
  (exists attributes,
     events (trace (importrealtime (Demo.sunny "y" (Ok (Some Demo.feed)))
                      None None None 0)) =
       [ECreateEvent REALTIME_DATABASE_UPDATED realtime_event_message attributes] /\
     subscript attributes "total_trips" = Ok (VInt 3) /\
     subscript attributes "time_taken_s" = Raise KeyError).
Proof.
  split.
  - eexists _, _, _. vm_compute. repeat split.
  - eexists. vm_compute. repeat split.
Qed.

(** C4, amended, at a static and at a realtime run in which every call
    succeeds. *)
Lemma report_shape_witness :
  (exists totals total,
     In (ECreateEvent GTFS_DATABASE_UPDATED static_event_message
           (VDict [ ("dataset", VStr "TFI");
                    ("totals", VDict totals);
                    ("total_time_taken(s)", VFloat total) ]))
        (trace (importgtfs (Demo.sunny "y" (Ok None)) None 0))) /\
  (exists time_taken,
     In (ECreateEvent REALTIME_DATABASE_UPDATED realtime_event_message
           (VDict [ ("dataset", VStr "TFI");
                    ("total_trips", VInt 3);
                    ("total_stop_times", VInt 7);
                    ("time_taken(s)", VFloat time_taken) ]))
        (trace (importrealtime (Demo.sunny "y" (Ok (Some Demo.feed)))
                  None None None 0))).
Proof.
  split.
  - destruct (report_shape (Demo.sunny "y" (Ok None)) (ImportGtfs None) 0)
      as [_ H].
    apply (H default_directory "TFI").
    + repeat split.
    + intros file l k Hf.
      repeat (destruct Hf as [<- | Hf]; [reflexivity|]). destruct Hf.
  - destruct (report_shape (Demo.sunny "y" (Ok (Some Demo.feed)))
                (ImportRealtime None None None) 0) as [_ H].
    apply (H (Demo.rt_importer (Ok (Some Demo.feed))) Demo.feed
             (VList [VInt 1; VInt 2; VInt 3]) 3 7%Z 3%Z); reflexivity.
Defined.

(** ** Runs for the further properties *)

(** X2, at a run declined with "n". *)
Lemma declined_run_changes_nothing_witness :
  outcome (importgtfs (Demo.sunny "n" (Ok None)) None 0) = Ok tt /\
  existsb is_table_mutation
    (trace (importgtfs (Demo.sunny "n" (Ok None)) None 0)) = false.
Proof.
  destruct (declined_run_changes_nothing (Demo.sunny "n" (Ok None)) None 0
              default_directory "TFI") as (H & Hm & _).
  - reflexivity.
  - reflexivity.
  - discriminate.
  - split; [now rewrite H | exact Hm].
Defined.

(** X3, at the directory "data". *)
Lemma directory_without_separator_raises_witness :
  outcome (importgtfs (Demo.sunny "y" (Ok None)) (Some "data") 0) = Raise IndexError.
Proof.
  destruct (directory_without_separator_raises (Demo.sunny "y" (Ok None)) "data" 0)
    as (_ & H).
  rewrite H; [reflexivity | discriminate | reflexivity | reflexivity].
Defined.

(** X4, at a file whose header is rejected. *)
Lemma only_the_registry_error_is_recovered_witness :
  outcome (process_file Demo.unreadable default_directory "TFI" initial_locals
             "agency.txt" 0) = Raise (LibError "HeaderMismatch").
Proof.
  destruct (only_the_registry_error_is_recovered Demo.unreadable default_directory
              "TFI" initial_locals "agency.txt" 0 (LibError "HeaderMismatch"))
    as (H & _).
  - reflexivity.
  - right. eexists. split; [reflexivity|]. left. reflexivity.
  - exact H.
Defined.

(** X5, at a file of an empty directory. *)
Lemma skipped_file_touches_no_table_witness :
  existsb is_table_mutation
    (trace (process_file Demo.empty_directory default_directory "TFI"
              initial_locals "agency.txt" 0)) = false.
Proof.
  destruct (skipped_file_touches_no_table Demo.empty_directory default_directory
              "TFI" initial_locals "agency.txt" 0) as (l & _ & _ & H & _).
  - left. reflexivity.
  - exact H.
Defined.

(** X6, at a run that imports every file. *)
Lemma tables_change_only_after_consent_witness :
  exists dataset,
    dataset_of (resolve None default_directory) = Some dataset /\
    In (EPrompt dataset) (trace (importgtfs (Demo.sunny "y" (Ok None)) None 0)) /\
    click_prompt (Demo.sunny "y" (Ok None)) dataset = "y".
Proof.
  apply (tables_change_only_after_consent (Demo.sunny "y" (Ok None)) None 0).
  vm_compute. reflexivity.
Defined.

(** X8, X11 and X12, at the run in a directory with [agency.txt] only. *)
Lemma only_agency_event :
  In (ECreateEvent GTFS_DATABASE_UPDATED static_event_message
        Demo.only_agency_report)
     (trace (importgtfs Demo.only_agency None 0)).
Proof. apply (nth_error_In _ 33). vm_compute. reflexivity. Qed.

Lemma event_reports_a_complete_pass_witness :
  visits (trace (importgtfs Demo.only_agency None 0)) = files_to_import.
Proof.
  destruct (event_reports_a_complete_pass Demo.only_agency None 0 _ _ _
              only_agency_event) as (H & _).
  exact H.
Defined.

Lemma reported_total_is_the_sum_of_the_times_witness :
  exists dataset totals,
    Demo.only_agency_report =
      VDict [ ("dataset", VStr dataset);
              ("totals", VDict totals);
              ("total_time_taken(s)",
               VFloat (fold_left fadd (reported_times totals) fzero)) ].
Proof.
  exact (reported_total_is_the_sum_of_the_times Demo.only_agency None 0 _ _ _
           only_agency_event).
Defined.

Lemma every_file_has_its_entry_witness :
  exists totals entry,
    subscript Demo.only_agency_report "totals" = Ok (VDict totals) /\
    dict_get totals (base_name "stop_times.txt") = Some entry /\
    is_file_entry "stop_times.txt" entry.
Proof.
  apply (every_file_has_its_entry Demo.only_agency None 0 _ _ _ "stop_times.txt"
           only_agency_event).
  unfold files_to_import. simpl. tauto.
Defined.

(** X9, at a run that imports every file. *)
Lemma normal_return_means_declined_or_imported_witness :
  (In (EPrint MsgAborting) (trace (importgtfs (Demo.sunny "y" (Ok None)) None 0)) /\
   existsb is_table_mutation
     (trace (importgtfs (Demo.sunny "y" (Ok None)) None 0)) = false) \/
  (exists file,
     In file files_to_import /\
     In (EImportData file) (trace (importgtfs (Demo.sunny "y" (Ok None)) None 0)) /\
     length (events (trace (importgtfs (Demo.sunny "y" (Ok None)) None 0))) = 1).
Proof.
  apply (normal_return_means_declined_or_imported (Demo.sunny "y" (Ok None)) None 0).
  vm_compute. reflexivity.
Defined.

(** X13, at a world where events cannot be recorded. *)
Lemma event_error_is_raised_after_the_import_witness :
  outcome (importgtfs (Demo.event_store_down (Ok None)) None 0) =
    Raise (LibError "ConnectionError").
Proof.
  destruct (event_error_is_raised_after_the_import (Demo.event_store_down (Ok None))
              None 0 default_directory "TFI" (LibError "ConnectionError"))
    as (H & _).
  - repeat split.
  - intros file l k Hf.
    repeat (destruct Hf as [<- | Hf]; [reflexivity|]). destruct Hf.
  - reflexivity.
  - exact H.
Defined.

(** X14, at a feed without "entity". *)
Lemma unusable_feed_touches_no_table_witness :
  outcome (importrealtime (Demo.sunny "y" (Ok (Some (VDict [])))) None None None 0)
    = Raise KeyError.
Proof.
  destruct (unusable_feed_touches_no_table (Demo.sunny "y" (Ok (Some (VDict []))))
              None None None 0 (Demo.rt_importer (Ok (Some (VDict [])))) KeyError)
    as (H & _).
  - reflexivity.
  - right. eexists. split; [reflexivity|]. left. reflexivity.
  - exact H.
Defined.

(** X15, at a world where the stop times are rejected. *)
Lemma failed_replacement_is_raised_without_event_witness :
  outcome (importrealtime Demo.stop_times_rejected None None None 0) =
    Raise (LibError "IntegrityError") /\
  count_clears (trace (importrealtime Demo.stop_times_rejected None None None 0)) = 1.
Proof.
  destruct (failed_replacement_is_raised_without_event Demo.stop_times_rejected
              None None None 0 Demo.rt_importer_failing Demo.feed
              (VList [VInt 1; VInt 2; VInt 3]) 3 (LibError "IntegrityError"))
    as (H1 & H2 & _).
  - reflexivity.
  - reflexivity.
  - reflexivity.
  - reflexivity.
  - right. split; [reflexivity|]. left. reflexivity.
  - split; assumption.
Defined.

(** X16, at a feed of three entities. *)
Lemma successful_realtime_run_witness :
  outcome (importrealtime (Demo.sunny "y" (Ok (Some Demo.feed))) None (Some "k") None 0)
    = Ok tt.
Proof.
  rewrite (successful_realtime_run (Demo.sunny "y" (Ok (Some Demo.feed)))
             None (Some "k") None 0 (Demo.rt_importer (Ok (Some Demo.feed)))
             Demo.feed (VList [VInt 1; VInt 2; VInt 3]) 3 7%Z 3%Z);
    reflexivity.
Defined.

(** X1, at a directory that does not exist. *)
Lemma validator_result_and_probes_witness :
  outcome (gtfs_directory_validator Demo.nothing_on_disk (Some "./nowhere/") 0)
    = Ok None /\
  ~ In (EIsDir "./nowhere/")
       (trace (gtfs_directory_validator Demo.nothing_on_disk (Some "./nowhere/") 0)).
Proof.
  destruct (validator_result_and_probes Demo.nothing_on_disk (Some "./nowhere/") 0)
    as (_ & H1 & H2).
  split; [exact H1|]. intros H. apply H2 in H. discriminate H.
Defined.

(** X10, at the import of [agency.txt] in a run that imports every
    file. *)
Lemma every_import_follows_its_clear_witness :
  exists dataset row_count importer,
    dataset_of default_directory = Some dataset /\
    dispatched_to (Demo.sunny "y" (Ok None)) default_directory dataset
      "agency.txt" row_count importer /\
    clear_table importer = Ok tt.
Proof.
  destruct (every_import_follows_its_clear (Demo.sunny "y" (Ok None)) None 0)
    as [_ H].
  destruct (H "agency.txt") as (_ & Himp).
  - apply (nth_error_In _ 11). vm_compute. reflexivity.
  - exact Himp.
Defined.

(** X17, at an application with one path per page and at one built
    without the OpenAPI schema. *)
Lemma docs_needs_a_path_for_every_page_witness :
  (exists table, Tables.docs Demo.app = Ok table) /\
  Tables.docs Demo.app_without_openapi = Raise AttributeError.
Proof.
  split.
  - destruct (docs_needs_a_path_for_every_page Demo.app) as ((_ & H) & _).
    apply H. exists {| Tables.openapi_controller := Some Demo.controller |},
                    Demo.controller.
    repeat split; discriminate.
  - destruct (docs_needs_a_path_for_every_page Demo.app_without_openapi)
      as (_ & (_ & H) & _).
    apply H. left. reflexivity.
Defined.

(** X18, at an application with one path per page. *)
Lemma docs_urls_witness :
  Tables.docs Demo.app =
    Ok {| Tables.columns := [ ("Doc Type", Some "cyan"); ("URL", None) ];
          Tables.rows :=
            [ (["Default"; "http://localhost:8000/schema"], None);
              (["Redoc"; "http://localhost:8000/schema/redoc"], None);
              (["Swagger"; "http://localhost:8000/schema/swagger"], None);
              (["Elements"; "http://localhost:8000/schema/elements"], None);
              (["Rapidoc"; "http://localhost:8000/schema/rapidoc"], None) ] |}.
Proof.
  exact (proj1 (docs_urls Demo.app
                  {| Tables.openapi_controller := Some Demo.controller |}
                  Demo.controller "/redoc" "/swagger" "/elements" "/rapidoc"
                  [] [] [] []
                  eq_refl eq_refl eq_refl eq_refl eq_refl eq_refl)).
Defined.

(** X19, at the settings of an application in production. *)
Lemma settings_table_witness :
  Tables.settings Demo.production_settings =
    {| Tables.columns := [ ("Setting", Some "cyan"); ("Value", None) ];
       Tables.rows :=
         [ (["LITESTAR_APP"; "SimplyTransport.app:create_app"], None);
           (["Debug"; "False"], Some "red");
           (["Environment"; "prod"], None);
           (["Database URL"; "postgresql+asyncpg://db/st"], None);
           (["Database SYNC URL"; "postgresql://db/st"], None);
           (["Database Echo"; "False"], None);
           (["Log Level"; "WARNING"], None) ] |}.
Proof.
  destruct (settings_table Demo.production_settings) as [H _]. exact H.
Defined.
